(** * Azure AI agent deployment scripts: a shallow embedding

    The development follows the Python sources:

    - [scripts/agents/yaml_parser.py]    (module [YamlParser])
    - [scripts/agents/azure_discovery.py] (module [AzureDiscovery])
    - [scripts/create-agent.py]          (module [CreateAgent])
    - [agents/agent_builder.py]          (module [AgentBuilder])
    - [test-agent.py]                    (module [TestAgent])

    Python text is embedded as [string]: one [ascii] per code point, so the
    development covers text whose code points are below 256.  Collaborators
    that live outside the repository (PyYAML, the [json] module, the [az]
    command line, the Azure SDK, the terminal) are parameters or explicit
    worlds; the functions of the repository are definitions that compute.
    What the functions print is left out: the terminal's output is not part
    of the worlds.  The embedding comes first, the proofs after it. *)

From Stdlib Require Import Strings.String Strings.Ascii Lists.List.
From Stdlib Require Import ZArith QArith Bool Arith Lia.
Import ListNotations.

Local Open Scope string_scope.
Local Open Scope Z_scope.

Set Implicit Arguments.
Set Warnings "-register-all".

(* ================================================================== *)
(** * Python text primitives *)
(* ================================================================== *)

Module Py.

Definition LF : ascii := "010"%char.
Definition nl : string := String LF "".

(** [str.isspace] on one code point below 256: TAB..CR, FS..US, SPACE,
    NEL (0x85) and NBSP (0xA0).  The same class is [\s] of module [re]
    on [str] patterns. *)
Definition isspace (c : ascii) : bool :=
  let n := N_of_ascii c in
  (((9 <=? n) && (n <=? 13)) || ((28 <=? n) && (n <=? 32))
   || (n =? 133) || (n =? 160))%N.

(** [str.lower] on one code point below 256. *)
Definition lower_char (c : ascii) : ascii :=
  let n := N_of_ascii c in
  if (((65 <=? n) && (n <=? 90))
      || ((192 <=? n) && (n <=? 222) && negb (n =? 215)))%N
  then ascii_of_N (n + 32) else c.

Fixpoint lower (s : string) : string :=
  match s with
  | EmptyString => EmptyString
  | String c s' => String (lower_char c) (lower s')
  end.

Fixpoint all_chars (p : ascii -> bool) (s : string) : bool :=
  match s with
  | EmptyString => true
  | String c s' => p c && all_chars p s'
  end.

Fixpoint lstrip (s : string) : string :=
  match s with
  | EmptyString => EmptyString
  | String c s' => if isspace c then lstrip s' else s
  end.

(** [s.rstrip(chars)] for the characters that satisfy [p]. *)
Fixpoint rstrip_by (p : ascii -> bool) (s : string) : string :=
  match s with
  | EmptyString => EmptyString
  | String c s' =>
      match rstrip_by p s' with
      | EmptyString => if p c then EmptyString else String c EmptyString
      | r => String c r
      end
  end.

Definition rstrip (s : string) : string := rstrip_by isspace s.

(** [s.strip()] *)
Definition strip (s : string) : string := rstrip (lstrip s).

(** [s.startswith(p)] *)
Definition startswith (s p : string) : bool := String.prefix p s.

(** [needle in hay] *)
Fixpoint contains (needle hay : string) : bool :=
  String.prefix needle hay
  || match hay with
     | EmptyString => false
     | String _ hay' => contains needle hay'
     end.

(** [s.split(sep, 1)[1]] for a one-character separator: the text after its
    first occurrence, [None] standing for the [IndexError] when the
    separator does not occur. *)
Fixpoint after_first (sep : ascii) (s : string) : option string :=
  match s with
  | EmptyString => None
  | String c s' => if Ascii.eqb c sep then Some s' else after_first sep s'
  end.

(** Line boundaries of [str.splitlines] below code point 256. *)
Definition is_linebreak (c : ascii) : bool :=
  let n := N_of_ascii c in
  (((10 <=? n) && (n <=? 13)) || ((28 <=? n) && (n <=? 30)) || (n =? 133))%N.

Definition CR : ascii := "013"%char.

(** [s.splitlines()]: [cur] is the line read so far. *)
Fixpoint splitlines_aux (s : string) (cur : string) : list string :=
  match s with
  | EmptyString =>
      match cur with EmptyString => [] | _ => [cur] end
  | String c s' =>
      if is_linebreak c then
        match s' with
        | String d s'' =>
            if Ascii.eqb c CR && Ascii.eqb d LF
            then cur :: splitlines_aux s'' EmptyString
            else cur :: splitlines_aux s' EmptyString
        | EmptyString => [cur]
        end
      else splitlines_aux s' (cur ++ String c EmptyString)
  end.

Definition splitlines (s : string) : list string :=
  splitlines_aux s EmptyString.

(** The text holds no line boundary. *)
Definition one_line (s : string) : bool :=
  all_chars (fun c => negb (is_linebreak c)) s.

(** Decimal digits accepted by [int()]: below code point 256 these are
    ['0'..'9']. *)
Definition digit_value (c : ascii) : option Z :=
  let n := N_of_ascii c in
  if ((48 <=? n) && (n <=? 57))%N then Some (Z.of_N n - 48) else None.

(** Digits with single underscores between them, as [int()] reads them. *)
Fixpoint int_digits (s : string) (acc : Z) (after_digit : bool) : option Z :=
  match s with
  | EmptyString => if after_digit then Some acc else None
  | String c s' =>
      match digit_value c with
      | Some d => int_digits s' (10 * acc + d) true
      | None =>
          if Ascii.eqb c "_"%char && after_digit
          then int_digits s' acc false
          else None
      end
  end.

(** [int(s)] for a [str]: [None] stands for [ValueError]. *)
Definition int_of_str (s : string) : option Z :=
  match strip s with
  | String "-" r => option_map Z.opp (int_digits r 0 false)
  | String "+" r => int_digits r 0 false
  | r => int_digits r 0 false
  end.

(** Builtin exception classes that the modelled code can meet. *)
Inductive exc_class :=
| ValueError | TypeError | AttributeError | OverflowError
| IndexError | JSONDecodeError | EOFError | KeyboardInterrupt | OSError.

(** Whether [except Exception] catches the class: [KeyboardInterrupt]
    derives from [BaseException] only. *)
Definition is_exception (c : exc_class) : bool :=
  match c with
  | KeyboardInterrupt => false
  | _ => true
  end.

(** Python objects as [yaml.safe_load] and [json.loads] produce them.  A
    finite [float] is its exact rational value; [PyNonFinite true] is nan
    and [PyNonFinite false] an infinity.  Dates, byte strings and sets,
    which YAML can also give, are left out. *)
Inductive value :=
| PyNone
| PyBool (b : bool)
| PyInt (z : Z)
| PyFloat (q : Q)
| PyNonFinite (nan : bool)
| PyStr (s : string)
| PyList (l : list value)
| PyDict (d : list (value * value)).

(** Truth value of an object ([bool(v)], as [if not v] tests it). *)
Definition truthy (v : value) : bool :=
  match v with
  | PyNone => false
  | PyBool b => b
  | PyInt z => negb (z =? 0)
  | PyFloat q => negb (Qeq_bool q 0)
  | PyNonFinite _ => true
  | PyStr s => negb (String.eqb s "")
  | PyList l => match l with [] => false | _ => true end
  | PyDict d => match d with [] => false | _ => true end
  end.

Definition is_key (k : string) (v : value) : bool :=
  match v with
  | PyStr s => String.eqb s k
  | _ => false
  end.

(** Entry of a dict under a [str] key.  The dict is kept in insertion
    order with one entry per key, as the loaders build it. *)
Fixpoint dict_lookup (k : string) (d : list (value * value)) : option value :=
  match d with
  | [] => None
  | (k', v) :: d' => if is_key k k' then Some v else dict_lookup k d'
  end.

(** [v.get(k, default)]: [inl AttributeError] when [v] has no [get]. *)
Definition get (v : value) (k : string) (default : value)
  : exc_class + value :=
  match v with
  | PyDict d =>
      match dict_lookup k d with
      | Some x => inr x
      | None => inr default
      end
  | _ => inl AttributeError
  end.

(** [int(v)] *)
Definition int (v : value) : exc_class + Z :=
  match v with
  | PyInt z => inr z
  | PyBool b => inr (if b then 1 else 0)
  | PyFloat q => inr (Z.quot (Qnum q) (Zpos (Qden q)))
  | PyNonFinite nan => inl (if nan then ValueError else OverflowError)
  | PyStr s =>
      match int_of_str s with
      | Some z => inr z
      | None => inl ValueError
      end
  | PyNone | PyList _ | PyDict _ => inl TypeError
  end.

End Py.

(* ================================================================== *)
(** * A backtracking matcher for the fragment of [re] the parser uses *)
(* ================================================================== *)

Module Re.

Inductive regex :=
| Lit (l : string)                          (* literal text *)
| Star (greedy : bool) (p : ascii -> bool)  (* [c*] or [c*?] for a class *)
| Opt (r : regex)                           (* [r?], greedy *)
| Cat (r1 r2 : regex)
| Grp (n : nat) (r : regex).                (* capturing group number n *)

Definition groups := nat -> option string.

Definition no_groups : groups := fun _ => None.

Definition set_group (n : nat) (w : string) (g : groups) : groups :=
  fun i => if Nat.eqb i n then Some w else g i.

Fixpoint strip_prefix (l s : string) : option string :=
  match l with
  | EmptyString => Some s
  | String a l' =>
      match s with
      | String b s' => if Ascii.eqb a b then strip_prefix l' s' else None
      | EmptyString => None
      end
  end.

Section Matcher.
Variable A : Type.

(** The continuation receives the text just matched and the text left. *)
Definition cont := string -> string -> option A.

(** [c*]: the longest run first, giving back one character at a time. *)
Fixpoint star_greedy (p : ascii -> bool) (s : string) (k : cont)
  : option A :=
  match s with
  | String c s' =>
      if p c then
        match star_greedy p s' (fun w t => k (String c w) t) with
        | Some x => Some x
        | None => k EmptyString s
        end
      else k EmptyString s
  | EmptyString => k EmptyString s
  end.

(** [c*?]: the empty run first, taking one more character at a time. *)
Fixpoint star_lazy (p : ascii -> bool) (s : string) (k : cont)
  : option A :=
  match k EmptyString s with
  | Some x => Some x
  | None =>
      match s with
      | String c s' =>
          if p c then star_lazy p s' (fun w t => k (String c w) t)
          else None
      | EmptyString => None
      end
  end.

Fixpoint run (r : regex) (s : string) (g : groups)
    (k : string -> string -> groups -> option A) : option A :=
  match r with
  | Lit l =>
      match strip_prefix l s with
      | Some t => k l t g
      | None => None
      end
  | Star true p => star_greedy p s (fun w t => k w t g)
  | Star false p => star_lazy p s (fun w t => k w t g)
  | Opt r1 =>
      match run r1 s g k with
      | Some x => Some x
      | None => k EmptyString s g
      end
  | Cat r1 r2 =>
      run r1 s g (fun w1 s1 g1 =>
        run r2 s1 g1 (fun w2 s2 g2 => k (w1 ++ w2) s2 g2))
  | Grp n r1 =>
      run r1 s g (fun w t g1 => k w t (set_group n w g1))
  end.
End Matcher.

(** [re.match(r, s)]: anchored at the start of [s], not at its end. *)
Definition re_match (r : regex) (s : string) : option groups :=
  run r s no_groups (fun _ _ g => Some g).

(** The texts a pattern can match, with the groups it then sets. *)
Inductive matches : regex -> string -> groups -> groups -> Prop :=
| M_Lit l g : matches (Lit l) l g g
| M_Star b p w g : Py.all_chars p w = true -> matches (Star b p) w g g
| M_OptSome r w g g' : matches r w g g' -> matches (Opt r) w g g'
| M_OptNone r g : matches (Opt r) EmptyString g g
| M_Cat r1 r2 w1 w2 g g1 g2 :
    matches r1 w1 g g1 -> matches r2 w2 g1 g2 ->
    matches (Cat r1 r2) (w1 ++ w2) g g2
| M_Grp n r w g g' :
    matches r w g g' -> matches (Grp n r) w g (set_group n w g').

End Re.

(* ================================================================== *)
(** * [scripts/agents/yaml_parser.py] *)
(* ================================================================== *)

Module YamlParser.
Import Py Re.

(** Result of [yaml.safe_load]: a [yaml.YAMLError] with its text, or the
    loaded object. *)
Inductive load_result :=
| YAMLError (e : string)
| Loaded (v : value).

(** The dataclass [AgentConfig].  The fields hold whatever objects the
    frontmatter gave: the dataclass does not check its annotations. *)
Record AgentConfig := {
  name : value;
  description : value;
  instructions : string;
  model_hint : value
}.

(** The four [ValueError]s of [parse_agent_yaml], by message. *)
Inductive parse_error :=
| InvalidFormat            (* "Invalid agent file format. Expected YAML
                              frontmatter between --- markers." *)
| InvalidYaml (e : string) (* "Invalid YAML in frontmatter: {e}" *)
| NotADictionary           (* "Frontmatter must be a YAML dictionary" *)
| MissingName.             (* "Agent must have a 'name' field" *)

Definition any_char (_ : ascii) : bool := true.

Declare Scope regex_scope.
Delimit Scope regex_scope with regex.
Infix ">>" := Cat (at level 61, right associativity) : regex_scope.

(** The pattern of line 68, matched under [re.DOTALL]; written with its
    pieces apart: ^--- \s* \n ( .*? ) \n--- \s* \n? ( .* ).  The leading ^
    holds by itself at the only position [re.match] tries. *)
Definition frontmatter_pattern : regex :=
  (Lit "---" >> Star true isspace >> Lit nl >>
   Grp 1 (Star false any_char) >>
   Lit (nl ++ "---") >> Star true isspace >> Opt (Lit nl) >>
   Grp 2 (Star true any_char))%regex.

(** [match.group(n)] for a group that took part in the match. *)
Definition group (m : groups) (n : nat) : string :=
  match m n with
  | Some w => w
  | None => EmptyString
  end.

(** The part of the pattern from the closing marker on. *)
Definition closing_pattern : regex :=
  (Lit (nl ++ "---") >> Star true isspace >> Opt (Lit nl) >>
   Grp 2 (Star true any_char))%regex.

(** [match.group(1)], the text handed to the loader, when the pattern
    matches. *)
Definition frontmatter_of (content : string) : option string :=
  option_map (fun m => group m 1) (re_match frontmatter_pattern content).

(** The document begins with a header line [---] (white space may follow
    the dashes) and a later line begins with [---]. *)
Definition has_markers (content : string) : Prop :=
  exists head frontmatter rest,
    content = "---" ++ head ++ nl ++ frontmatter ++ (nl ++ "---") ++ rest
    /\ all_chars isspace head = true.

(** An object is a mapping. *)
Definition is_mapping (v : value) : bool :=
  match v with
  | PyDict _ => true
  | _ => false
  end.

(** A flat mapping: none of its values is itself a mapping or a list. *)
Definition is_flat_mapping (v : value) : bool :=
  match v with
  | PyDict d =>
      forallb (fun kv =>
                 match snd kv with
                 | PyDict _ | PyList _ => false
                 | _ => true
                 end) d
  | _ => false
  end.

Section Parser.
(** [yaml.safe_load] of PyYAML. *)
Variable safe_load : string -> load_result.

(** [parse_agent_yaml], from the text that [file_path.read_text()]
    returned. *)
Definition parse_agent_yaml (content : string)
  : parse_error + AgentConfig :=
  match re_match frontmatter_pattern content with
  | None => inl InvalidFormat
  | Some m =>
      let frontmatter_str := group m 1 in
      let instructions := strip (group m 2) in
      match safe_load frontmatter_str with
      | YAMLError e => inl (InvalidYaml e)
      | Loaded (PyDict frontmatter) =>
          let name :=
            match dict_lookup "name" frontmatter with
            | Some v => v
            | None => PyNone
            end in
          if negb (truthy name) then inl MissingName
          else
            let description :=
              match dict_lookup "description" frontmatter with
              | Some v => v
              | None => PyStr ""
              end in
            let model_hint :=
              match dict_lookup "model" frontmatter with
              | Some v => v
              | None => PyNone
              end in
            inr {| name := name;
                   description := description;
                   instructions := instructions;
                   model_hint := model_hint |}
      | Loaded _ => inl NotADictionary
      end
  end.
End Parser.

(** What PyYAML's [safe_load] answers on the frontmatter blocks of the
    examples of this development.  Any other block is read here as one
    plain scalar; the theorems hold for every loader and use this one only
    to run the parser on the examples. *)
Definition example_safe_load (s : string) : load_result :=
  if String.eqb s ("name: bot" ++ nl ++ "description: test") then
    Loaded (PyDict [(PyStr "name", PyStr "bot");
                    (PyStr "description", PyStr "test")])
  else if String.eqb s ("---" ++ nl ++ "name: x") then
    Loaded (PyDict [(PyStr "name", PyStr "x")])
  else if String.eqb s ("name: bot" ++ nl ++ "extra:" ++ nl ++ "  a: 1") then
    Loaded (PyDict [(PyStr "name", PyStr "bot");
                    (PyStr "extra", PyDict [(PyStr "a", PyInt 1)])])
  else if String.eqb s "description: test" then
    Loaded (PyDict [(PyStr "description", PyStr "test")])
  else if String.eqb s "- bot" then
    Loaded (PyList [PyStr "bot"])
  else if String.eqb s "" then
    Loaded PyNone
  else Loaded (PyStr s).

(** The documents of the examples. *)
Definition scenario_document : string :=
  "---" ++ nl ++ "name: bot" ++ nl ++ "description: test" ++ nl ++
  "---" ++ nl ++ "Be nice.".

Definition nested_document : string :=
  "---" ++ nl ++ "name: bot" ++ nl ++ "extra:" ++ nl ++ "  a: 1" ++ nl ++
  "---" ++ nl ++ "Be nice.".

Definition list_document : string :=
  "---" ++ nl ++ "- bot" ++ nl ++ "---" ++ nl ++ "Be nice.".

Definition nameless_document : string :=
  "---" ++ nl ++ "description: test" ++ nl ++ "---" ++ nl ++ "Be nice.".

Definition adjacent_markers_document : string :=
  "---" ++ nl ++ "---" ++ nl ++ "name: x" ++ nl ++ "---" ++ nl ++ "body".

Definition empty_block_document : string :=
  "---" ++ nl ++ "---" ++ nl ++ "Be nice.".

End YamlParser.


(* ================================================================== *)
(** * Programs that talk to a terminal and to the outside world *)
(* ================================================================== *)

Module Prog.

(** How a call ends: it returns, an exception leaves it, or [sys.exit]
    stops the process. *)
Inductive outcome (X A : Type) :=
| Return (a : A)
| Raise (e : X)
| Exit (code : Z).

Arguments Return {X A} a.
Arguments Raise {X A} e.
Arguments Exit {X A} code.

(** A program over a world [W] whose exceptions are of type [X]. *)
Definition prog (W X A : Type) := W -> outcome X A * W.

Definition ret {W X A} (a : A) : prog W X A := fun w => (Return a, w).

Definition bind {W X A B} (c : prog W X A) (k : A -> prog W X B)
  : prog W X B :=
  fun w =>
    match c w with
    | (Return a, w') => k a w'
    | (Raise e, w') => (Raise e, w')
    | (Exit code, w') => (Exit code, w')
    end.

Definition raise {W X A} (e : X) : prog W X A := fun w => (Raise e, w).

(** [sys.exit(code)] *)
Definition sys_exit {W X A} (code : Z) : prog W X A :=
  fun w => (Exit code, w).

Declare Scope prog_scope.
Delimit Scope prog_scope with prog.
Notation "x <- c ;; k" := (bind c (fun x => k))
  (at level 100, c at next level, right associativity) : prog_scope.
Notation "' p <- c ;; k" := (bind c (fun x => let 'p := x in k))
  (at level 100, p pattern, c at next level, right associativity)
  : prog_scope.

(** What the user does at one [input()] prompt: types a line, or presses
    Ctrl-C.  An exhausted list is the end of the input. *)
Inductive tty_input :=
| Line (s : string)
| Interrupt.

(** The terminal's pending input, next to the rest of the world. *)
Record world (E : Type) := {
  stdin : list tty_input;
  env : E
}.

Arguments stdin {E} w.
Arguments env {E} w.

(** [input(prompt)] *)
Definition input {E} : prog (world E) Py.exc_class string :=
  fun w =>
    match stdin w with
    | [] => (Raise Py.EOFError, w)
    | Line s :: rest => (Return s, {| stdin := rest; env := env w |})
    | Interrupt :: rest =>
        (Raise Py.KeyboardInterrupt, {| stdin := rest; env := env w |})
    end.

End Prog.

(* ================================================================== *)
(** * [scripts/agents/azure_discovery.py] *)
(* ================================================================== *)

Module AzureDiscovery.
Import Py Prog.
Local Open Scope prog_scope.

Record AzureProject := {
  name : string;
  resource_name : string;
  resource_group : string;
  location : string
}.

(** The property [AzureProject.endpoint]. *)
Definition endpoint (p : AzureProject) : string :=
  "https://" ++ resource_name p ++ ".services.ai.azure.com/api/projects/"
  ++ name p.

Record ModelDeployment := {
  deployment_name : string;
  model_name : string;
  version : string
}.

(** [select_from_list(items, prompt, display_fn)].  The numbered list and
    the notices it prints go to the terminal's output, which is not part
    of the world here. *)
Definition select_from_list {E A} (items : list A)
  : prog (world E) exc_class (option Z) :=
  match items with
  | [] => ret None
  | [_] => ret (Some 0)
  | _ =>
      fun w =>
        match input w with
        | (Return line, w') =>
            let choice := strip line in
            match int_of_str choice with
            | Some n =>
                let idx := n - 1 in
                if (0 <=? idx) && (idx <? Z.of_nat (List.length items))
                then (Return (Some idx), w')
                else (Return None, w')
            | None => (Return None, w')           (* ValueError *)
            end
        | (Raise KeyboardInterrupt, w') => (Return None, w')
        | (Raise e, w') => (Raise e, w')
        | (Exit code, w') => (Exit code, w')
        end
  end.

End AzureDiscovery.


(* ================================================================== *)
(** * [agents/agent_builder.py] *)
(* ================================================================== *)

Module AgentBuilder.
Import Py Prog.

(** An agent record of the SDK: a mapping from field names to texts, a
    field being absent, [None] or a [str]. *)
Definition AgentObject := list (string * option string).

Fixpoint lookup (k : string) (o : AgentObject) : option (option string) :=
  match o with
  | [] => None
  | (k', v) :: o' => if String.eqb k' k then Some v else lookup k o'
  end.

(** [o.get(k)] *)
Definition get (o : AgentObject) (k : string) : option string :=
  match lookup k o with
  | Some v => v
  | None => None
  end.

(** [o.get(k, default)] *)
Definition get_or (o : AgentObject) (k default : string) : option string :=
  match lookup k o with
  | Some v => v
  | None => Some default
  end.

(** Truth of a [str] or [None]. *)
Definition nonempty (v : option string) : bool :=
  match v with
  | Some s => negb (String.eqb s "")
  | None => false
  end.

(** The dataclass [CreatedAgent]. *)
Record CreatedAgent := {
  agent_id : option string;
  name : option string;
  model : string;
  endpoint : string;
  resource_group : string;
  project_name : string
}.

(** The [AgentDefinition] that [create_agent] fills in. *)
Record AgentDefinition := {
  kind : string;
  definition_instructions : string;
  definition_model : string
}.

(** An [AIProjectClient] instance: [serial] tells instances apart, in the
    order of their construction. *)
Record AIProjectClient := {
  serial : nat;
  client_endpoint : string
}.

(** The object [AgentBuilder]. *)
Record AgentBuilder := {
  self_endpoint : string;
  _client : option AIProjectClient
}.

(** [AgentBuilder(endpoint)] *)
Definition init (endpoint : string) : AgentBuilder :=
  {| self_endpoint := rstrip_by (Ascii.eqb "/"%char) endpoint;
     _client := None |}.

Inductive exc :=
| Builtin (c : exc_class)
| ResourceExistsError
| SdkError (text : string)
| RuntimeError (m : runtime_message)
with runtime_message :=
| Cancelled (name : string)
    (* "Agent creation cancelled - name '{current_name}' already exists." *)
| NotVerified (name : string)
    (* "Agent '{current_name}' creation could not be verified" *)
| NotCreated (name : string) (e : exc).
    (* "Agent '{current_name}' was not created: {e}" *)

(** Whether [except Exception] catches it. *)
Definition is_exception (e : exc) : bool :=
  match e with
  | Builtin c => Py.is_exception c
  | _ => true
  end.

(** The calls that reach the service, in order. *)
Inductive sdk_call :=
| AgentsCreate (client : AIProjectClient) (name : string)
    (definition : AgentDefinition)
| AgentsGet (client : AIProjectClient) (agent_name : string).

(** The SDK side of the world: how many clients were constructed so far,
    the calls made, and the state of the hosted-agent service. *)
Record sdk (St : Type) := {
  constructed : nat;
  calls : list sdk_call;
  service : St
}.

Arguments constructed {St} s.
Arguments calls {St} s.
Arguments service {St} s.

Section Service.
Variable St : Type.

(** [client.agents.create(name=..., definition=...)] *)
Variable agents_create :
  AIProjectClient -> string -> AgentDefinition -> St ->
  (exc + AgentObject) * St.

(** [client.agents.get(agent_name=...)] *)
Variable agents_get :
  AIProjectClient -> string -> St -> (exc + option AgentObject) * St.

Definition call_create (client : AIProjectClient) (name : string)
    (definition : AgentDefinition) (k : sdk St)
  : (exc + AgentObject) * sdk St :=
  let (r, s') := agents_create client name definition (service k) in
  (r, {| constructed := constructed k;
         calls := calls k ++ [AgentsCreate client name definition];
         service := s' |}).

Definition call_get (client : AIProjectClient) (agent_name : string)
    (k : sdk St) : (exc + option AgentObject) * sdk St :=
  let (r, s') := agents_get client agent_name (service k) in
  (r, {| constructed := constructed k;
         calls := calls k ++ [AgentsGet client agent_name];
         service := s' |}).

(** [self._get_client()] *)
Definition _get_client (self : AgentBuilder) (k : sdk St)
  : AIProjectClient * AgentBuilder * sdk St :=
  match _client self with
  | Some c => (c, self, k)
  | None =>
      let c := {| serial := constructed k;
                  client_endpoint := self_endpoint self |} in
      (c,
       {| self_endpoint := self_endpoint self; _client := Some c |},
       {| constructed := S (constructed k);
          calls := calls k;
          service := service k |})
  end.

Definition state := (AgentBuilder * world (sdk St))%type.

(** The [while True] loop of lines 104-120.  Every turn that goes round
    takes one line of the pending input, so the loop is recursive on
    that input. *)
Fixpoint create_loop (definition : AgentDefinition)
    (pending : list tty_input) (self : AgentBuilder)
    (client : AIProjectClient) (current_name : string) (k : sdk St)
    {struct pending}
  : outcome exc (AgentObject * AIProjectClient * string) * state :=
  let (r, k1) := call_create client current_name definition k in
  match r with
  | inr agent =>
      (Return (agent, client, current_name),
       (self, {| stdin := pending; env := k1 |}))
  | inl ResourceExistsError =>
      match pending with
      | [] =>
          (Raise (Builtin EOFError), (self, {| stdin := []; env := k1 |}))
      | Interrupt :: rest =>
          (Raise (Builtin KeyboardInterrupt),
           (self, {| stdin := rest; env := k1 |}))
      | Line l :: rest =>
          let new_name := strip l in
          if String.eqb (lower new_name) "q" || String.eqb new_name ""
          then (Raise (RuntimeError (Cancelled current_name)),
                (self, {| stdin := rest; env := k1 |}))
          else
            let '(client', self', k2) :=
              _get_client {| self_endpoint := self_endpoint self;
                             _client := None |} k1 in
            create_loop definition rest self' client' new_name k2
      end
  | inl e => (Raise e, (self, {| stdin := pending; env := k1 |}))
  end.

(** [verified] is false as a condition: [None] or an empty mapping. *)
Definition missing (verified : option AgentObject) : bool :=
  match verified with
  | None | Some [] => true
  | Some _ => false
  end.

Definition verified_id (verified : option AgentObject) : option string :=
  match verified with
  | Some o => get o "id"
  | None => None
  end.

(** [AgentBuilder.create_agent] *)
Definition create_agent (self : AgentBuilder)
    (model name instructions description resource_group
       project_name : string)
    (w : world (sdk St)) : outcome exc CreatedAgent * state :=
  let '(client, self1, k1) := _get_client self (env w) in
  let definition :=
    {| kind := "prompt";
       definition_instructions := instructions;
       definition_model := model |} in
  match create_loop definition (stdin w) self1 client name k1 with
  | (Return (agent, client, current_name), (self2, w2)) =>
      let (r, k3) := call_get client current_name (env w2) in
      let w3 := {| stdin := stdin w2; env := k3 |} in
      match r with
      | inl e =>
          if is_exception e
          then (Raise (RuntimeError (NotCreated current_name e)),
                (self2, w3))
          else (Raise e, (self2, w3))
      | inr verified =>
          if missing verified || negb (nonempty (verified_id verified))
          then (Raise (RuntimeError
                         (NotCreated current_name
                            (RuntimeError (NotVerified current_name)))),
                (self2, w3))
          else
            (Return {| agent_id := get agent "id";
                       name := get_or agent "name" current_name;
                       model := model;
                       endpoint := self_endpoint self2;
                       resource_group := resource_group;
                       project_name := project_name |},
             (self2, w3))
      end
  | (Raise e, st) => (Raise e, st)
  | (Exit code, st) => (Exit code, st)
  end.
End Service.

(** A hosted-agent service that keeps the names in use: creating a name in
    use is a collision, a new name is recorded and echoed with the same
    text as identifier, and a read-back finds exactly the recorded
    names.  It is one service among those the theorems range over. *)
Definition registry := list string.

Definition registry_create (_ : AIProjectClient) (name : string)
    (_ : AgentDefinition) (names : registry)
  : (exc + AgentObject) * registry :=
  if existsb (String.eqb name) names then (inl ResourceExistsError, names)
  else (inr [("id", Some name); ("name", Some name)], name :: names).

Definition registry_get (_ : AIProjectClient) (agent_name : string)
    (names : registry) : (exc + option AgentObject) * registry :=
  if existsb (String.eqb agent_name) names
  then (inr (Some [("id", Some agent_name); ("name", Some agent_name)]),
        names)
  else (inl (SdkError "not found"), names).

End AgentBuilder.

(* ================================================================== *)
(** * [scripts/create-agent.py] *)
(* ================================================================== *)

Module CreateAgent.
Import Py Prog AzureDiscovery.
Local Open Scope prog_scope.

(** [subprocess.CompletedProcess] of a run with captured output. *)
Record CompletedProcess := {
  returncode : Z;
  stdout : string
}.

(** The second component of the pair [_check_model_quota] returns. *)
Inductive quota_message :=
| CheckUnavailable                 (* "(quota check unavailable)" *)
| TpmAvailable (sku_type : string) (available : Z)
                                   (* "{sku_type}: {available}K TPM available" *)
| NoQuota                          (* "No Standard/GlobalStandard quota
                                       available" *)
| CheckError (e : exc_class).      (* "(quota check error: {e})" *)

Definition skipped_kinds : list string :=
  ["finetune"; "batch"; "realtime"; "audio"; "transcribe"; "tts"; "diarize"].

(** [for usage in usages]: what iterating over the loaded object yields. *)
Definition iterate (v : value) : exc_class + list value :=
  match v with
  | PyList l => inr l
  | PyDict d => inr (map fst d)
  | PyStr s => inr (map (fun c => PyStr (String c "")) (list_ascii_of_string s))
  | _ => inl TypeError
  end.

(** [usage.get("name", {}).get("value", "").lower()] *)
Definition usage_name (usage : value) : exc_class + string :=
  match get usage "name" (PyDict []) with
  | inl e => inl e
  | inr n =>
      match get n "value" (PyStr "") with
      | inl e => inl e
      | inr (PyStr s) => inr (lower s)
      | inr _ => inl AttributeError
      end
  end.

(** Line 256: the entry is of a quota kind that is passed over. *)
Definition skipped (name : string) : bool :=
  existsb (fun x => contains x name) skipped_kinds.

(** Line 260: the entry is for the model, in a Standard tier. *)
Definition matching (model_lower name : string) : bool :=
  contains model_lower name
  && (contains "standard" name || contains "globalstandard" name).

(** [int(usage.get("currentValue", 0))] and [int(usage.get("limit", 0))] *)
Definition int_field (usage : value) (k : string) : exc_class + Z :=
  match get usage k (PyInt 0) with
  | inl e => inl e
  | inr v => int v
  end.

(** The loop of lines 252-269. *)
Fixpoint scan_usages (model_lower : string) (usages : list value)
  : exc_class + (bool * quota_message) :=
  match usages with
  | [] => inr (false, NoQuota)
  | usage :: rest =>
      match usage_name usage with
      | inl e => inl e
      | inr name =>
          if skipped name then scan_usages model_lower rest
          else if matching model_lower name then
            match int_field usage "currentValue" with
            | inl e => inl e
            | inr current =>
                match int_field usage "limit" with
                | inl e => inl e
                | inr limit =>
                    let available := limit - current in
                    if 0 <? available then
                      let sku_type :=
                        if contains "globalstandard" name
                        then "GlobalStandard" else "Standard" in
                      inr (true, TpmAvailable sku_type available)
                    else scan_usages model_lower rest
                end
            end
          else scan_usages model_lower rest
      end
  end.

(** The entry passes lines 256-260: it is not of a passed-over kind, and it
    is for the model in a Standard tier. *)
Definition kept (model_lower : string) (usage : value) : bool :=
  match usage_name usage with
  | inr name => negb (skipped name) && matching model_lower name
  | inl _ => false
  end.

(** [available] of lines 261-263 for the entry: [limit - current], both
    read through [int()]; [None] when a field cannot be read. *)
Definition available (usage : value) : option Z :=
  match int_field usage "currentValue", int_field usage "limit" with
  | inr current, inr limit => Some (limit - current)
  | _, _ => None
  end.

(** The loop meets no exception at the entry. *)
Definition readable (model_lower : string) (usage : value) : Prop :=
  (exists name, usage_name usage = inr name)
  /\ (kept model_lower usage = true -> exists a, available usage = Some a).

Section World.
(** State of everything outside the process and its terminal. *)
Variable E : Type.

(** [subprocess.run(cmd, capture_output=True, text=True)]: it raises, or
    it completes with an exit status and the captured output. *)
Variable subprocess_run :
  list string -> E -> (exc_class + CompletedProcess) * E.

(** [subprocess.run(cmd, cwd=...)] with the terminal left to the child,
    which may read the user's input: it raises, or gives the exit
    status. *)
Variable subprocess_run_interactive :
  list string -> world E -> (exc_class + Z) * world E.

(** [json.loads]; [None] is [json.JSONDecodeError]. *)
Variable json_loads : string -> option value.

(** [Path(__file__).parent / "deploy-azure-model.sh"] and whether that
    file exists. *)
Variable script_path : string.
Variable script_exists : E -> bool.

(** The method [discovery.list_deployments] of the object handed to
    [select_deployment]. *)
Variable list_deployments :
  string -> string -> E -> (exc_class + list ModelDeployment) * E.

(** The body of the [try] of [_check_model_quota] once the query has
    completed. *)
Definition quota_of_result (result : CompletedProcess)
    (model_name : string) : exc_class + (bool * quota_message) :=
  if negb (returncode result =? 0) then inr (true, CheckUnavailable)
  else
    let loaded :=
      if negb (String.eqb (strip (stdout result)) "")
      then json_loads (stdout result)
      else Some (PyList []) in
    match loaded with
    | None => inl JSONDecodeError
    | Some usages =>
        match iterate usages with
        | inl e => inl e
        | inr l => scan_usages (lower model_name) l
        end
    end.

(** The entries the loop of line 252 goes through, when the output of
    the query can be loaded and iterated. *)
Definition usages_of (result : CompletedProcess) : option (list value) :=
  let loaded :=
    if negb (String.eqb (strip (stdout result)) "")
    then json_loads (stdout result)
    else Some (PyList []) in
  match loaded with
  | Some v =>
      match iterate v with
      | inr l => Some l
      | inl _ => None
      end
  | None => None
  end.

(** The command line of the usage query. *)
Definition usage_query (location : string) : list string :=
  ["az"; "cognitiveservices"; "usage"; "list";
   "--location"; location; "-o"; "json"].

(** [_check_model_quota(location, model_name)] *)
Definition _check_model_quota (location model_name : string)
  : prog (world E) exc_class (bool * quota_message) :=
  fun w =>
    let (r, e') :=
      subprocess_run ["az"; "cognitiveservices"; "usage"; "list";
                      "--location"; location; "-o"; "json"] (env w) in
    let w' := {| stdin := stdin w; env := e' |} in
    match r with
    | inl x =>
        if is_exception x then (Return (true, CheckError x), w')
        else (Raise x, w')
    | inr result =>
        match quota_of_result result model_name with
        | inl x =>
            if is_exception x then (Return (true, CheckError x), w')
            else (Raise x, w')
        | inr answer => (Return answer, w')
        end
    end.

(** [_deploy_model(resource_name, model_filter)] *)
Definition _deploy_model (resource_name model_filter : string)
  : prog (world E) exc_class bool :=
  fun w =>
    if negb (script_exists (env w)) then (Return false, w)
    else
      match subprocess_run_interactive
              [script_path; resource_name; model_filter] w with
      | (inl x, w') =>
          if is_exception x then (Return false, w') else (Raise x, w')
      | (inr code, w') => (Return (code =? 0), w')
      end.

Definition refresh (project : AzureProject)
  : prog (world E) exc_class (list ModelDeployment) :=
  fun w =>
    match list_deployments (resource_name project) (resource_group project)
            (env w) with
    | (inl x, e') => (Raise x, {| stdin := stdin w; env := e' |})
    | (inr l, e') => (Return l, {| stdin := stdin w; env := e' |})
    end.

(** [input(...).strip().lower()] *)
Definition ask : prog (world E) exc_class string :=
  line <- input ;; ret (lower (strip line)).

Definition exact_match (hint_lower : string) (d : ModelDeployment) : bool :=
  String.eqb hint_lower (lower (deployment_name d))
  || String.eqb hint_lower (lower (model_name d)).

Definition partial_match (hint_lower : string) (d : ModelDeployment)
  : bool :=
  contains hint_lower (lower (deployment_name d))
  || contains hint_lower (lower (model_name d)).

(** The quota check and deploy offer that lines 365-378, 384-397 and
    402-420 each spell out: [inl d] when the function returns [d] from
    there, [inr deployments] when control goes on with that list.
    [accept] is the test of the final [for] loop. *)
Definition offer_deploy (project : AzureProject) (model_hint : string)
    (accept : ModelDeployment -> bool) (deployments : list ModelDeployment)
  : prog (world E) exc_class (ModelDeployment + list ModelDeployment) :=
  '(has_quota, _) <- _check_model_quota (location project) model_hint ;;
  if has_quota : bool then
    response <- ask ;;
    if negb (String.eqb response "n") then
      deployed <- _deploy_model (resource_name project) model_hint ;;
      if deployed : bool then
        deployments' <- refresh project ;;
        match find accept deployments' with
        | Some d => ret (inl d)
        | None => ret (inr deployments')
        end
      else ret (inr deployments)
    else ret (inr deployments)
  else ret (inr deployments).

(** Lines 316-340: what happens when the project has no deployment. *)
Definition on_no_deployments (project : AzureProject)
    (model_hint : string)
  : prog (world E) exc_class (list ModelDeployment) :=
  if negb (String.eqb model_hint "") then
    '(has_quota, _) <- _check_model_quota (location project) model_hint ;;
    if has_quota : bool then
      response <- ask ;;
      if negb (String.eqb response "n") then
        deployed <- _deploy_model (resource_name project) model_hint ;;
        if deployed : bool then
          deployments <- refresh project ;;
          match deployments with
          | [] => sys_exit 1
          | _ => ret deployments
          end
        else sys_exit 1
      else ret []
    else sys_exit 1
  else sys_exit 1.

(** Lines 343-420: the search guided by the hint. *)
Definition by_hint (project : AzureProject) (model_hint : string)
    (deployments : list ModelDeployment)
  : prog (world E) exc_class (ModelDeployment + list ModelDeployment) :=
  let hint_lower := lower model_hint in
  match find (exact_match hint_lower) deployments with
  | Some d => ret (inl d)
  | None =>
      let partial_matches :=
        filter (partial_match hint_lower) deployments in
      match partial_matches with
      | [d] =>
          response <- ask ;;
          if negb (String.eqb response "n") then ret (inl d)
          else offer_deploy project model_hint (exact_match hint_lower)
                 deployments
      | _ :: _ =>
          offer_deploy project model_hint (exact_match hint_lower)
            deployments
      | [] =>
          offer_deploy project model_hint
            (fun d => exact_match hint_lower d
                      || partial_match hint_lower d)
            deployments
      end
  end.

(** [select_deployment(discovery, project, model_hint)].  An absent hint
    ([None] or the default) is the empty text: the function only tests
    its truth. *)
Definition select_deployment (project : AzureProject)
    (model_hint : string) : prog (world E) exc_class ModelDeployment :=
  deployments <- refresh project ;;
  deployments <-
    match deployments with
    | [] => on_no_deployments project model_hint
    | _ => ret deployments
    end ;;
  found <-
    (if negb (String.eqb model_hint "")
     then by_hint project model_hint deployments
     else ret (inr deployments)) ;;
  match found with
  | inl d => ret d
  | inr deployments =>
      idx <- select_from_list deployments ;;
      match idx with
      | None => sys_exit 1
      | Some i =>
          match nth_error deployments (Z.to_nat i) with
          | Some d => ret d
          | None => raise IndexError
          end
      end
  end.
End World.

(** The double quote, as a text. *)
Definition dq : string := String "034"%char "".

(** ** A world for the examples

    Two deployments exist, the [az] query answers with one usage entry,
    and no deploy script is installed. *)
Definition example_deployments : list ModelDeployment :=
  [{| deployment_name := "gpt-4o-mini"; model_name := "gpt-4o-mini";
      version := "2024-07-18" |};
   {| deployment_name := "chat"; model_name := "gpt-4o";
      version := "2024-08-06" |}].

Definition example_project : AzureProject :=
  {| name := "proj"; resource_name := "res"; resource_group := "rg";
     location := "swedencentral" |}.

Definition example_list_deployments (_ _ : string) (e : unit)
  : (exc_class + list ModelDeployment) * unit :=
  (inr example_deployments, e).

Definition example_usage_output : string :=
  "[{" ++ dq ++ "currentValue" ++ dq ++ ": 30.0, "
  ++ dq ++ "limit" ++ dq ++ ": 100.0, "
  ++ dq ++ "name" ++ dq ++ ": {"
  ++ dq ++ "localizedValue" ++ dq ++ ": " ++ dq ++ "gpt-4o Standard" ++ dq
  ++ ", " ++ dq ++ "value" ++ dq ++ ": " ++ dq ++ "OpenAI.Standard.gpt-4o"
  ++ dq ++ "}, " ++ dq ++ "unit" ++ dq ++ ": " ++ dq ++ "Count" ++ dq ++ "}]".

Definition example_subprocess_run (_ : list string) (e : unit)
  : (exc_class + CompletedProcess) * unit :=
  (inr {| returncode := 0; stdout := example_usage_output |}, e).

Definition example_subprocess_run_interactive (_ : list string)
    (w : world unit) : (exc_class + Z) * world unit :=
  (inl OSError, w).

(** The loaded form of an [az] answer with one entry: the Standard quota
    of gpt-4o in use for 30 of 100, written as floats as [az] does. *)
Definition example_usage : value :=
  PyDict [(PyStr "currentValue", PyFloat (30 # 1));
          (PyStr "limit", PyFloat (100 # 1));
          (PyStr "name",
           PyDict [(PyStr "localizedValue", PyStr "gpt-4o Standard");
                   (PyStr "value", PyStr "OpenAI.Standard.gpt-4o")]);
          (PyStr "unit", PyStr "Count")].

Definition example_json_loads (s : string) : option value :=
  if String.eqb s example_usage_output then Some (PyList [example_usage])
  else None.

Definition example_world (pending : list tty_input) : world unit :=
  {| stdin := pending; env := tt |}.

(** An agent as the service may answer the creation call: the identifier
    it assigns is not the name. *)
Definition example_created : AgentBuilder.CreatedAgent :=
  {| AgentBuilder.agent_id := Some "asst_abc123";
     AgentBuilder.name := Some "bot";
     AgentBuilder.model := "gpt-4o";
     AgentBuilder.endpoint :=
       "https://res.services.ai.azure.com/api/projects/proj";
     AgentBuilder.resource_group := "rg";
     AgentBuilder.project_name := "proj" |}.

(** [str] of a field that holds a text or [None], as an f-string puts it. *)
Definition fmt (v : option string) : string :=
  match v with
  | Some s => s
  | None => "None"
  end.

(** The text written to the [.agent.txt] file (lines 528-553);
    [config_name] is the text the f-string puts for [config.name]. *)
Definition sidecar_text (config_name : string)
    (result : AgentBuilder.CreatedAgent) : string :=
  "Agent Created: " ++ config_name ++ nl ++
  "Agent ID: " ++ fmt (AgentBuilder.agent_id result) ++ nl ++
  "Endpoint: " ++ AgentBuilder.endpoint result ++ nl ++
  "Model: " ++ AgentBuilder.model result ++ nl ++
  nl ++
  "To use this agent in Python:" ++ nl ++
  nl ++
  "    from azure.ai.projects import AIProjectClient" ++ nl ++
  "    from azure.identity import DefaultAzureCredential" ++ nl ++
  "    " ++ nl ++
  "    client = AIProjectClient(" ++ nl ++
  "        endpoint=" ++ dq ++ AgentBuilder.endpoint result ++ dq ++ ","
    ++ nl ++
  "        credential=DefaultAzureCredential()," ++ nl ++
  "    )" ++ nl ++
  "    " ++ nl ++
  "    # Get OpenAI client for responses API" ++ nl ++
  "    openai_client = client.get_openai_client()" ++ nl ++
  "    " ++ nl ++
  "    # Chat with the agent" ++ nl ++
  "    response = openai_client.responses.create(" ++ nl ++
  "        input=[{" ++ dq ++ "role" ++ dq ++ ": " ++ dq ++ "user" ++ dq
    ++ ", " ++ dq ++ "content" ++ dq ++ ": " ++ dq ++ "Your message here"
    ++ dq ++ "}]," ++ nl ++
  "        extra_body={" ++ dq ++ "agent" ++ dq ++ ": {" ++ dq ++ "name"
    ++ dq ++ ": " ++ dq ++ fmt (AgentBuilder.name result) ++ dq ++ ", "
    ++ dq ++ "type" ++ dq ++ ": " ++ dq ++ "agent_reference" ++ dq ++ "}},"
    ++ nl ++
  "    )" ++ nl ++
  "    " ++ nl ++
  "    print(response.output_text)" ++ nl.

End CreateAgent.

(* ================================================================== *)
(** * [test-agent.py] *)
(* ================================================================== *)

Module TestAgent.
Import Py.

(** The loop of lines 32-37 over the lines that are left. *)
Fixpoint scan_lines (lines : list string)
    (agent_name endpoint : option string)
  : exc_class + (option string * option string) :=
  match lines with
  | [] => inr (agent_name, endpoint)
  | l :: rest =>
      let line := strip l in
      if startswith line "Agent ID:" then
        match after_first ":" line with
        | Some r => scan_lines rest (Some (strip r)) endpoint
        | None => inl IndexError
        end
      else if startswith line "Endpoint:" then
        match after_first ":" line with
        | Some r => scan_lines rest agent_name (Some (strip r))
        | None => inl IndexError
        end
      else scan_lines rest agent_name endpoint
  end.

(** [parse_agent_file], from the text that [read_text()] returned. *)
Definition parse_agent_file (content : string)
  : exc_class + (string * string) :=
  match scan_lines (splitlines content) None None with
  | inl e => inl e
  | inr (agent_name, endpoint) =>
      match agent_name, endpoint with
      | Some a, Some e =>
          if String.eqb a "" || String.eqb e "" then inl ValueError
          else inr (a, e)
      | _, _ => inl ValueError
      end
  end.

End TestAgent.


(* ================================================================== *)
(** * [scripts/create-agent.py]: the choice of a project *)
(* ================================================================== *)

Module CreateAgentProject.
Import Py Prog AzureDiscovery.
Local Open Scope prog_scope.

Section World.
Variable E : Type.

(** The method [discovery.list_projects] of the object handed to
    [select_project]. *)
Variable list_projects :
  string -> E -> (exc_class + list AzureProject) * E.

End World.

End CreateAgentProject.

(* ================================================================== *)
(** * [test-agent.py]: the conversation *)
(* ================================================================== *)

Module TestAgentChat.
Import Py Prog.

(** What the SDK calls of the script can raise: a builtin exception, or an
    error class of the SDK, all of which derive from [Exception]. *)
Inductive exc :=
| Builtin (c : exc_class)
| SdkError (text : string).

(** Whether [except Exception] catches it. *)
Definition is_exception (e : exc) : bool :=
  match e with
  | Builtin c => Py.is_exception c
  | SdkError _ => true
  end.

(** One call of [openai_client.responses.create]: the agent referred to
    and the content of the user message. *)
Record message := {
  agent : string;
  content : string
}.

(** The SDK side of the world: the messages sent so far, and the state of
    the service. *)
Record chat (St : Type) := {
  sent : list message;
  service : St
}.

Arguments sent {St} c.
Arguments service {St} c.

(** How the [while True] loop was left. *)
Inductive chat_end :=
| Goodbye                  (* exit or quit was typed *)
| ChatFailed (e : exc)     (* "Chat error: ..." *)
| Interrupted              (* Ctrl-C *)
| EndOfInput.              (* EOFError of [input] *)

(** How [test_agent] ended: with one of its two early [return]s, or after
    the conversation, which is followed by [print_code_sample]. *)
Inductive test_end :=
| AgentNotFound (e : exc)
| ClientUnavailable (e : exc)
| Conversation (how : chat_end).

Section Service.
Variable St : Type.

(** The type of the response object, of which the script only prints a
    field. *)
Variable Response : Type.

(** [client.agents.get(agent_name=...)] on the client of an endpoint. *)
Variable agents_get :
  string -> string -> St ->
  (exc + option AgentBuilder.AgentObject) * St.

(** [client.get_openai_client()] *)
Variable get_openai_client : string -> St -> (exc + unit) * St.

(** [openai_client.responses.create(input=[...], extra_body=...)]: the
    endpoint, the agent's name and the content of the message. *)
Variable responses_create :
  string -> string -> string -> St -> (exc + Response) * St.

(** The loop of lines 106-143.  Every turn takes one entry of the pending
    input, and the loop is left when that input is exhausted, so the loop
    is recursive on it. *)
Fixpoint chat_loop (agent_name endpoint : string)
    (pending : list tty_input) (k : chat St)
  : outcome exc chat_end * world (chat St) :=
  match pending with
  | [] => (Return EndOfInput, {| stdin := []; env := k |})
  | Interrupt :: rest => (Return Interrupted, {| stdin := rest; env := k |})
  | Line l :: rest =>
      let user_input := strip l in
      if String.eqb (lower user_input) "exit"
         || String.eqb (lower user_input) "quit"
      then (Return Goodbye, {| stdin := rest; env := k |})
      else if String.eqb user_input "" then
        chat_loop agent_name endpoint rest k
      else
        let (r, s') :=
          responses_create endpoint agent_name user_input (service k) in
        let k' :=
          {| sent := sent k ++ [{| agent := agent_name;
                                   content := user_input |}];
             service := s' |} in
        match r with
        | inr _ => chat_loop agent_name endpoint rest k'
        | inl e =>
            if is_exception e
            then (Return (ChatFailed e), {| stdin := rest; env := k' |})
            else
              match e with
              | Builtin KeyboardInterrupt =>
                  (Return Interrupted, {| stdin := rest; env := k' |})
              | _ => (Raise e, {| stdin := rest; env := k' |})
              end
        end
  end.

(** [test_agent(agent_name, endpoint)] *)
Definition test_agent (agent_name endpoint : string)
    (w : world (chat St)) : outcome exc test_end * world (chat St) :=
  let (r, s1) := agents_get endpoint agent_name (service (env w)) in
  let w1 := {| stdin := stdin w;
               env := {| sent := sent (env w); service := s1 |} |} in
  let found :=
    match r with
    | inl e => inl e
    | inr None => inl (Builtin AttributeError)    (* [agent.get] on None *)
    | inr (Some _) => inr tt
    end in
  match found with
  | inl e =>
      if is_exception e then (Return (AgentNotFound e), w1)
      else (Raise e, w1)
  | inr _ =>
      let (r2, s2) := get_openai_client endpoint s1 in
      let w2 := {| stdin := stdin w;
                   env := {| sent := sent (env w); service := s2 |} |} in
      match r2 with
      | inl e =>
          if is_exception e then (Return (ClientUnavailable e), w2)
          else (Raise e, w2)
      | inr _ =>
          match chat_loop agent_name endpoint (stdin w2) (env w2) with
          | (Return how, w3) => (Return (Conversation how), w3)
          | (Raise e, w3) => (Raise e, w3)
          | (Exit code, w3) => (Exit code, w3)
          end
      end
  end.
End Service.

(** A service that answers every message with its own text, except the
    message boom, on which the call fails. *)
Definition echo_agents_get (_ agent_name : string) (s : unit)
  : (exc + option AgentBuilder.AgentObject) * unit :=
  (inr (Some [("name", Some agent_name)]), s).

Definition echo_get_openai_client (_ : string) (s : unit)
  : (exc + unit) * unit :=
  (inr tt, s).

Definition echo_responses_create (_ _ user_input : string) (s : unit)
  : (exc + string) * unit :=
  if String.eqb user_input "boom" then (inl (SdkError "boom"), s)
  else (inr user_input, s).

End TestAgentChat.

(* ================================================================== *)
(** * [scripts/agents/azure_discovery.py]: the class [AzureDiscovery] *)
(* ================================================================== *)

Module Discovery.
Import Py Prog.

(** What the methods can raise: a builtin exception, the KeyError of a
    subscript, or the RuntimeError of [_run_az] and [_check_cli] with its
    message. *)
Inductive exc :=
| Builtin (c : exc_class)
| KeyError (key : string)
| RuntimeError (message : string).

(** [subprocess.CompletedProcess] of a run with captured output. *)
Record CompletedProcess := {
  returncode : Z;
  stdout : string;
  stderr : string
}.

(** [v[k]] for a [str] key. *)
Definition subscript (v : value) (k : string) : exc + value :=
  match v with
  | PyDict d =>
      match dict_lookup k d with
      | Some x => inr x
      | None => inl (KeyError k)
      end
  | _ => inl (Builtin TypeError)
  end.

(** [v.lower()] *)
Definition str_lower (v : value) : exc + string :=
  match v with
  | PyStr s => inr (lower s)
  | _ => inl (Builtin AttributeError)
  end.

(** [s.split(sep)] for a separator of one character. *)
Fixpoint split (sep : ascii) (s : string) : list string :=
  match s with
  | EmptyString => [EmptyString]
  | String c s' =>
      if Ascii.eqb c sep then EmptyString :: split sep s'
      else
        match split sep s' with
        | [] => [String c EmptyString]
        | h :: t => String c h :: t
        end
  end.

(** [v.split("/")] *)
Definition str_split (v : value) : exc + list string :=
  match v with
  | PyStr s => inr (split "/"%char s)
  | _ => inl (Builtin AttributeError)
  end.

(** [v or ""] *)
Definition or_empty (v : value) : value :=
  if truthy v then v else PyStr "".

(** The dataclass [AzureResource] as [list_resources] fills it: each
    field holds whatever the entry of the [az] answer holds. *)
Record AzureResource := {
  name : value;
  resource_group : value;
  location : value
}.

(** The dataclass [AzureProject] as [list_projects] fills it: the two
    names are texts, parts of the full name; the other two fields hold
    whatever the entry holds. *)
Record ListedProject := {
  project_name : string;
  project_resource_name : string;
  project_resource_group : value;
  project_location : value
}.

(** The dataclass [ModelDeployment] as [list_deployments] fills it. *)
Record ListedDeployment := {
  deployment_name : value;
  model_name : value;
  version : value
}.

(** The text holds no slash. *)
Definition no_slash (s : string) : bool :=
  all_chars (fun c => negb (Ascii.eqb c "/"%char)) s.

(** The listed project holds the filter term, whatever the case of the
    letters, in its resource name, its name or its resource group: the
    test of lines 175-177, negated. *)
Definition project_matches (filter_term : string) (p : ListedProject)
  : bool :=
  contains (lower filter_term) (lower (project_resource_name p))
  || contains (lower filter_term) (lower (project_name p))
  || match project_resource_group p with
     | PyStr g => contains (lower filter_term) (lower g)
     | _ => false
     end.

(** A [for] loop that appends what [f] gives for an entry, passes over
    the entries for which it gives nothing ([continue]), and is left by
    the first exception. *)
Fixpoint collect {A} (f : value -> exc + option A) (entries : list value)
  : exc + list A :=
  match entries with
  | [] => inr []
  | x :: rest =>
      match f x with
      | inl e => inl e
      | inr o =>
          match collect f rest with
          | inl e => inl e
          | inr l =>
              inr match o with
                  | Some a => a :: l
                  | None => l
                  end
          end
      end
  end.

(** The body of the loop of [list_resources] (lines 130-141). *)
Definition resource_of (filter_term : string) (r : value)
  : exc + option AzureResource :=
  let skip : exc + bool :=
    if negb (String.eqb filter_term "") then
      match subscript r "name" with
      | inl e => inl e
      | inr n =>
          match str_lower n with
          | inl e => inl e
          | inr n_lower =>
              if negb (contains (lower filter_term) n_lower) then
                match subscript r "rg" with
                | inl e => inl e
                | inr g =>
                    match str_lower g with
                    | inl e => inl e
                    | inr g_lower =>
                        inr (negb (contains (lower filter_term) g_lower))
                    end
                end
              else inr false
          end
      end
    else inr false in
  match skip with
  | inl e => inl e
  | inr true => inr None
  | inr false =>
      match subscript r "name" with
      | inl e => inl e
      | inr n =>
          match subscript r "rg" with
          | inl e => inl e
          | inr g =>
              match subscript r "loc" with
              | inl e => inl e
              | inr l =>
                  inr (Some {| name := n; resource_group := g;
                               location := l |})
              end
          end
      end
  end.

(** The body of the loop of [list_projects] (lines 165-185). *)
Definition project_of (filter_term : string) (p : value)
  : exc + option ListedProject :=
  match subscript p "fullName" with
  | inl e => inl e
  | inr full =>
      match str_split full with
      | inl e => inl e
      | inr [resource_name; project_name] =>
          let skip : exc + bool :=
            if negb (String.eqb filter_term "") then
              if negb (contains (lower filter_term) (lower resource_name))
                 && negb (contains (lower filter_term) (lower project_name))
              then
                match subscript p "rg" with
                | inl e => inl e
                | inr g =>
                    match str_lower g with
                    | inl e => inl e
                    | inr g_lower =>
                        inr (negb (contains (lower filter_term) g_lower))
                    end
                end
              else inr false
            else inr false in
          match skip with
          | inl e => inl e
          | inr true => inr None
          | inr false =>
              match subscript p "rg" with
              | inl e => inl e
              | inr g =>
                  match subscript p "loc" with
                  | inl e => inl e
                  | inr l =>
                      inr (Some {| project_name := project_name;
                                   project_resource_name := resource_name;
                                   project_resource_group := g;
                                   project_location := l |})
                  end
              end
          end
      | inr _ => inr None
      end
  end.

(** The body of the loop of [list_deployments] (lines 214-219). *)
Definition deployment_of (d : value) : exc + option ListedDeployment :=
  match subscript d "name" with
  | inl e => inl e
  | inr n =>
      match subscript d "model" with
      | inl e => inl e
      | inr m =>
          match subscript d "version" with
          | inl e => inl e
          | inr v =>
              inr (Some {| deployment_name := n;
                           model_name := or_empty m;
                           version := or_empty v |})
          end
      end
  end.

(** [json.loads(text)] followed by the start of a [for] loop over what
    was loaded. *)
Definition entries_of (json_loads : string -> option value) (text : string)
  : exc + list value :=
  match json_loads text with
  | None => inl (Builtin JSONDecodeError)
  | Some data =>
      match CreateAgent.iterate data with
      | inl c => inl (Builtin c)
      | inr entries => inr entries
      end
  end.

Definition resources_query : list string :=
  ["resource"; "list";
   "--resource-type"; "Microsoft.CognitiveServices/accounts";
   "--query"; "[].{name:name, rg:resourceGroup, loc:location}";
   "-o"; "json"].

Definition projects_query : list string :=
  ["resource"; "list";
   "--resource-type"; "Microsoft.CognitiveServices/accounts/projects";
   "--query"; "[].{fullName:name, rg:resourceGroup, loc:location}";
   "-o"; "json"].

Definition deployments_query (resource_name resource_group : string)
  : list string :=
  ["cognitiveservices"; "account"; "deployment"; "list";
   "--name"; resource_name;
   "--resource-group"; resource_group;
   "--query";
   "[].{name:name, model:properties.model.name, version:properties.model.version}";
   "-o"; "json"].

Definition keys_query (resource_name resource_group : string)
  : list string :=
  ["cognitiveservices"; "account"; "keys"; "list";
   "-n"; resource_name; "-g"; resource_group;
   "--query"; "key1"; "-o"; "tsv"].

Section World.
Variable E : Type.

(** [subprocess.run(cmd, capture_output=True, text=True)] *)
Variable subprocess_run :
  list string -> E -> (exc + CompletedProcess) * E.

(** [subprocess.run(cmd)] with the terminal left to the child: it raises,
    or gives the exit status. *)
Variable subprocess_run_interactive :
  list string -> world E -> (exc + Z) * world E.

(** [json.loads]; [None] is [json.JSONDecodeError]. *)
Variable json_loads : string -> option value.

(** [self._check_cli()], which is all that [__init__] does. *)
Definition _check_cli (e : E) : (exc + unit) * E :=
  match subprocess_run ["az"; "--version"] e with
  | (inl x, e') => (inl x, e')
  | (inr result, e') =>
      if negb (returncode result =? 0)
      then (inl (RuntimeError
                   "Azure CLI (az) not found. Install from: https://aka.ms/installazurecli"),
            e')
      else (inr tt, e')
  end.

(** [self._run_az(args, check)] *)
Definition _run_az (args : list string) (check : bool) (e : E)
  : (exc + CompletedProcess) * E :=
  match subprocess_run ("az" :: args) e with
  | (inl x, e') => (inl x, e')
  | (inr result, e') =>
      if check && negb (returncode result =? 0)
      then (inl (RuntimeError ("az command failed: " ++ stderr result)), e')
      else (inr result, e')
  end.

(** [self.is_logged_in()] *)
Definition is_logged_in (e : E) : (exc + bool) * E :=
  match _run_az ["account"; "show"] false e with
  | (inl x, e') => (inl x, e')
  | (inr result, e') => (inr (returncode result =? 0), e')
  end.

(** [self.login_device_code()] *)
Definition login_device_code (w : world E) : (exc + bool) * world E :=
  match subprocess_run_interactive ["az"; "login"; "--use-device-code"] w
  with
  | (inl x, w') => (inl x, w')
  | (inr code, w') => (inr (code =? 0), w')
  end.

(** [self.ensure_logged_in()] *)
Definition ensure_logged_in (w : world E) : (exc + bool) * world E :=
  match is_logged_in (env w) with
  | (inl x, e') => (inl x, {| stdin := stdin w; env := e' |})
  | (inr true, e') => (inr true, {| stdin := stdin w; env := e' |})
  | (inr false, e') =>
      match stdin w with
      | [] => (inl (Builtin EOFError), {| stdin := []; env := e' |})
      | Interrupt :: rest =>
          (inl (Builtin KeyboardInterrupt), {| stdin := rest; env := e' |})
      | Line line :: rest =>
          let w' := {| stdin := rest; env := e' |} in
          if String.eqb (lower (strip line)) "y" then login_device_code w'
          else (inr false, w')
      end
  end.

(** [self.get_subscription()] *)
Definition get_subscription (e : E) : (exc + value) * E :=
  match _run_az ["account"; "show"; "--query"; "{name:name, id:id}";
                 "-o"; "json"] true e with
  | (inl x, e') => (inl x, e')
  | (inr result, e') =>
      match json_loads (stdout result) with
      | None => (inl (Builtin JSONDecodeError), e')
      | Some v => (inr v, e')
      end
  end.

(** [self.list_resources(filter_term)] *)
Definition list_resources (filter_term : string) (e : E)
  : (exc + list AzureResource) * E :=
  match _run_az resources_query true e with
  | (inl x, e') => (inl x, e')
  | (inr result, e') =>
      match entries_of json_loads (stdout result) with
      | inl x => (inl x, e')
      | inr entries => (collect (resource_of filter_term) entries, e')
      end
  end.

(** [self.list_projects(filter_term)] *)
Definition list_projects (filter_term : string) (e : E)
  : (exc + list ListedProject) * E :=
  match _run_az projects_query true e with
  | (inl x, e') => (inl x, e')
  | (inr result, e') =>
      match entries_of json_loads (stdout result) with
      | inl x => (inl x, e')
      | inr entries => (collect (project_of filter_term) entries, e')
      end
  end.

(** [self.list_deployments(resource_name, resource_group)] *)
Definition list_deployments (resource_name resource_group : string) (e : E)
  : (exc + list ListedDeployment) * E :=
  match _run_az (deployments_query resource_name resource_group) false e
  with
  | (inl x, e') => (inl x, e')
  | (inr result, e') =>
      if negb (returncode result =? 0) then (inr [], e')
      else
        let text :=
          if String.eqb (stdout result) "" then "[]" else stdout result in
        match entries_of json_loads text with
        | inl x => (inl x, e')
        | inr entries => (collect deployment_of entries, e')
        end
  end.

(** [self.get_api_key(resource_name, resource_group)] *)
Definition get_api_key (resource_name resource_group : string) (e : E)
  : (exc + option string) * E :=
  match _run_az (keys_query resource_name resource_group) false e with
  | (inl x, e') => (inl x, e')
  | (inr result, e') =>
      if returncode result =? 0 then (inr (Some (strip (stdout result))), e')
      else (inr None, e')
  end.
End World.

(** An [az] that answers the project query with three entries. *)
Definition example_projects : list value :=
  [PyDict [(PyStr "fullName", PyStr "res/proj");
           (PyStr "rg", PyStr "RG-Main");
           (PyStr "loc", PyStr "swedencentral")];
   PyDict [(PyStr "fullName", PyStr "hub");
           (PyStr "rg", PyStr "rg-main");
           (PyStr "loc", PyStr "eastus")];
   PyDict [(PyStr "fullName", PyStr "other/demo");
           (PyStr "rg", PyStr "rg-test");
           (PyStr "loc", PyStr "eastus")]].

Definition example_subprocess_run (cmd : list string) (e : unit)
  : (exc + CompletedProcess) * unit :=
  (inr {| returncode := 0; stdout := "projects"; stderr := "" |}, e).

Definition example_json_loads (text : string) : option value :=
  if String.eqb text "projects" then Some (PyList example_projects)
  else None.

(** An [az] that answers the resource query with two entries. *)
Definition example_resources : list value :=
  [PyDict [(PyStr "name", PyStr "AI-Hub");
           (PyStr "rg", PyStr "rg-main");
           (PyStr "loc", PyStr "swedencentral")];
   PyDict [(PyStr "name", PyStr "other");
           (PyStr "rg", PyStr "rg-test");
           (PyStr "loc", PyStr "eastus")]].

Definition resources_subprocess_run (cmd : list string) (e : unit)
  : (exc + CompletedProcess) * unit :=
  (inr {| returncode := 0; stdout := "resources"; stderr := "" |}, e).

Definition resources_json_loads (text : string) : option value :=
  if String.eqb text "resources" then Some (PyList example_resources)
  else None.

(** An [az] that reports that nobody is logged in, at a terminal where
    the login started on request succeeds. *)
Definition logged_out_subprocess_run (cmd : list string) (e : unit)
  : (exc + CompletedProcess) * unit :=
  (inr {| returncode := 1; stdout := "";
          stderr := "Please run 'az login' to setup account." |}, e).

Definition example_login (cmd : list string) (w : world unit)
  : (exc + Z) * world unit :=
  (inr 0, w).

End Discovery.

(* ================================================================== *)
(** * Further examples *)
(* ================================================================== *)

Module Examples.
Import Py YamlParser.

(** What PyYAML's [safe_load] answers on two more frontmatter blocks: a
    name that is the number zero, and a name after blank lines. *)
Definition more_safe_load (s : string) : load_result :=
  if String.eqb s "name: 0" then
    Loaded (PyDict [(PyStr "name", PyInt 0)])
  else if String.eqb s "name: bot" then
    Loaded (PyDict [(PyStr "name", PyStr "bot")])
  else YAMLError "not an example".

Definition zero_name_document : string :=
  "---" ++ nl ++ "name: 0" ++ nl ++ "---" ++ nl ++ "Be nice.".

Definition blank_lines_document : string :=
  "---" ++ nl ++ nl ++ nl ++ "name: bot" ++ nl ++ "---" ++ nl ++ "Be nice.".

(** An [az] answer whose only entry is the GlobalStandard quota of an audio
    model, unused: the text, and its loaded form. *)
Definition audio_usage_output : string :=
  "[{" ++ CreateAgent.dq ++ "currentValue" ++ CreateAgent.dq ++ ": 0.0, "
  ++ CreateAgent.dq ++ "limit" ++ CreateAgent.dq ++ ": 100.0, "
  ++ CreateAgent.dq ++ "name" ++ CreateAgent.dq ++ ": {"
  ++ CreateAgent.dq ++ "value" ++ CreateAgent.dq ++ ": " ++ CreateAgent.dq
  ++ "OpenAI.GlobalStandard.gpt-4o-audio-preview" ++ CreateAgent.dq ++ "}}]".

Definition audio_usage : value :=
  PyDict [(PyStr "currentValue", PyFloat (0 # 1));
          (PyStr "limit", PyFloat (100 # 1));
          (PyStr "name",
           PyDict [(PyStr "value",
                    PyStr "OpenAI.GlobalStandard.gpt-4o-audio-preview")])].

Definition audio_subprocess_run (_ : list string) (e : unit)
  : (exc_class + CreateAgent.CompletedProcess) * unit :=
  (inr {| CreateAgent.returncode := 0;
          CreateAgent.stdout := audio_usage_output |}, e).

Definition audio_json_loads (s : string) : option value :=
  if String.eqb s audio_usage_output then Some (PyList [audio_usage])
  else None.

(** Discoveries that list no deployment, and one deployment. *)
Definition empty_list_deployments (_ _ : string) (e : unit)
  : (exc_class + list AzureDiscovery.ModelDeployment) * unit :=
  (inr [], e).

Definition mini_deployment : AzureDiscovery.ModelDeployment :=
  {| AzureDiscovery.deployment_name := "gpt-4o-mini";
     AzureDiscovery.model_name := "gpt-4o-mini";
     AzureDiscovery.version := "2024-07-18" |}.

Definition single_list_deployments (_ _ : string) (e : unit)
  : (exc_class + list AzureDiscovery.ModelDeployment) * unit :=
  (inr [mini_deployment], e).

(** A usage query that completes with no entry at all. *)
Definition empty_subprocess_run (_ : list string) (e : unit)
  : (exc_class + CreateAgent.CompletedProcess) * unit :=
  (inr {| CreateAgent.returncode := 0; CreateAgent.stdout := "[]" |}, e).

Definition empty_json_loads (s : string) : option value :=
  if String.eqb s "[]" then Some (PyList []) else None.

End Examples.

(* ================================================================== *)
(** * Facts about the text primitives *)
(* ================================================================== *)

Module PyFacts.
Import Py.

Lemma app_assoc (a b c : string) : (a ++ b) ++ c = a ++ (b ++ c).
Proof.
  induction a as [|x a IH]; simpl; [reflexivity | now rewrite IH].
Qed.

Lemma app_empty_r (a : string) : a ++ "" = a.
Proof.
  induction a as [|x a IH]; simpl; [reflexivity | now rewrite IH].
Qed.

Lemma app_inv_head (a b c : string) : a ++ b = a ++ c -> b = c.
Proof.
  induction a as [|x a IH]; simpl; intros H; [assumption|].
  injection H as H. auto.
Qed.

Lemma all_chars_app p (a b : string) :
  all_chars p (a ++ b) = all_chars p a && all_chars p b.
Proof.
  induction a as [|x a IH]; simpl; [reflexivity|].
  rewrite IH. now rewrite andb_assoc.
Qed.

Lemma lstrip_space_app (w s : string) :
  all_chars isspace w = true -> lstrip (w ++ s) = lstrip s.
Proof.
  induction w as [|x w IH]; simpl; intros H; [reflexivity|].
  apply andb_true_iff in H as [Hx Hw]. rewrite Hx. auto.
Qed.

Lemma strip_space_app (w s : string) :
  all_chars isspace w = true -> strip (w ++ s) = strip s.
Proof.
  intros H. unfold strip. now rewrite lstrip_space_app.
Qed.

Lemma prefix_app (a b : string) : String.prefix a (a ++ b) = true.
Proof.
  induction a as [|x a IH]; simpl; [now destruct b|].
  destruct (ascii_dec x x) as [_|N]; [assumption | now elim N].
Qed.

Lemma prefix_split (a s : string) :
  String.prefix a s = true -> exists t, s = a ++ t.
Proof.
  revert s. induction a as [|x a IH]; intros s H.
  - now exists s.
  - destruct s as [|y s]; simpl in H; [discriminate|].
    destruct (ascii_dec x y) as [->|_]; [|discriminate].
    destruct (IH _ H) as [t ->]. now exists t.
Qed.

Lemma contains_unfold (x s : string) :
  contains x s =
  String.prefix x s
  || match s with
     | EmptyString => false
     | String _ s' => contains x s'
     end.
Proof. now destruct s. Qed.

Lemma contains_app (x a b : string) : contains x (a ++ x ++ b) = true.
Proof.
  induction a as [|y a IH].
  - change ("" ++ x ++ b) with (x ++ b).
    now rewrite contains_unfold, prefix_app.
  - simpl. rewrite IH. apply orb_true_r.
Qed.

Lemma contains_split (x s : string) :
  contains x s = true -> exists a b, s = a ++ x ++ b.
Proof.
  induction s as [|y s IH]; rewrite contains_unfold; intros H;
    apply orb_true_iff in H as [H|H].
  - apply prefix_split in H as [t ->]. now exists "", t.
  - discriminate.
  - apply prefix_split in H as [t Ht]. exists "", t. now rewrite Ht.
  - destruct (IH H) as (a & b & ->). now exists (String y a), b.
Qed.

End PyFacts.

(* ================================================================== *)
(** * The matcher against the texts a pattern can match *)
(* ================================================================== *)

Module ReFacts.
Import Py Re PyFacts.

Lemma strip_prefix_Some (l s t : string) :
  strip_prefix l s = Some t -> s = l ++ t.
Proof.
  revert s. induction l as [|a l IH]; simpl; intros s H.
  - now injection H.
  - destruct s as [|b s]; [discriminate|].
    destruct (Ascii.eqb_spec a b) as [->|_]; [|discriminate].
    now rewrite (IH _ H).
Qed.

Lemma strip_prefix_app (l t : string) : strip_prefix l (l ++ t) = Some t.
Proof.
  induction l as [|a l IH]; simpl; [reflexivity|].
  now rewrite Ascii.eqb_refl.
Qed.

Section Stars.
Variable A : Type.
Implicit Types (k : cont A) (p : ascii -> bool).

Lemma star_greedy_sound p s k x :
  star_greedy p s k = Some x ->
  exists w t, s = w ++ t /\ all_chars p w = true /\ k w t = Some x.
Proof.
  revert k. induction s as [|c s IH]; simpl; intros k H.
  - now exists "", "".
  - destruct (p c) eqn:Hc; [|now exists "", (String c s)].
    destruct (star_greedy p s _) eqn:Hin.
    + injection H as <-. apply IH in Hin as (w & t & -> & Hw & Hk).
      exists (String c w), t. simpl. now rewrite Hc, Hw.
    + now exists "", (String c s).
Qed.

Lemma star_greedy_complete p w t k :
  all_chars p w = true -> star_greedy p (w ++ t) k = None ->
  k w t = None.
Proof.
  revert k. induction w as [|c w IH]; simpl; intros k Hw H.
  - destruct t as [|c t]; simpl in H; [assumption|].
    destruct (p c); [|assumption].
    now destruct (star_greedy p t _).
  - apply andb_true_iff in Hw as [Hc Hw]. rewrite Hc in H.
    destruct (star_greedy p (w ++ t) _) eqn:Hin; [discriminate|].
    now apply IH in Hin.
Qed.

Lemma star_lazy_sound p s k x :
  star_lazy p s k = Some x ->
  exists w t, s = w ++ t /\ all_chars p w = true /\ k w t = Some x.
Proof.
  revert k. induction s as [|c s IH]; simpl; intros k H.
  - destruct (k "" "") eqn:Hk; [|discriminate].
    injection H as <-. now exists "", "".
  - destruct (k "" (String c s)) eqn:Hk.
    + injection H as <-. now exists "", (String c s).
    + destruct (p c) eqn:Hc; [|discriminate].
      apply IH in H as (w & t & -> & Hw & Hkw).
      exists (String c w), t. simpl. now rewrite Hc, Hw.
Qed.

Lemma star_lazy_complete p w t k :
  all_chars p w = true -> star_lazy p (w ++ t) k = None ->
  k w t = None.
Proof.
  revert k. induction w as [|c w IH]; simpl; intros k Hw H.
  - destruct t as [|c t]; simpl in H; now destruct (k "" _).
  - apply andb_true_iff in Hw as [Hc Hw].
    destruct (k "" (String c (w ++ t))); [discriminate|].
    rewrite Hc in H. now apply IH in H.
Qed.

(** The lazy star stops at the first split its continuation accepts. *)
Lemma star_lazy_first p s k x :
  star_lazy p s k = Some x ->
  exists w t, s = w ++ t /\ k w t = Some x /\
    forall w' u t', w = w' ++ u -> u <> "" -> t' = u ++ t ->
                    k w' t' = None.
Proof.
  revert k. induction s as [|c s IH]; simpl; intros k H.
  - destruct (k "" "") eqn:Hk; [|discriminate].
    injection H as <-. exists "", "". repeat split; [assumption|].
    intros w' u t' E. destruct w'; [|discriminate]. simpl in E.
    subst u. intros N. now elim N.
  - destruct (k "" (String c s)) eqn:Hk.
    + injection H as <-. exists "", (String c s). repeat split; auto.
      intros w' u t' E. destruct w'; [|discriminate]. simpl in E.
      subst u. intros N. now elim N.
    + destruct (p c) eqn:Hc; [|discriminate].
      apply IH in H as (w & t & -> & Hkw & Hmin).
      exists (String c w), t. repeat split; [assumption|].
      intros w' u t' E Hu ->. destruct w' as [|c' w']; simpl in E.
      * subst u. assumption.
      * injection E as <- E. now apply (Hmin w' u).
Qed.
End Stars.

(** Whatever the matcher accepts is a text of the pattern. *)
Theorem run_sound (A : Type) (r : regex) :
  forall s g (k : string -> string -> groups -> option A) x,
    run r s g k = Some x ->
    exists w t g', s = w ++ t /\ matches r w g g' /\ k w t g' = Some x.
Proof.
  induction r as [l | b p | r IH | r1 IH1 r2 IH2 | n r IH];
    intros s g k x H; simpl in H.
  - destruct (strip_prefix l s) as [t|] eqn:E; [|discriminate].
    apply strip_prefix_Some in E. exists l, t, g.
    repeat split; [assumption | constructor | assumption].
  - destruct b.
    + apply star_greedy_sound in H as (w & t & -> & Hw & Hk).
      exists w, t, g. repeat split; [now constructor | assumption].
    + apply star_lazy_sound in H as (w & t & -> & Hw & Hk).
      exists w, t, g. repeat split; [now constructor | assumption].
  - destruct (run r s g k) eqn:E.
    + injection H as <-. apply IH in E as (w & t & g' & -> & Hm & Hk).
      exists w, t, g'. repeat split; [now constructor | assumption].
    + exists "", s, g. repeat split; [apply M_OptNone | assumption].
  - apply IH1 in H as (w1 & s1 & g1 & -> & Hm1 & H).
    apply IH2 in H as (w2 & s2 & g2 & -> & Hm2 & H).
    exists (w1 ++ w2), s2, g2. rewrite app_assoc.
    repeat split; [econstructor; eassumption | assumption].
  - apply IH in H as (w & t & g' & -> & Hm & Hk).
    exists w, t, (set_group n w g').
    repeat split; [now constructor | assumption].
Qed.

(** The matcher gives up only when no text of the pattern, followed by
    anything its continuation accepts, starts the input. *)
Theorem run_complete (A : Type) (r : regex) w g g' :
  matches r w g g' ->
  forall t (k : string -> string -> groups -> option A),
    run r (w ++ t) g k = None -> k w t g' = None.
Proof.
  induction 1 as [l g | b p w g Hw | r w g g' _ IH | r g
                 | r1 r2 w1 w2 g g1 g2 _ IH1 _ IH2 | n r w g g' _ IH];
    intros t k H; simpl in H.
  - now rewrite strip_prefix_app in H.
  - destruct b.
    + now apply star_greedy_complete in H.
    + now apply star_lazy_complete in H.
  - destruct (run r (w ++ t) g k) eqn:E; [discriminate|]. now apply IH.
  - now destruct (run r t g k).
  - rewrite app_assoc in H. apply IH1 in H. now apply IH2 in H.
  - now apply IH in H.
Qed.

End ReFacts.

(* ================================================================== *)
(** * The frontmatter pattern *)
(* ================================================================== *)

Module YamlParserFacts.
Import Py Re PyFacts ReFacts YamlParser.

Lemma run_cat (A : Type) r1 r2 s g
    (k : string -> string -> groups -> option A) :
  run (Cat r1 r2) s g k =
  run r1 s g (fun w1 s1 g1 =>
    run r2 s1 g1 (fun w2 s2 g2 => k (w1 ++ w2) s2 g2)).
Proof. reflexivity. Qed.

Lemma all_any_char (s : string) : all_chars any_char s = true.
Proof. induction s; simpl; auto. Qed.

Lemma run_grp_lazy (A : Type) n p s g
    (k : string -> string -> groups -> option A) :
  run (Grp n (Star false p)) s g k =
  star_lazy p s (fun w t => k w t (set_group n w g)).
Proof. reflexivity. Qed.

Lemma run_grp_greedy (A : Type) n p s g
    (k : string -> string -> groups -> option A) :
  run (Grp n (Star true p)) s g k =
  star_greedy p s (fun w t => k w t (set_group n w g)).
Proof. reflexivity. Qed.

Lemma frontmatter_pattern_closing :
  frontmatter_pattern =
  (Lit "---" >> Star true isspace >> Lit nl >>
   Grp 1 (Star false any_char) >> closing_pattern)%regex.
Proof. reflexivity. Qed.

(** The greedy star over every character takes the whole text when its
    continuation accepts that. *)
Lemma star_greedy_any_all (A : Type) (s : string) (k : cont A) y :
  k s "" = Some y -> star_greedy any_char s k = Some y.
Proof.
  revert k. induction s as [|c s IH]; intros k H; simpl; [assumption|].
  now rewrite (IH (fun w t => k (String c w) t) H).
Qed.

(** After a closing marker the rest of the pattern always matches. *)
Lemma closing_pattern_accepts (A : Type) (rest : string) g
    (k : string -> string -> groups -> option A) :
  (forall w t g', k w t g' <> None) ->
  run closing_pattern ((nl ++ "---") ++ rest) g k <> None.
Proof.
  intros Hk H.
  assert (M : matches closing_pattern ((nl ++ "---") ++ "" ++ "" ++ rest)
                g (set_group 2 rest g)).
  { unfold closing_pattern.
    apply M_Cat with (g1 := g); [apply M_Lit|].
    apply M_Cat with (g1 := g); [now apply M_Star|].
    apply M_Cat with (g1 := g); [apply M_OptNone|].
    apply M_Grp, M_Star, all_any_char. }
  pose proof (run_complete M "" k) as C. simpl in C, H.
  rewrite app_empty_r in C. apply C in H. now apply Hk in H.
Qed.

Lemma closing_pattern_shape (s : string) g
    (k : string -> string -> groups -> option groups) m :
  (forall w t g', k w t g' = Some g') ->
  run closing_pattern s g k = Some m ->
  exists ws opt body,
    s = (nl ++ "---") ++ ws ++ opt ++ body /\
    all_chars isspace ws = true /\ (opt = "" \/ opt = nl) /\
    m = set_group 2 body g.
Proof.
  intros Hk H. unfold closing_pattern in H.
  rewrite run_cat in H.
  apply run_sound in H as (w0 & s0 & g0 & -> & M0 & H).
  inversion M0; subst; clear M0.
  rewrite run_cat in H.
  apply run_sound in H as (ws & s1 & g1 & -> & M1 & H).
  inversion M1 as [| ? ? ? ? Hws | | | | ]; subst; clear M1.
  rewrite run_cat in H.
  apply run_sound in H as (opt & body & g2 & -> & M2 & H).
  rewrite run_grp_greedy in H.
  rewrite (@star_greedy_any_all _ body _ (set_group 2 body g2)) in H
    by apply Hk.
  injection H as <-.
  exists ws, opt, body. repeat split; [assumption| |].
  - inversion M2 as [| | ? ? ? ? M3 | | | ]; subst; [|now left].
    inversion M3; subst. now right.
  - inversion M2 as [| | ? ? ? ? M3 | | | ]; subst; [|reflexivity].
    now inversion M3; subst.
Qed.

(** What a match of the whole pattern says about the document: the text
    between the header line and the first later line that begins with the
    marker is group 1, and group 2 is what follows that marker, less the
    white space right after it. *)
Lemma frontmatter_match_shape (content : string) (m : groups) :
  re_match frontmatter_pattern content = Some m ->
  exists head ws opt,
    content = "---" ++ head ++ nl ++ group m 1 ++ (nl ++ "---")
              ++ ws ++ opt ++ group m 2 /\
    all_chars isspace head = true /\
    all_chars isspace ws = true /\ (opt = "" \/ opt = nl) /\
    contains (nl ++ "---") (group m 1) = false.
Proof.
  unfold re_match. rewrite frontmatter_pattern_closing. intros H.
  rewrite run_cat in H.
  apply run_sound in H as (w0 & s0 & g0 & -> & M0 & H).
  inversion M0; subst; clear M0.
  rewrite run_cat in H.
  apply run_sound in H as (head & s1 & g1 & -> & M1 & H).
  inversion M1 as [| ? ? ? ? Hhead | | | | ]; subst; clear M1.
  rewrite run_cat in H.
  apply run_sound in H as (w2 & s2 & g2 & -> & M2 & H).
  inversion M2; subst; clear M2.
  rewrite run_cat, run_grp_lazy in H.
  apply star_lazy_first in H as (fm & s3 & -> & H & Hmin).
  apply closing_pattern_shape in H as (ws & opt & body & -> & Hws & Hopt & ->);
    [|reflexivity].
  change (group (set_group 2 body (set_group 1 fm no_groups)) 1) with fm.
  change (group (set_group 2 body (set_group 1 fm no_groups)) 2) with body.
  exists head, ws, opt. repeat split; try assumption.
  destruct (contains (nl ++ "---") fm) eqn:C; [exfalso | reflexivity].
  apply contains_split in C as (a & b & ->).
  assert (N : (nl ++ "---") ++ b <> "") by discriminate.
  specialize (Hmin a ((nl ++ "---") ++ b) _ eq_refl N eq_refl).
  rewrite app_assoc in Hmin.
  revert Hmin. apply closing_pattern_accepts. discriminate.
Qed.

(** The matcher finds a match whenever the document has the markers. *)
Lemma has_markers_match (content : string) :
  has_markers content -> re_match frontmatter_pattern content <> None.
Proof.
  intros (head & fm & rest & -> & Hhead) H.
  assert (M : matches frontmatter_pattern
                ("---" ++ head ++ nl ++ fm ++
                 ((nl ++ "---") ++ "" ++ "" ++ rest))
                no_groups (set_group 2 rest (set_group 1 fm no_groups))).
  { rewrite frontmatter_pattern_closing.
    apply M_Cat with (g1 := no_groups); [apply M_Lit|].
    apply M_Cat with (g1 := no_groups); [now apply M_Star|].
    apply M_Cat with (g1 := no_groups); [apply M_Lit|].
    apply M_Cat with (g1 := set_group 1 fm no_groups).
    - apply M_Grp, M_Star, all_any_char.
    - unfold closing_pattern.
      apply M_Cat with (g1 := set_group 1 fm no_groups); [apply M_Lit|].
      apply M_Cat with (g1 := set_group 1 fm no_groups); [now apply M_Star|].
      apply M_Cat with (g1 := set_group 1 fm no_groups);
        [apply M_OptNone|].
      apply M_Grp, M_Star, all_any_char. }
  pose proof (run_complete M "" (fun _ _ g => Some g)) as C.
  rewrite app_empty_r in C. unfold re_match in H.
  simpl in C, H. apply C in H. discriminate.
Qed.

Lemma match_has_markers (content : string) (m : groups) :
  re_match frontmatter_pattern content = Some m -> has_markers content.
Proof.
  intros H.
  apply frontmatter_match_shape in H
    as (head & ws & opt & -> & Hhead & _).
  now exists head, (group m 1), (ws ++ opt ++ group m 2).
Qed.

Lemma no_markers_no_match (content : string) :
  ~ has_markers content -> re_match frontmatter_pattern content = None.
Proof.
  intros N. destruct (re_match frontmatter_pattern content) eqn:E;
    [|reflexivity].
  elim N. eapply match_has_markers, E.
Qed.

Lemma has_markers_startswith (content : string) :
  has_markers content -> startswith content "---" = true.
Proof.
  intros (head & fm & rest & -> & _). apply prefix_app.
Qed.

Lemma has_markers_contains (content : string) :
  has_markers content -> contains (nl ++ "---") content = true.
Proof.
  intros (head & fm & rest & -> & _).
  replace ("---" ++ head ++ nl ++ fm ++ (nl ++ "---") ++ rest)
    with (("---" ++ head ++ nl ++ fm) ++ (nl ++ "---") ++ rest).
  - apply contains_app.
  - now rewrite !app_assoc.
Qed.

Lemma contains_marker_after_dashes (rest : string) :
  contains (nl ++ "---") ("---" ++ rest) = contains (nl ++ "---") rest.
Proof.
  change ("---" ++ rest) with (String "-" (String "-" (String "-" rest))).
  rewrite contains_unfold.
  rewrite (contains_unfold _ (String "-" (String "-" rest))).
  rewrite (contains_unfold _ (String "-" rest)).
  reflexivity.
Qed.

(** White space is dropped on both sides of the body. *)
Lemma strip_after_marker (ws opt body : string) :
  all_chars isspace ws = true -> opt = "" \/ opt = nl ->
  strip (ws ++ opt ++ body) = strip body.
Proof.
  intros Hws [-> | ->]; rewrite strip_space_app by assumption;
    [reflexivity|].
  now apply strip_space_app.
Qed.

(** The header line of a document whose second line is a marker: no other
    split of the text puts a line feed after white space. *)
Lemma header_line_unique (head rest ws tail : string) :
  all_chars isspace head = true -> contains nl head = false ->
  all_chars isspace ws = true ->
  head ++ nl ++ "---" ++ rest = ws ++ nl ++ tail ->
  ws = head /\ tail = "---" ++ rest.
Proof.
  revert ws. induction head as [|h head IH]; intros ws Hh Hn Hws E.
  - destruct ws as [|c ws]; simpl in E.
    + injection E as <-. now split.
    + injection E as <- E. destruct ws as [|c ws]; simpl in E, Hws.
      * discriminate.
      * injection E as <- _. discriminate.
  - simpl in Hh. apply andb_true_iff in Hh as [Hh Hh'].
    rewrite contains_unfold in Hn. apply orb_false_iff in Hn as [Hn Hn'].
    destruct ws as [|c ws]; simpl in E.
    + injection E as -> _. simpl in Hn.
      destruct (ascii_dec LF LF) as [_|N]; [|now elim N].
      now destruct head.
    + injection E as <- E. simpl in Hws.
      apply andb_true_iff in Hws as [_ Hws].
      destruct (IH ws Hh' Hn' Hws E) as [-> ->]. now split.
Qed.

End YamlParserFacts.

(* ================================================================== *)
(** * The definition parser *)
(* ================================================================== *)

Module YamlParserClaims.
Import Py Re PyFacts ReFacts YamlParser YamlParserFacts.

(** C1.  The scenario document, whose frontmatter PyYAML loads as the
    mapping name -> bot, description -> test, parses to name bot,
    description test, no model hint and instructions Be nice.  And for
    every document that parses, the instructions are the text after the
    closing marker, stripped on both sides: the document is a header line,
    the frontmatter handed to the loader, the first later line that begins
    with the marker, and a rest whose stripped text is the instructions. *)
Theorem parse_agent_yaml_scenario_and_instructions
    (safe_load : string -> load_result) :
  (safe_load ("name: bot" ++ nl ++ "description: test")
     = Loaded (PyDict [(PyStr "name", PyStr "bot");
                       (PyStr "description", PyStr "test")]) ->
   parse_agent_yaml safe_load scenario_document
     = inr {| name := PyStr "bot";
              description := PyStr "test";
              instructions := "Be nice.";
              model_hint := PyNone |})
  /\
  (forall content cfg,
     parse_agent_yaml safe_load content = inr cfg ->
     exists head frontmatter rest,
       content = "---" ++ head ++ nl ++ frontmatter ++ (nl ++ "---") ++ rest
       /\ all_chars isspace head = true
       /\ contains (nl ++ "---") frontmatter = false
       /\ frontmatter_of content = Some frontmatter
       /\ instructions cfg = strip rest).
Proof.
  split.
  - intros H. cbv in H. cbv. rewrite H. reflexivity.
  - intros content cfg H. unfold parse_agent_yaml in H.
    destruct (re_match frontmatter_pattern content) as [m|] eqn:E;
      [|discriminate].
    destruct (frontmatter_match_shape _ E)
      as (head & ws & opt & Hc & Hhead & Hws & Hopt & Hfirst).
    exists head, (group m 1), (ws ++ opt ++ group m 2).
    repeat split; try assumption.
    + unfold frontmatter_of. now rewrite E.
    + rewrite strip_after_marker by assumption.
      destruct (safe_load (group m 1)) as [e|v]; [discriminate|].
      destruct v; try discriminate.
      destruct (negb _); [discriminate|].
      now injection H as <-.
Qed.

Lemma parse_agent_yaml_scenario_and_instructions_witness :
  parse_agent_yaml example_safe_load scenario_document
    = inr {| name := PyStr "bot";
             description := PyStr "test";
             instructions := "Be nice.";
             model_hint := PyNone |}
  /\ exists head frontmatter rest,
       scenario_document
         = "---" ++ head ++ nl ++ frontmatter ++ (nl ++ "---") ++ rest
       /\ all_chars isspace head = true
       /\ contains (nl ++ "---") frontmatter = false
       /\ frontmatter_of scenario_document = Some frontmatter
       /\ "Be nice." = strip rest.
Proof.
  destruct (parse_agent_yaml_scenario_and_instructions example_safe_load)
    as [scenario general].
  split.
  - apply scenario. reflexivity.
  - apply (general scenario_document
             {| name := PyStr "bot";
                description := PyStr "test";
                instructions := "Be nice.";
                model_hint := PyNone |}).
    reflexivity.
Defined.

(** C2.  A document without the markers (it does not begin with the
    marker, or no later line begins with it, or more generally it is not a
    header line, a block and a later marker line) is refused with the
    invalid-format error; a document whose frontmatter loads to a mapping
    without the key name is refused with the missing-name error, whatever
    else the mapping holds; and the name of every configuration returned
    is true as a condition, so it is neither the empty text nor None. *)
Theorem parse_agent_yaml_rejects_missing_markers_and_name
    (safe_load : string -> load_result) :
  (forall content,
     startswith content "---" = false
     \/ contains (nl ++ "---") content = false
     \/ ~ has_markers content ->
     parse_agent_yaml safe_load content = inl InvalidFormat)
  /\
  (forall content frontmatter d,
     frontmatter_of content = Some frontmatter ->
     safe_load frontmatter = Loaded (PyDict d) ->
     dict_lookup "name" d = None ->
     parse_agent_yaml safe_load content = inl MissingName)
  /\
  (forall content cfg,
     parse_agent_yaml safe_load content = inr cfg ->
     truthy (name cfg) = true
     /\ name cfg <> PyStr "" /\ name cfg <> PyNone).
Proof.
  split; [|split].
  - intros content H. unfold parse_agent_yaml.
    rewrite no_markers_no_match; [reflexivity|].
    intros M. destruct H as [H | [H | H]].
    + apply has_markers_startswith in M. congruence.
    + apply has_markers_contains in M. congruence.
    + contradiction.
  - intros content fm d Hfm Hload Hname. unfold frontmatter_of in Hfm.
    unfold parse_agent_yaml.
    destruct (re_match frontmatter_pattern content) as [m|];
      [|discriminate].
    injection Hfm as Hfm. rewrite Hfm, Hload, Hname. reflexivity.
  - intros content cfg H. unfold parse_agent_yaml in H.
    destruct (re_match frontmatter_pattern content) as [m|];
      [|discriminate].
    destruct (safe_load (group m 1)) as [e|v]; [discriminate|].
    destruct v; try discriminate.
    destruct (truthy _) eqn:T; [|discriminate].
    simpl in H. injection H as <-. simpl.
    split; [assumption|].
    split; intros N; rewrite N in T; discriminate.
Qed.

Lemma parse_agent_yaml_rejects_missing_markers_and_name_witness :
  parse_agent_yaml example_safe_load "name: bot" = inl InvalidFormat
  /\ parse_agent_yaml example_safe_load nameless_document = inl MissingName
  /\ truthy (PyStr "bot") = true.
Proof.
  destruct (parse_agent_yaml_rejects_missing_markers_and_name
              example_safe_load) as (markers & missing & named).
  split; [|split].
  - apply markers. left. reflexivity.
  - apply (missing nameless_document "description: test"
             [(PyStr "description", PyStr "test")]); reflexivity.
  - apply (named scenario_document
             {| name := PyStr "bot";
                description := PyStr "test";
                instructions := "Be nice.";
                model_hint := PyNone |}).
    reflexivity.
Defined.

(** C9, as the code has it.  Once the frontmatter is loaded, the
    not-a-dictionary error is raised exactly when the loaded object is not
    a mapping (a list, a scalar, nothing); a mapping whose name is true as
    a condition is accepted whatever its values are, nested mappings
    included. *)
Theorem not_a_dictionary_iff_not_mapping
    (safe_load : string -> load_result) (content frontmatter : string)
    (v : value) :
  frontmatter_of content = Some frontmatter ->
  safe_load frontmatter = Loaded v ->
  (parse_agent_yaml safe_load content = inl NotADictionary
   <-> is_mapping v = false)
  /\ (forall d n,
        v = PyDict d -> dict_lookup "name" d = Some n -> truthy n = true ->
        exists cfg, parse_agent_yaml safe_load content = inr cfg
                    /\ name cfg = n).
Proof.
  intros Hfm Hload. unfold frontmatter_of in Hfm.
  unfold parse_agent_yaml.
  destruct (re_match frontmatter_pattern content) as [m|]; [|discriminate].
  injection Hfm as Hfm. rewrite Hfm, Hload. split.
  - destruct v; simpl; try (split; [reflexivity | discriminate || reflexivity]).
    split; [|discriminate].
    destruct (negb _); discriminate.
  - intros d n -> Hn Ht. rewrite Hn, Ht. simpl. eexists. split; reflexivity.
Qed.

Lemma not_a_dictionary_iff_not_mapping_witness :
  parse_agent_yaml example_safe_load list_document = inl NotADictionary.
Proof.
  apply (not_a_dictionary_iff_not_mapping example_safe_load list_document
           (frontmatter := "- bot") (v := PyList [PyStr "bot"]));
    reflexivity.
Defined.

(** C9 as stated fails: the frontmatter of this document loads to a mapping
    that is not flat (the value of extra is itself a mapping), and the
    document parses. *)
Lemma nested_mapping_is_accepted :
  frontmatter_of nested_document
    = Some ("name: bot" ++ nl ++ "extra:" ++ nl ++ "  a: 1")
  /\ example_safe_load ("name: bot" ++ nl ++ "extra:" ++ nl ++ "  a: 1")
     = Loaded (PyDict [(PyStr "name", PyStr "bot");
                       (PyStr "extra", PyDict [(PyStr "a", PyInt 1)])])
  /\ is_flat_mapping
       (PyDict [(PyStr "name", PyStr "bot");
                (PyStr "extra", PyDict [(PyStr "a", PyInt 1)])]) = false
  /\ parse_agent_yaml example_safe_load nested_document
     = inr {| name := PyStr "bot";
              description := PyStr "";
              instructions := "Be nice.";
              model_hint := PyNone |}.
Proof. repeat split. Qed.

(** A matched document never ends in the invalid-format error. *)
Lemma matched_not_invalid_format (safe_load : string -> load_result)
    (content : string) (m : groups) :
  re_match frontmatter_pattern content = Some m ->
  parse_agent_yaml safe_load content <> inl InvalidFormat.
Proof.
  intros E. unfold parse_agent_yaml. rewrite E. cbv beta iota zeta.
  destruct (safe_load _) as [e|v]; [discriminate|].
  destruct v; try discriminate.
  destruct (negb _); discriminate.
Qed.

(** C10, as the code has it.  Let the header line be directly followed by
    a marker line.  When no later line of the document begins with the
    marker, the document is refused with the invalid-format error.  When a
    later line does, the pattern matches, the block handed to the loader
    begins with the second marker line, and the outcome is not the
    invalid-format error. *)
Theorem adjacent_markers_outcome
    (safe_load : string -> load_result) (head rest : string) :
  all_chars isspace head = true ->
  contains nl head = false ->
  let content := "---" ++ head ++ nl ++ "---" ++ rest in
  (contains (nl ++ "---") rest = false ->
   parse_agent_yaml safe_load content = inl InvalidFormat)
  /\
  (contains (nl ++ "---") rest = true ->
   (exists block, frontmatter_of content = Some ("---" ++ block))
   /\ parse_agent_yaml safe_load content <> inl InvalidFormat).
Proof.
  intros Hhead Hline content. split.
  - intros Hrest. unfold parse_agent_yaml.
    rewrite no_markers_no_match; [reflexivity|].
    intros (ws & fm & rest' & E & Hws).
    apply app_inv_head in E.
    destruct (header_line_unique _ _ _ _ Hhead Hline Hws E) as [_ E'].
    assert (C : contains (nl ++ "---") ("---" ++ rest) = true).
    { rewrite <- E'. apply contains_app. }
    rewrite contains_marker_after_dashes in C. congruence.
  - intros Hrest. apply contains_split in Hrest as (a & b & Hrest).
    assert (M : has_markers content).
    { exists head, ("---" ++ a), b. split; [|assumption].
      subst content. now rewrite Hrest, !app_assoc. }
    destruct (re_match frontmatter_pattern content) as [m|] eqn:E;
      [|now apply has_markers_match in M].
    split; [|now apply matched_not_invalid_format with (m := m)].
    destruct (frontmatter_match_shape _ E)
      as (ws & ws' & opt & Hc & Hws & _).
    subst content. apply app_inv_head in Hc.
    destruct (header_line_unique _ _ _ _ Hhead Hline Hws Hc) as [_ Hblock].
    unfold frontmatter_of. rewrite E. simpl.
    destruct (group m 1) as [|c1 [|c2 [|c3 block]]]; simpl in Hblock;
      try discriminate.
    injection Hblock as <- <- <- _. now exists block.
Qed.

Lemma adjacent_markers_outcome_witness :
  parse_agent_yaml example_safe_load empty_block_document
    = inl InvalidFormat.
Proof.
  refine (proj1 (adjacent_markers_outcome example_safe_load
                   "" (nl ++ "Be nice.") eq_refl eq_refl) eq_refl).
Defined.

(** C10 as stated fails: in this document the header line is directly
    followed by a marker line, yet a later line begins with the marker,
    the pattern matches with the second marker line inside the block, and
    the document parses. *)
Lemma adjacent_markers_can_parse :
  adjacent_markers_document
    = "---" ++ nl ++ "---" ++ nl ++ "name: x" ++ nl ++ "---" ++ nl ++ "body"
  /\ frontmatter_of adjacent_markers_document
     = Some ("---" ++ nl ++ "name: x")
  /\ (forall safe_load,
        parse_agent_yaml safe_load adjacent_markers_document
        <> inl InvalidFormat)
  /\ parse_agent_yaml example_safe_load adjacent_markers_document
     = inr {| name := PyStr "x";
              description := PyStr "";
              instructions := "body";
              model_hint := PyNone |}.
Proof.
  repeat split. intros safe_load.
  now apply matched_not_invalid_format
    with (m := set_group 2 "body"
                 (set_group 1 ("---" ++ nl ++ "name: x") no_groups)).
Qed.

End YamlParserClaims.

(* ================================================================== *)
(** * Selection from a list and selection of a deployment *)
(* ================================================================== *)

Module SelectionClaims.
Import Py Prog AzureDiscovery CreateAgent.



Lemma find_unique (A : Type) (f : A -> bool) (l : list A) (d : A) :
  In d l -> f d = true ->
  (forall d', In d' l -> f d' = true -> d' = d) ->
  find f l = Some d.
Proof.
  intros Hin Hf Huniq.
  destruct (find f l) as [d'|] eqn:F.
  - apply find_some in F as [Hin' Hf']. now rewrite (Huniq d' Hin' Hf').
  - now rewrite (find_none _ _ F d Hin) in Hf.
Qed.

(** C7.  When a hint is given and, compared in lower case, it equals the
    deployment name or the model name of exactly one deployment of the
    list that the discovery returns, that deployment is returned and the
    pending input is left as it was: nothing is read from the user. *)
Theorem select_deployment_exact_hint (E : Type)
    (subprocess_run : list string -> E -> (exc_class + CompletedProcess) * E)
    (subprocess_run_interactive :
       list string -> world E -> (exc_class + Z) * world E)
    (json_loads : string -> option value)
    (script_path : string) (script_exists : E -> bool)
    (list_deployments :
       string -> string -> E -> (exc_class + list ModelDeployment) * E)
    (project : AzureProject) (model_hint : string) (w : world E)
    (deployments : list ModelDeployment) (e' : E) (d : ModelDeployment) :
  model_hint <> "" ->
  list_deployments (resource_name project) (resource_group project) (env w)
    = (inr deployments, e') ->
  In d deployments ->
  exact_match (lower model_hint) d = true ->
  (forall d', In d' deployments ->
              exact_match (lower model_hint) d' = true -> d' = d) ->
  select_deployment subprocess_run subprocess_run_interactive json_loads
    script_path script_exists list_deployments project model_hint w
  = (Return d, {| stdin := stdin w; env := e' |}).
Proof.
  intros Hhint Hlist Hin Hmatch Huniq.
  unfold select_deployment, bind, refresh. rewrite Hlist.
  destruct deployments as [|d0 rest]; [destruct Hin|].
  unfold ret at 1.
  destruct (String.eqb_spec model_hint "") as [->|_]; [now elim Hhint|].
  cbn [negb]. unfold by_hint.
  rewrite (find_unique _ _ Hin Hmatch Huniq). reflexivity.
Qed.

Lemma select_deployment_exact_hint_witness :
  select_deployment example_subprocess_run
    example_subprocess_run_interactive example_json_loads
    "deploy-azure-model.sh" (fun _ => false) example_list_deployments
    example_project "GPT-4o" (example_world [Line "n"])
  = (Return {| deployment_name := "chat"; model_name := "gpt-4o";
               version := "2024-08-06" |},
     example_world [Line "n"]).
Proof.
  apply select_deployment_exact_hint with (deployments := example_deployments).
  - discriminate.
  - reflexivity.
  - right. left. reflexivity.
  - reflexivity.
  - intros d' [<- | [<- | []]]; [discriminate | reflexivity].
Defined.

End SelectionClaims.

(* ================================================================== *)
(** * The quota check *)
(* ================================================================== *)

Module QuotaClaims.
Import Py Prog AzureDiscovery CreateAgent.

(** Over entries it can read, the loop answers yes at the first kept entry
    whose available capacity is positive, and no when there is none. *)
Lemma scan_usages_readable (model_lower : string) (usages : list value) :
  Forall (readable model_lower) usages ->
  exists b msg,
    scan_usages model_lower usages = inr (b, msg)
    /\ (b = true ->
        exists u a sku, In u usages /\ kept model_lower u = true
                        /\ available u = Some a /\ 0 < a
                        /\ msg = TpmAvailable sku a)
    /\ (b = false ->
        msg = NoQuota
        /\ forall u a, In u usages -> kept model_lower u = true ->
                       available u = Some a -> a <= 0).
Proof.
  induction 1 as [|u usages [[name Hname] Hav] _ IH].
  - exists false, NoQuota. repeat split; try discriminate.
    intros u a [].
  - destruct IH as (b & msg & Hscan & Hyes & Hno).
    assert (Skip : scan_usages model_lower usages = inr (b, msg) ->
              (kept model_lower u = true ->
               forall a, available u = Some a -> a <= 0) ->
              exists b' msg',
                inr (b, msg) = inr (A := exc_class) (b', msg')
                /\ (b' = true ->
                    exists u' a sku, In u' (u :: usages)
                      /\ kept model_lower u' = true
                      /\ available u' = Some a /\ 0 < a
                      /\ msg' = TpmAvailable sku a)
                /\ (b' = false ->
                    msg' = NoQuota
                    /\ forall u' a, In u' (u :: usages) ->
                         kept model_lower u' = true ->
                         available u' = Some a -> a <= 0)).
    { intros _ Hu. exists b, msg. repeat split.
      - intros Hb. destruct (Hyes Hb) as (u' & a & sku & Hin & R).
        exists u', a, sku. split; [now right | assumption].
      - now apply Hno.
      - intros u' a [<- | Hin] Hk Ha; [now apply Hu|].
        destruct (Hno H) as [_ Hall]. now apply (Hall u' a). }
    unfold kept in Hav, Skip. simpl. rewrite Hname in *.
    destruct (skipped name) eqn:Hs.
    { rewrite Hscan. apply Skip; [assumption | discriminate]. }
    destruct (matching model_lower name) eqn:Hm.
    2:{ rewrite Hscan. apply Skip; [assumption | discriminate]. }
    destruct (Hav eq_refl) as [a Ha]. unfold available in Ha, Skip.
    destruct (int_field u "currentValue") as [e|current] eqn:Hc;
      [discriminate|].
    destruct (int_field u "limit") as [e|limit] eqn:Hl; [discriminate|].
    injection Ha as <-.
    destruct (0 <? limit - current) eqn:Hpos.
    + apply Z.ltb_lt in Hpos.
      eexists true, _. split; [reflexivity|]. split; [|discriminate].
      intros _. exists u, (limit - current). eexists.
      repeat split; try assumption; try reflexivity.
      * now left.
      * unfold kept. now rewrite Hname, Hs, Hm.
      * unfold available. now rewrite Hc, Hl.
    + apply Z.ltb_ge in Hpos. rewrite Hscan. apply Skip; [assumption|].
      intros _ a Ha. injection Ha as <-. assumption.
Qed.

Lemma int_field_exception (u : value) (k : string) x :
  int_field u k = inl x -> is_exception x = true.
Proof.
  unfold int_field, get. destruct u; try (now intros [= <-]).
  destruct (dict_lookup k d) as [v|]; [|discriminate].
  destruct v as [| | | |[|]|s| |]; simpl; try (now intros [= <-]);
    try discriminate.
  destruct (int_of_str s); [discriminate | now intros [= <-]].
Qed.

Lemma usage_name_exception (u : value) x :
  usage_name u = inl x -> is_exception x = true.
Proof.
  unfold usage_name, get. destruct u; try (now intros [= <-]).
  destruct (dict_lookup "name" d) as [n|].
  - destruct n; try (now intros [= <-]).
    destruct (dict_lookup "value" d0) as [v|]; [|discriminate].
    destruct v; (now intros [= <-]) || discriminate.
  - discriminate.
Qed.

(** Whatever stops the loop is caught by [except Exception]. *)
Lemma scan_usages_exception (model_lower : string) (usages : list value) x :
  scan_usages model_lower usages = inl x -> is_exception x = true.
Proof.
  induction usages as [|u usages IH]; simpl; [discriminate|].
  destruct (usage_name u) as [e|name] eqn:Hn.
  - intros [= <-]. now apply usage_name_exception in Hn.
  - destruct (skipped name); [assumption|].
    destruct (matching model_lower name); [|assumption].
    destruct (int_field u "currentValue") as [e|current] eqn:Hc.
    + intros [= <-]. now apply int_field_exception in Hc.
    + destruct (int_field u "limit") as [e|limit] eqn:Hl.
      * intros [= <-]. now apply int_field_exception in Hl.
      * destruct (0 <? limit - current); [discriminate | assumption].
Qed.

Lemma quota_of_result_exception json_loads result model_name x :
  quota_of_result json_loads result model_name = inl x ->
  is_exception x = true.
Proof.
  unfold quota_of_result. destruct (negb (returncode result =? 0));
    [discriminate|].
  destruct (if negb _ then _ else _) as [v|]; [|now intros [= <-]].
  destruct (iterate v) as [e|l] eqn:Hi.
  - intros [= <-]. destruct v; simpl in Hi; try discriminate;
      now injection Hi as <-.
  - apply scan_usages_exception.
Qed.



End QuotaClaims.

(* ================================================================== *)
(** * The agent lifecycle client *)
(* ================================================================== *)

Module AgentBuilderClaims.
Import Py Prog AgentBuilder.

(** C5.  Let the first creation attempt, made under [name] with the
    client at hand, raise the name collision; let the user then type a new
    name (not empty, not q) under which creation succeeds and the
    read-back finds a record with an identifier, the service reporting the
    agent under the name it was created with.  Then [create_agent] makes
    exactly two creation calls and one read-back, the second creation and
    the read-back through a client constructed after the collision, reads
    exactly that one line, and returns a [CreatedAgent] named by the new
    name. *)
Theorem create_agent_retries_once_with_new_name (St : Type)
    (agents_create :
       AIProjectClient -> string -> AgentDefinition -> St ->
       (exc + AgentObject) * St)
    (agents_get :
       AIProjectClient -> string -> St -> (exc + option AgentObject) * St)
    (self : AgentBuilder)
    (model name instructions description resource_group project_name : string)
    (w : world (sdk St)) (line : string) (rest : list tty_input)
    (agent verified : AgentObject) (s1 s2 s3 : St) :
  let first := _get_client self (env w) in
  let client0 := fst (fst first) in
  let client1 := {| serial := constructed (snd first);
                    client_endpoint := self_endpoint self |} in
  let definition := {| kind := "prompt";
                       definition_instructions := instructions;
                       definition_model := model |} in
  let new_name := strip line in
  (forall c, _client self = Some c -> (serial c < constructed (env w))%nat) ->
  stdin w = Line line :: rest ->
  new_name <> "" -> lower new_name <> "q" ->
  agents_create client0 name definition (service (env w))
    = (inl ResourceExistsError, s1) ->
  agents_create client1 new_name definition s1 = (inr agent, s2) ->
  agents_get client1 new_name s2 = (inr (Some verified), s3) ->
  verified <> [] -> nonempty (get verified "id") = true ->
  lookup "name" agent = None \/ lookup "name" agent = Some (Some new_name) ->
  exists self' w',
    create_agent agents_create agents_get self model name instructions
      description resource_group project_name w
    = (Return {| agent_id := get agent "id";
                 name := Some new_name;
                 model := model;
                 endpoint := self_endpoint self;
                 resource_group := resource_group;
                 project_name := project_name |},
       (self', w'))
    /\ calls (env w')
       = (calls (env w) ++ [AgentsCreate client0 name definition;
                            AgentsCreate client1 new_name definition;
                            AgentsGet client1 new_name])%list
    /\ serial client1 <> serial client0
    /\ (constructed (env w) <= serial client1)%nat
    /\ _client self' = Some client1
    /\ stdin w' = rest.
Proof.
  intros first client0 client1 definition new_name
         Hwf Hin Hne Hq Hfirst Hsecond Hget Hver Hid Hname.
  assert (Hfresh : serial client1 <> serial client0
                   /\ (constructed (env w) <= serial client1)%nat).
  { subst client1 client0 first. unfold _get_client.
    destruct (_client self) as [c|] eqn:Hc; simpl.
    - specialize (Hwf c eq_refl). lia.
    - lia. }
  assert (Hname' : get_or agent "name" new_name = Some new_name).
  { unfold get_or. now destruct Hname as [-> | ->]. }
  assert (Hmiss : missing (Some verified) = false)
    by (destruct verified; [now elim Hver | reflexivity]).
  unfold create_agent. fold first definition.
  destruct first as [[c0 self0] k0] eqn:Hfirst_eq.
  simpl in client0, client1. subst client0.
  assert (Hk0 : service k0 = service (env w) /\ calls k0 = calls (env w)
                /\ self_endpoint self0 = self_endpoint self).
  { subst first. unfold _get_client in Hfirst_eq.
    destruct (_client self); injection Hfirst_eq as <- <- <-; now simpl. }
  destruct Hk0 as (Hsvc & Hcalls & Hep).
  rewrite Hin. cbn [create_loop]. unfold call_create at 1.
  rewrite Hsvc, Hfirst. fold new_name.
  destruct (String.eqb_spec (lower new_name) "q") as [E|_]; [contradiction|].
  destruct (String.eqb_spec new_name "") as [E|_]; [contradiction|].
  cbn [orb _get_client _client self_endpoint constructed calls service].
  rewrite Hep. fold client1.
  destruct rest as [|next rest]; cbn [create_loop]; unfold call_create;
    cbn [service constructed calls]; rewrite Hsecond;
    cbn [env stdin]; unfold call_get; cbn [service constructed calls];
    rewrite Hget; rewrite Hmiss; cbn [verified_id orb]; rewrite Hid;
    cbn [negb]; rewrite Hname';
    eexists _, _; (split; [reflexivity|]);
    cbn [env calls _client stdin]; rewrite Hcalls, <- !app_assoc;
    repeat split; try reflexivity; apply Hfresh.
Qed.

Lemma create_agent_retries_once_with_new_name_witness :
  exists self' w',
    create_agent registry_create registry_get
      (init "https://res.services.ai.azure.com/api/projects/proj/")
      "gpt-4o" "bot" "Be nice." "" "rg" "proj"
      {| stdin := [Line " bot2 "; Line "n"];
         env := {| constructed := 0; calls := []; service := ["bot"] |} |}
    = (Return {| agent_id := Some "bot2";
                 name := Some "bot2";
                 model := "gpt-4o";
                 endpoint := "https://res.services.ai.azure.com/api/projects/proj";
                 resource_group := "rg";
                 project_name := "proj" |},
       (self', w'))
    /\ List.length (calls (env w')) = 3%nat
    /\ stdin w' = [Line "n"].
Proof.
  destruct (@create_agent_retries_once_with_new_name registry
              registry_create registry_get
              (init "https://res.services.ai.azure.com/api/projects/proj/")
              "gpt-4o" "bot" "Be nice." "" "rg" "proj"
              {| stdin := [Line " bot2 "; Line "n"];
                 env := {| constructed := 0; calls := [];
                           service := ["bot"] |} |}
              " bot2 " [Line "n"]
              [("id", Some "bot2"); ("name", Some "bot2")]
              [("id", Some "bot2"); ("name", Some "bot2")]
              ["bot"] ["bot2"; "bot"] ["bot2"; "bot"])
    as (self' & w' & Hrun & Hcalls & _ & _ & _ & Hin);
    try reflexivity; try discriminate.
  - right. reflexivity.
  - exists self', w'. split; [exact Hrun|]. split; [|exact Hin].
    rewrite Hcalls. reflexivity.
Defined.

(** C6.  Once the creation call has returned (the loop ends with an agent
    under [current_name], through [client]), [create_agent] reads the
    agent back under that name through that client, and raises when the
    read-back raises, returns None, or returns a record without an
    identifier (absent, None or empty): the answer is then never a
    [CreatedAgent]. *)
Theorem create_agent_verifies_creation (St : Type)
    (agents_create :
       AIProjectClient -> string -> AgentDefinition -> St ->
       (exc + AgentObject) * St)
    (agents_get :
       AIProjectClient -> string -> St -> (exc + option AgentObject) * St)
    (self : AgentBuilder)
    (model name instructions description resource_group project_name : string)
    (w : world (sdk St))
    (agent : AgentObject) (client : AIProjectClient) (current_name : string)
    (self2 : AgentBuilder) (w2 : world (sdk St))
    (r : exc + option AgentObject) (s3 : St) :
  let first := _get_client self (env w) in
  let definition := {| kind := "prompt";
                       definition_instructions := instructions;
                       definition_model := model |} in
  let after :=
    (self2,
     {| stdin := stdin w2;
        env := {| constructed := constructed (env w2);
                  calls := (calls (env w2)
                            ++ [AgentsGet client current_name])%list;
                  service := s3 |} |}) in
  let answer :=
    create_agent agents_create agents_get self model name instructions
      description resource_group project_name w in
  create_loop agents_create definition (stdin w) (snd (fst first))
    (fst (fst first)) name (snd first)
    = (Return (agent, client, current_name), (self2, w2)) ->
  agents_get client current_name (service (env w2)) = (r, s3) ->
  snd answer = after
  /\ (forall e, r = inl e ->
        fst answer
        = Raise (if is_exception e
                 then RuntimeError (NotCreated current_name e) else e))
  /\ (r = inr None
      \/ (exists o, r = inr (Some o) /\ nonempty (get o "id") = false) ->
        fst answer
        = Raise (RuntimeError
                   (NotCreated current_name
                      (RuntimeError (NotVerified current_name))))).
Proof.
  intros first definition after answer Hloop Hget.
  subst answer. unfold create_agent. fold first definition.
  destruct first as [[c0 self0] k0]. simpl in Hloop. rewrite Hloop.
  unfold call_get. rewrite Hget. fold after.
  split; [|split].
  - destruct r as [e|v]; [now destruct (is_exception e)|].
    now destruct (missing v || negb (nonempty (verified_id v))).
  - intros e ->. now destruct (is_exception e).
  - intros [-> | (o & -> & Hid)]; [reflexivity|].
    simpl. rewrite Hid. simpl. now rewrite orb_true_r.
Qed.

Lemma create_agent_verifies_creation_witness :
  fst (create_agent registry_create (fun _ _ s => (inr None, s))
         (init "https://res.services.ai.azure.com/api/projects/proj")
         "gpt-4o" "bot" "Be nice." "" "rg" "proj"
         {| stdin := [];
            env := {| constructed := 0; calls := []; service := [] |} |})
  = Raise (RuntimeError (NotCreated "bot" (RuntimeError (NotVerified "bot")))).
Proof.
  refine (proj2 (proj2
    (@create_agent_verifies_creation registry registry_create
       (fun _ _ s => (inr None, s))
       (init "https://res.services.ai.azure.com/api/projects/proj")
       "gpt-4o" "bot" "Be nice." "" "rg" "proj"
       {| stdin := [];
          env := {| constructed := 0; calls := []; service := [] |} |}
       _ _ _ _ _ _ _ eq_refl eq_refl)) _).
  left. reflexivity.
Defined.

End AgentBuilderClaims.

(* ================================================================== *)
(** * The sidecar file, written and read back *)
(* ================================================================== *)

Module SidecarClaims.
Import Py PyFacts AgentBuilder CreateAgent TestAgent.

Lemma rstrip_app (a b : string) :
  rstrip (a ++ b)
  = match rstrip b with
    | EmptyString => rstrip a
    | r => a ++ r
    end.
Proof.
  unfold rstrip. induction a as [|c a IH]; simpl.
  - now destruct (rstrip_by isspace b).
  - rewrite IH. destruct (rstrip_by isspace b) as [|d r]; [reflexivity|].
    now destruct a.
Qed.

Lemma rstrip_idem (s : string) : rstrip (rstrip s) = rstrip s.
Proof.
  unfold rstrip. induction s as [|c s IH]; simpl; [reflexivity|].
  destruct (rstrip_by isspace s) as [|d r] eqn:E.
  - destruct (isspace c) eqn:Hc; simpl; [reflexivity | now rewrite Hc].
  - simpl in IH |- *. now rewrite IH.
Qed.

Lemma lstrip_rstrip (s : string) : lstrip (rstrip s) = rstrip (lstrip s).
Proof.
  unfold rstrip. induction s as [|c s IH]; simpl; [reflexivity|].
  destruct (isspace c) eqn:Hc.
  - rewrite <- IH. destruct (rstrip_by isspace s); simpl; [reflexivity|].
    now rewrite Hc.
  - simpl. destruct (rstrip_by isspace s); simpl; now rewrite Hc.
Qed.

Lemma strip_rstrip (s : string) : strip (rstrip s) = strip s.
Proof.
  unfold strip. now rewrite lstrip_rstrip, rstrip_idem.
Qed.

Lemma splitlines_aux_app (s t cur : string) :
  one_line s = true ->
  splitlines_aux (s ++ t) cur = splitlines_aux t (cur ++ s).
Proof.
  revert cur. induction s as [|c s IH]; intros cur H; simpl.
  - now rewrite app_empty_r.
  - unfold one_line in H. simpl in H.
    apply andb_true_iff in H as [Hc Hs].
    apply negb_true_iff in Hc. rewrite Hc, IH by assumption.
    now rewrite app_assoc.
Qed.

Lemma splitlines_aux_nl (t cur : string) :
  splitlines_aux (nl ++ t) cur = cur :: splitlines_aux t "".
Proof. now destruct t. Qed.

Lemma splitlines_aux_last (cur : string) : splitlines_aux nl cur = [cur].
Proof. reflexivity. Qed.

Lemma lstrip_app_head (h s : string) :
  lstrip h <> "" -> lstrip (h ++ s) = lstrip h ++ s.
Proof.
  induction h as [|c h IH]; simpl; intros H; [now elim H|].
  destruct (isspace c); [now apply IH | reflexivity].
Qed.

(** The stripped form of a line that begins with the text [h]. *)
Lemma strip_headed (h s : string) :
  lstrip h <> "" ->
  strip (h ++ s)
  = match rstrip s with
    | EmptyString => rstrip (lstrip h)
    | r => lstrip h ++ r
    end.
Proof.
  intros H. unfold strip. now rewrite lstrip_app_head, rstrip_app.
Qed.

Lemma scan_skip (l : string) rest a e :
  startswith (strip l) "Agent ID:" = false ->
  startswith (strip l) "Endpoint:" = false ->
  scan_lines (l :: rest) a e = scan_lines rest a e.
Proof. intros H1 H2. simpl. now rewrite H1, H2. Qed.

Lemma scan_skip_headed (h s : string) rest a e :
  lstrip h <> "" ->
  startswith (rstrip (lstrip h)) "Agent ID:" = false ->
  startswith (rstrip (lstrip h)) "Endpoint:" = false ->
  (forall t, startswith (lstrip h ++ t) "Agent ID:" = false) ->
  (forall t, startswith (lstrip h ++ t) "Endpoint:" = false) ->
  scan_lines ((h ++ s) :: rest) a e = scan_lines rest a e.
Proof.
  intros H A1 E1 A2 E2. apply scan_skip; rewrite strip_headed by assumption;
    destruct (rstrip s); auto.
Qed.

Lemma strip_space_rstrip (x : string) :
  strip match rstrip x with
        | EmptyString => EmptyString
        | r => " " ++ r
        end = strip x.
Proof.
  rewrite <- (strip_rstrip x). now destruct (rstrip x).
Qed.

Lemma scan_agent_id_line (x : string) rest a e :
  scan_lines (("Agent ID: " ++ x) :: rest) a e
  = scan_lines rest (Some (strip x)) e.
Proof.
  cbn [scan_lines]. rewrite strip_headed by discriminate.
  rewrite <- (strip_space_rstrip x). now destruct (rstrip x).
Qed.

Lemma scan_endpoint_line (x : string) rest a e :
  scan_lines (("Endpoint: " ++ x) :: rest) a e
  = scan_lines rest a (Some (strip x)).
Proof.
  cbn [scan_lines]. rewrite strip_headed by discriminate.
  rewrite <- (strip_space_rstrip x). now destruct (rstrip x).
Qed.

Lemma app_empty_l (s : string) : "" ++ s = s.
Proof. reflexivity. Qed.

(** Read back, the sidecar file gives the text of its [Agent ID:] line and
    of its [Endpoint:] line, both stripped. *)
Theorem sidecar_read_back (config_name : string) (result : CreatedAgent) :
  one_line config_name = true ->
  one_line (fmt (agent_id result)) = true ->
  one_line (endpoint result) = true ->
  one_line (model result) = true ->
  one_line (fmt (name result)) = true ->
  strip (fmt (agent_id result)) <> "" ->
  strip (endpoint result) <> "" ->
  parse_agent_file (sidecar_text config_name result)
  = inr (strip (fmt (agent_id result)), strip (endpoint result)).
Proof.
  intros H1 H2 H3 H4 H5 Hid Hep.
  unfold parse_agent_file, splitlines, sidecar_text.
  repeat (rewrite splitlines_aux_nl
          || rewrite splitlines_aux_last
          || rewrite splitlines_aux_app by (assumption || reflexivity)).
  rewrite !app_assoc, !app_empty_l.
  rewrite scan_skip_headed by (discriminate || reflexivity).
  rewrite scan_agent_id_line, scan_endpoint_line.
  rewrite scan_skip_headed by (discriminate || reflexivity).
  repeat (rewrite scan_skip by reflexivity).
  rewrite scan_skip_headed by (discriminate || reflexivity).
  repeat (rewrite scan_skip by reflexivity).
  rewrite scan_skip_headed by (discriminate || reflexivity).
  repeat (rewrite scan_skip by reflexivity).
  cbn [scan_lines].
  destruct (String.eqb_spec (strip (fmt (agent_id result))) "") as [E|_];
    [contradiction|].
  destruct (String.eqb_spec (strip (endpoint result)) "") as [E|_];
    [contradiction|].
  reflexivity.
Qed.

(** C4 at a created agent whose identifier differs from its name: reading
    the sidecar file back yields the identifier (the text of the
    [Agent ID:] line) with the endpoint, not the name with the endpoint. *)
Theorem sidecar_read_back_gives_identifier :
  parse_agent_file (sidecar_text "bot" example_created)
    = inr ("asst_abc123",
           "https://res.services.ai.azure.com/api/projects/proj")
  /\ AgentBuilder.name example_created = Some "bot"
  /\ AgentBuilder.agent_id example_created = Some "asst_abc123"
  /\ AgentBuilder.endpoint example_created
     = "https://res.services.ai.azure.com/api/projects/proj".
Proof. repeat split. Qed.

End SidecarClaims.

(* ================================================================== *)
(** * More about the definition parser *)
(* ================================================================== *)

Module ParserExtras.
Import Py Re PyFacts ReFacts YamlParser YamlParserFacts.

Lemma lstrip_idem (s : string) : lstrip (lstrip s) = lstrip s.
Proof.
  induction s as [|c s IH]; simpl; [reflexivity|].
  destruct (isspace c) eqn:Hc; [assumption|]. simpl. now rewrite Hc.
Qed.

Lemma lstrip_strip (s : string) : lstrip (strip s) = strip s.
Proof.
  unfold strip. now rewrite SidecarClaims.lstrip_rstrip, lstrip_idem.
Qed.

Lemma rstrip_strip (s : string) : rstrip (strip s) = strip s.
Proof. unfold strip. apply SidecarClaims.rstrip_idem. Qed.

(** X1.  The instructions of every parsed configuration carry no white
    space at either end: stripping them again on the left or on the right
    changes nothing. *)
Theorem parsed_instructions_are_stripped
    (safe_load : string -> load_result) (content : string)
    (cfg : AgentConfig) :
  parse_agent_yaml safe_load content = inr cfg ->
  lstrip (instructions cfg) = instructions cfg
  /\ rstrip (instructions cfg) = instructions cfg.
Proof.
  unfold parse_agent_yaml.
  destruct (re_match frontmatter_pattern content) as [m|]; [|discriminate].
  destruct (safe_load (group m 1)) as [e|v]; [discriminate|].
  destruct v; try discriminate.
  destruct (negb _); [discriminate|].
  intros [= <-]. simpl. split; [apply lstrip_strip | apply rstrip_strip].
Qed.

Lemma parsed_instructions_are_stripped_witness :
  lstrip "Be nice." = "Be nice." /\ rstrip "Be nice." = "Be nice.".
Proof.
  exact (@parsed_instructions_are_stripped example_safe_load
           scenario_document
           {| name := PyStr "bot";
              description := PyStr "test";
              instructions := "Be nice.";
              model_hint := PyNone |} eq_refl).
Defined.

(** X2.  Once the frontmatter has loaded to a mapping, the missing-name
    error is raised exactly when the mapping has no name or its name is
    false as a condition: a name that is present but empty, zero, False,
    None or an empty collection counts as missing. *)
Theorem missing_name_iff_absent_or_false
    (safe_load : string -> load_result) (content frontmatter : string)
    (d : list (value * value)) :
  frontmatter_of content = Some frontmatter ->
  safe_load frontmatter = Loaded (PyDict d) ->
  (parse_agent_yaml safe_load content = inl MissingName
   <-> match dict_lookup "name" d with
       | Some n => truthy n = false
       | None => True
       end).
Proof.
  intros Hfm Hload. unfold frontmatter_of in Hfm. unfold parse_agent_yaml.
  destruct (re_match frontmatter_pattern content) as [m|]; [|discriminate].
  injection Hfm as Hfm. rewrite Hfm, Hload.
  destruct (dict_lookup "name" d) as [n|]; simpl.
  - destruct (truthy n); simpl; split; try discriminate; reflexivity.
  - split; reflexivity.
Qed.

Lemma missing_name_iff_absent_or_false_witness :
  parse_agent_yaml Examples.more_safe_load Examples.zero_name_document
  = inl MissingName.
Proof.
  apply (proj2 (@missing_name_iff_absent_or_false Examples.more_safe_load
                  Examples.zero_name_document "name: 0"
                  [(PyStr "name", PyInt 0)] eq_refl eq_refl)).
  reflexivity.
Defined.

(** The greedy star settles on the longest run that its continuation
    accepts. *)
Lemma star_greedy_first (A : Type) p s (k : cont A) x :
  star_greedy p s k = Some x ->
  exists w t, s = w ++ t /\ all_chars p w = true /\ k w t = Some x /\
    forall u t', u <> "" -> all_chars p u = true -> t = u ++ t' ->
                 k (w ++ u) t' = None.
Proof.
  revert k. induction s as [|c s IH]; simpl; intros k H.
  - exists "", "". repeat split; try assumption.
    intros u t' Hu _ E. destruct u; [now elim Hu | discriminate].
  - destruct (p c) eqn:Hc.
    + destruct (star_greedy p s _) eqn:Hin.
      * injection H as <-.
        apply IH in Hin as (w & t & -> & Hw & Hk & Hmax).
        exists (String c w), t. simpl. rewrite Hc, Hw.
        repeat split; assumption.
      * exists "", (String c s). repeat split; try assumption.
        intros u t' Hu Hpu E. destruct u as [|c' u]; [now elim Hu|].
        simpl in E, Hpu. injection E as <- ->.
        apply andb_true_iff in Hpu as [_ Hpu].
        now apply (star_greedy_complete _ _ _ _ Hpu) in Hin.
    + exists "", (String c s). repeat split; try assumption.
      intros u t' Hu Hpu E. destruct u as [|c' u]; [now elim Hu|].
      simpl in E, Hpu. injection E as <- _. now rewrite Hc in Hpu.
Qed.

(** The pattern from the line break of the header line on. *)
Lemma block_pattern_accepts (A : Type) (block rest : string) g
    (k : string -> string -> groups -> option A) :
  (forall w t g', k w t g' <> None) ->
  run (Lit nl >> Grp 1 (Star false any_char) >> closing_pattern)%regex
    (nl ++ block ++ (nl ++ "---") ++ rest) g k <> None.
Proof.
  intros Hk H.
  assert (M : matches
                (Lit nl >> Grp 1 (Star false any_char) >> closing_pattern)%regex
                (nl ++ block ++ ((nl ++ "---") ++ "" ++ "" ++ rest))
                g (set_group 2 rest (set_group 1 block g))).
  { apply M_Cat with (g1 := g); [apply M_Lit|].
    apply M_Cat with (g1 := set_group 1 block g).
    - apply M_Grp, M_Star, all_any_char.
    - unfold closing_pattern.
      apply M_Cat with (g1 := set_group 1 block g); [apply M_Lit|].
      apply M_Cat with (g1 := set_group 1 block g); [now apply M_Star|].
      apply M_Cat with (g1 := set_group 1 block g); [apply M_OptNone|].
      apply M_Grp, M_Star, all_any_char. }
  pose proof (run_complete M "" k) as C.
  rewrite app_empty_r in C. simpl in C, H. apply C in H. now apply Hk in H.
Qed.

Lemma run_star_greedy (A : Type) p s g
    (k : string -> string -> groups -> option A) :
  run (Star true p) s g k = star_greedy p s (fun w t => k w t g).
Proof. reflexivity. Qed.

(** X3.  The frontmatter handed to the loader never begins with a line
    break: the blank lines that follow the header line are taken with the
    header, not with the block. *)
Theorem frontmatter_skips_blank_lines (content frontmatter : string) :
  frontmatter_of content = Some frontmatter ->
  startswith frontmatter nl = false.
Proof.
  unfold frontmatter_of, re_match. rewrite frontmatter_pattern_closing.
  destruct (run _ content no_groups _) as [m|] eqn:H; [|discriminate].
  intros [= <-].
  rewrite run_cat in H.
  apply run_sound in H as (w0 & s0 & g0 & -> & M0 & H).
  inversion M0; subst; clear M0.
  rewrite run_cat, run_star_greedy in H.
  apply star_greedy_first in H as (head & s1 & -> & Hhead & H & Hmax).
  rewrite run_cat in H.
  apply run_sound in H as (w2 & s2 & g2 & -> & M2 & H).
  inversion M2; subst; clear M2.
  rewrite run_cat, run_grp_lazy in H.
  apply star_lazy_sound in H as (fm & s3 & -> & _ & H).
  apply closing_pattern_shape in H as (ws & opt & body & -> & _ & _ & ->);
    [|reflexivity].
  change (group (set_group 2 body (set_group 1 fm no_groups)) 1) with fm.
  destruct (startswith fm nl) eqn:S; [exfalso | reflexivity].
  apply prefix_split in S as [block ->].
  assert (N : nl <> "") by discriminate.
  specialize (Hmax nl (nl ++ block ++ (nl ++ "---") ++ ws ++ opt ++ body)
                N eq_refl).
  rewrite !app_assoc in Hmax. specialize (Hmax eq_refl).
  revert Hmax. apply block_pattern_accepts. discriminate.
Qed.

Lemma frontmatter_skips_blank_lines_witness :
  startswith "name: bot" nl = false.
Proof.
  exact (@frontmatter_skips_blank_lines Examples.blank_lines_document
           "name: bot" eq_refl).
Defined.

End ParserExtras.

(* ================================================================== *)
(** * More about the quota check *)
(* ================================================================== *)

Module QuotaExtras.
Import Py Prog PyFacts AzureDiscovery CreateAgent.

Lemma contains_refl (s : string) : contains s s = true.
Proof.
  rewrite contains_unfold.
  assert (E : forall a : string, a ++ "" = a)
    by (induction a as [|c a IH]; simpl; congruence).
  pose proof (prefix_app s "") as P. rewrite E in P. now rewrite P.
Qed.

Lemma contains_trans (a b c : string) :
  contains a b = true -> contains b c = true -> contains a c = true.
Proof.
  intros Hab Hbc.
  apply contains_split in Hab as (x & y & ->).
  apply contains_split in Hbc as (u & v & ->).
  replace (u ++ (x ++ a ++ y) ++ v) with ((u ++ x) ++ a ++ (y ++ v))
    by now rewrite !app_assoc.
  apply contains_app.
Qed.

(** When the model's name holds one of the passed-over kinds, so does
    every entry that holds the model's name. *)
Lemma skipped_model_skips_entries (model_lower name : string) :
  skipped model_lower = true -> contains model_lower name = true ->
  skipped name = true.
Proof.
  unfold skipped. intros Hs Hc.
  apply existsb_exists in Hs as (kind & Hin & Hk).
  apply existsb_exists. exists kind. split; [assumption|].
  now apply contains_trans with (b := model_lower).
Qed.

(** X4.  For a model whose name, in lower case, holds one of the
    passed-over kinds (finetune, batch, realtime, audio, transcribe, tts,
    diarize), no entry is ever kept: when the query completes and its
    entries can be read, the answer is the no-quota one whatever capacity
    the entries show. *)
Theorem no_quota_for_model_of_skipped_kind (E : Type)
    (subprocess_run : list string -> E -> (exc_class + CompletedProcess) * E)
    (json_loads : string -> option value)
    (location model_name : string) (w : world E)
    (result : CompletedProcess) (e' : E) (usages : list value) :
  skipped (lower model_name) = true ->
  subprocess_run (usage_query location) (env w) = (inr result, e') ->
  returncode result = 0 ->
  usages_of json_loads result = Some usages ->
  Forall (readable (lower model_name)) usages ->
  _check_model_quota subprocess_run json_loads location model_name w
  = (Return (false, NoQuota), {| stdin := stdin w; env := e' |}).
Proof.
  intros Hkind Hrun Hrc Hload Hread.
  unfold _check_model_quota. change [_; _; _; _; _; _; _; _]
    with (usage_query location). rewrite Hrun.
  unfold quota_of_result. rewrite Hrc. cbn [Z.eqb negb].
  unfold usages_of in Hload.
  destruct (if negb _ then _ else _) as [v|]; [|discriminate].
  destruct (iterate v) as [e|l]; [discriminate|].
  injection Hload as ->.
  destruct (QuotaClaims.scan_usages_readable Hread)
    as (b & msg & -> & Hyes & Hno).
  destruct b.
  - destruct (Hyes eq_refl) as (u & a & sku & _ & Hk & _).
    unfold kept in Hk. destruct (usage_name u) as [x|name]; [discriminate|].
    apply andb_true_iff in Hk as [Hs Hm].
    apply andb_true_iff in Hm as [Hm _].
    rewrite (skipped_model_skips_entries _ _ Hkind Hm) in Hs. discriminate.
  - now destruct (Hno eq_refl) as [-> _].
Qed.

Lemma no_quota_for_model_of_skipped_kind_witness :
  _check_model_quota Examples.audio_subprocess_run Examples.audio_json_loads
    "swedencentral" "gpt-4o-audio-preview" (example_world [])
  = (Return (false, NoQuota), example_world []).
Proof.
  apply (@no_quota_for_model_of_skipped_kind unit
           Examples.audio_subprocess_run Examples.audio_json_loads
           "swedencentral" "gpt-4o-audio-preview" (example_world [])
           {| returncode := 0; stdout := Examples.audio_usage_output |} tt
           [Examples.audio_usage]);
    try reflexivity.
  constructor; [|constructor]. split.
  - eexists. reflexivity.
  - discriminate.
Defined.

(** X5.  The test of line 260 comes down to two conditions: the entry's
    name holds the model's name and holds the word standard.  Its second
    alternative, globalstandard, never decides: every name that holds
    globalstandard holds standard. *)
Theorem matching_is_model_and_standard (model_lower name : string) :
  matching model_lower name
  = contains model_lower name && contains "standard" name.
Proof.
  unfold matching. f_equal.
  destruct (contains "globalstandard" name) eqn:G;
    [|apply orb_false_r].
  rewrite (contains_trans "standard" "globalstandard" name eq_refl G).
  reflexivity.
Qed.

(** The check leaves the pending input alone, and what leaves it is a
    returned pair or a KeyboardInterrupt of the query. *)
Lemma check_model_quota_contained (E : Type)
    (subprocess_run : list string -> E -> (exc_class + CompletedProcess) * E)
    (json_loads : string -> option value)
    (location model_name : string) (w : world E) :
  exists out e',
    _check_model_quota subprocess_run json_loads location model_name w
    = (out, {| stdin := stdin w; env := e' |})
    /\ match out with
       | Return _ => True
       | Raise x =>
           x = KeyboardInterrupt
           /\ fst (subprocess_run (usage_query location) (env w))
              = inl KeyboardInterrupt
       | Exit _ => False
       end.
Proof.
  unfold _check_model_quota. change [_; _; _; _; _; _; _; _]
    with (usage_query location).
  destruct (subprocess_run (usage_query location) (env w)) as [[x|result] e'].
  - destruct x; simpl; eexists _, e'; (split; [reflexivity|]);
      try exact I; split; reflexivity.
  - destruct (quota_of_result json_loads result model_name) as [x|answer] eqn:Q.
    + rewrite (QuotaClaims.quota_of_result_exception _ _ _ Q).
      eexists _, e'. split; [reflexivity | exact I].
    + eexists _, e'. split; [reflexivity | exact I].
Qed.

(** X6.  The quota check never reads the user's input and never ends the
    process; the only exception that can leave it is a KeyboardInterrupt
    raised while the query runs: every other failure, of the query or of
    the reading of its output, is turned into an answer. *)
Theorem check_model_quota_is_contained (E : Type)
    (subprocess_run : list string -> E -> (exc_class + CompletedProcess) * E)
    (json_loads : string -> option value)
    (location model_name : string) (w : world E) :
  let answer :=
    _check_model_quota subprocess_run json_loads location model_name w in
  stdin (snd answer) = stdin w
  /\ (forall code, fst answer <> Exit code)
  /\ (forall x, fst answer = Raise x ->
        x = KeyboardInterrupt
        /\ fst (subprocess_run (usage_query location) (env w))
           = inl KeyboardInterrupt).
Proof.
  intros answer. subst answer.
  destruct (check_model_quota_contained subprocess_run json_loads location
              model_name w) as (out & e' & -> & Hout).
  split; [reflexivity|]. split.
  - intros code. simpl. intros ->. exact Hout.
  - intros x. simpl. intros ->. exact Hout.
Qed.

End QuotaExtras.

(* ================================================================== *)
(** * More about the selection of a deployment *)
(* ================================================================== *)

Module DeploymentExtras.
Import Py Prog PyFacts AzureDiscovery CreateAgent.

Section Invariant.
Variable E : Type.
Variable subprocess_run :
  list string -> E -> (exc_class + CompletedProcess) * E.
Variable subprocess_run_interactive :
  list string -> world E -> (exc_class + Z) * world E.
Variable json_loads : string -> option value.
Variable script_path : string.
Variable script_exists : E -> bool.
Variable list_deployments :
  string -> string -> E -> (exc_class + list ModelDeployment) * E.
Variable project : AzureProject.

(** A property that every deployment of every listing has. *)
Variable P : ModelDeployment -> Prop.
Hypothesis listed :
  forall e l e',
    list_deployments (resource_name project) (resource_group project) e
    = (inr l, e') ->
    Forall P l.

Let check := _check_model_quota subprocess_run json_loads.
Let deploy := _deploy_model subprocess_run_interactive script_path
                script_exists.
Let relist := refresh list_deployments project.

Lemma refresh_outcome (w : world E) :
  match fst (relist w) with
  | Return l => Forall P l
  | Raise _ => True
  | Exit _ => False
  end.
Proof.
  unfold relist, refresh.
  destruct (list_deployments _ _ (env w)) as [[x|l] e'] eqn:H; simpl;
    [exact I | now apply listed in H].
Qed.

Lemma check_outcome (location model_name : string) (w : world E) :
  forall c, fst (check location model_name w) <> Exit c.
Proof.
  intros c.
  destruct (QuotaExtras.check_model_quota_contained subprocess_run
              json_loads location model_name w) as (out & e' & H & Hout).
  unfold check. rewrite H. simpl. now destruct out.
Qed.

Lemma ask_outcome (w : world E) :
  forall c, fst (ask (E := E) w) <> Exit c.
Proof.
  intros c. unfold ask, bind, input.
  destruct (stdin w) as [|[l|] rest]; discriminate.
Qed.

Lemma deploy_outcome (resource model_filter : string) (w : world E) :
  forall c, fst (deploy resource model_filter w) <> Exit c.
Proof.
  intros c. unfold deploy, _deploy_model.
  destruct (negb (script_exists (env w))); [discriminate|].
  destruct (subprocess_run_interactive _ w) as [[x|code] w'];
    [destruct (is_exception x)|]; discriminate.
Qed.

Lemma offer_deploy_outcome (model_hint : string)
    (accept : ModelDeployment -> bool) (deployments : list ModelDeployment)
    (w : world E) :
  Forall P deployments ->
  match fst (offer_deploy subprocess_run subprocess_run_interactive
               json_loads script_path script_exists list_deployments
               project model_hint accept deployments w) with
  | Return (inl d) => P d
  | Return (inr l) => Forall P l
  | Raise _ => True
  | Exit _ => False
  end.
Proof.
  intros Hd. unfold offer_deploy, bind. fold check deploy relist.
  pose proof (check_outcome (location project) model_hint w) as Hc.
  destruct (check (location project) model_hint w) as [[[b msg]|x|c] w1];
    simpl in *; [|exact I | now apply (Hc c)].
  destruct b; [|assumption].
  pose proof (ask_outcome w1) as Ha.
  destruct (ask w1) as [[r|x|c] w2]; simpl in *;
    [|exact I | now apply (Ha c)].
  destruct (negb (String.eqb r "n")); [|assumption].
  pose proof (deploy_outcome (resource_name project) model_hint w2) as Hdp.
  destruct (deploy (resource_name project) model_hint w2)
    as [[ok|x|c] w3]; simpl in *; [|exact I | now apply (Hdp c)].
  destruct ok; [|assumption].
  pose proof (refresh_outcome w3) as Hr.
  destruct (relist w3) as [[l|x|c] w4]; simpl in *; [|exact I | assumption].
  destruct (find accept l) as [d|] eqn:F; simpl; [|assumption].
  apply find_some in F as [Hin _].
  now apply (proj1 (Forall_forall P l) Hr).
Qed.

Lemma on_no_deployments_outcome (model_hint : string) (w : world E) :
  match fst (on_no_deployments subprocess_run subprocess_run_interactive
               json_loads script_path script_exists list_deployments
               project model_hint w) with
  | Return l => Forall P l
  | Raise _ => True
  | Exit c => c = 1
  end.
Proof.
  unfold on_no_deployments, bind. fold check deploy relist.
  destruct (negb (String.eqb model_hint "")); [|reflexivity].
  pose proof (check_outcome (location project) model_hint w) as Hc.
  destruct (check (location project) model_hint w) as [[[b msg]|x|c] w1];
    simpl in *; [|exact I | now elim (Hc c)].
  destruct b; [|reflexivity].
  pose proof (ask_outcome w1) as Ha.
  destruct (ask w1) as [[r|x|c] w2]; simpl in *;
    [|exact I | now elim (Ha c)].
  destruct (negb (String.eqb r "n")); [|constructor].
  pose proof (deploy_outcome (resource_name project) model_hint w2) as Hdp.
  destruct (deploy (resource_name project) model_hint w2)
    as [[ok|x|c] w3]; simpl in *; [|exact I | now elim (Hdp c)].
  destruct ok; [|reflexivity].
  pose proof (refresh_outcome w3) as Hr.
  destruct (relist w3) as [[l|x|c] w4]; simpl in *;
    [|exact I | contradiction].
  destruct l; [reflexivity | assumption].
Qed.

Lemma by_hint_outcome (model_hint : string)
    (deployments : list ModelDeployment) (w : world E) :
  Forall P deployments ->
  match fst (by_hint subprocess_run subprocess_run_interactive
               json_loads script_path script_exists list_deployments
               project model_hint deployments w) with
  | Return (inl d) => P d
  | Return (inr l) => Forall P l
  | Raise _ => True
  | Exit _ => False
  end.
Proof.
  intros Hd. unfold by_hint.
  destruct (find _ deployments) as [d|] eqn:F.
  - apply find_some in F as [Hin _]. simpl.
    now apply (proj1 (Forall_forall P deployments) Hd).
  - destruct (filter _ deployments) as [|d [|d' rest]] eqn:Hf;
      try now apply offer_deploy_outcome.
    unfold bind. pose proof (ask_outcome w) as Ha.
    destruct (ask w) as [[r|x|c] w1]; simpl in *;
      [|exact I | now apply (Ha c)].
    destruct (negb (String.eqb r "n")); [|now apply offer_deploy_outcome].
    simpl. apply (proj1 (Forall_forall P deployments) Hd).
    apply (proj1 (filter_In (partial_match (lower model_hint)) d
                    deployments)).
    rewrite Hf. now left.
Qed.

Lemma select_from_list_outcome (A : Type) (items : list A) (w : world E) :
  match fst (select_from_list items w) with
  | Return (Some i) => 0 <= i < Z.of_nat (List.length items)
  | Return None => True
  | Raise _ => True
  | Exit _ => False
  end.
Proof.
  destruct items as [|a [|b items]]; simpl; try lia; try exact I.
  unfold input. destruct (stdin w) as [|[l|] rest]; simpl; try exact I.
  destruct (int_of_str (strip l)) as [n|]; [|exact I].
  destruct ((0 <=? n - 1) && (n - 1 <? _)) eqn:R; simpl; [|exact I].
  apply andb_true_iff in R as [R1 R2].
  apply Z.leb_le in R1. apply Z.ltb_lt in R2. simpl in R2. lia.
Qed.

Lemma bind_outcome (A B : Type) (c : prog (world E) exc_class A)
    (k : A -> prog (world E) exc_class B)
    (Qa : A -> Prop) (Qb : B -> Prop) (w : world E) :
  match fst (c w) with
  | Return a => Qa a
  | Raise _ => True
  | Exit code => code = 1
  end ->
  (forall a w',
     Qa a ->
     match fst (k a w') with
     | Return b => Qb b
     | Raise _ => True
     | Exit code => code = 1
     end) ->
  match fst (bind c k w) with
  | Return b => Qb b
  | Raise _ => True
  | Exit code => code = 1
  end.
Proof.
  intros Hc Hk. unfold bind.
  destruct (c w) as [[a|x|code] w']; simpl in *;
    [now apply Hk | exact I | assumption].
Qed.

Lemma select_deployment_outcome (model_hint : string) (w : world E) :
  match fst (select_deployment subprocess_run subprocess_run_interactive
               json_loads script_path script_exists list_deployments
               project model_hint w) with
  | Return d => P d
  | Raise _ => True
  | Exit c => c = 1
  end.
Proof.
  unfold select_deployment. fold relist.
  apply bind_outcome with (Qa := Forall P).
  { pose proof (refresh_outcome w) as Hr.
    destruct (fst (relist w)); [assumption | exact I | contradiction]. }
  intros l w1 Hl.
  apply bind_outcome with (Qa := Forall P).
  { destruct l; [apply on_no_deployments_outcome | exact Hl]. }
  intros l' w2 Hl'.
  apply bind_outcome
    with (Qa := fun found =>
                  match found with
                  | inl d => P d
                  | inr l'' => Forall P l''
                  end).
  { destruct (negb _); [|exact Hl'].
    pose proof (by_hint_outcome model_hint w2 Hl') as Hb.
    destruct (fst (by_hint _ _ _ _ _ _ _ _ _ _)) as [[d|l'']|x|c];
      [assumption | assumption | exact I | contradiction]. }
  intros [d|l''] w3 Hfound; [exact Hfound|].
  apply bind_outcome
    with (Qa := fun idx =>
                  match idx with
                  | Some i => 0 <= i < Z.of_nat (List.length l'')
                  | None => True
                  end).
  { pose proof (select_from_list_outcome l'' w3) as Hs.
    destruct (fst (select_from_list l'' w3)) as [[i|]|x|c];
      [assumption | exact I | exact I | contradiction]. }
  intros [i|] w4 Hi; [|reflexivity].
  destruct (nth_error l'' (Z.to_nat i)) as [d|] eqn:N; simpl; [|exact I].
  apply nth_error_In in N.
  now apply (proj1 (Forall_forall P l'') Hfound).
Qed.

End Invariant.

(** X7.  Whatever path it takes, [select_deployment] only returns a
    deployment that one of its calls to the discovery listed for the
    project: it never makes one up, whether from the hint or from what the
    user typed. *)
Theorem select_deployment_returns_listed (E : Type)
    (subprocess_run : list string -> E -> (exc_class + CompletedProcess) * E)
    (subprocess_run_interactive :
       list string -> world E -> (exc_class + Z) * world E)
    (json_loads : string -> option value)
    (script_path : string) (script_exists : E -> bool)
    (list_deployments :
       string -> string -> E -> (exc_class + list ModelDeployment) * E)
    (project : AzureProject) (model_hint : string) (w w' : world E)
    (d : ModelDeployment) :
  select_deployment subprocess_run subprocess_run_interactive json_loads
    script_path script_exists list_deployments project model_hint w
  = (Return d, w') ->
  exists e l e',
    list_deployments (resource_name project) (resource_group project) e
    = (inr l, e')
    /\ In d l.
Proof.
  intros H.
  pose proof (@select_deployment_outcome E subprocess_run
                subprocess_run_interactive json_loads script_path
                script_exists list_deployments project
                (fun d => exists e l e',
                   list_deployments (resource_name project)
                     (resource_group project) e = (inr l, e')
                   /\ In d l)) as Inv.
  specialize (Inv (fun e l e' Hl =>
                     proj2 (Forall_forall _ l)
                       (fun d Hin => ex_intro _ e (ex_intro _ l
                          (ex_intro _ e' (conj Hl Hin)))))
                  model_hint w).
  now rewrite H in Inv.
Qed.

Lemma select_deployment_returns_listed_witness :
  exists e l e',
    example_list_deployments "res" "rg" e = (inr l, e')
    /\ In {| deployment_name := "chat"; model_name := "gpt-4o";
             version := "2024-08-06" |} l.
Proof.
  apply (@select_deployment_returns_listed unit example_subprocess_run
           example_subprocess_run_interactive example_json_loads
           "deploy-azure-model.sh" (fun _ => false) example_list_deployments
           example_project "GPT-4o" (example_world [Line "n"])
           (example_world [Line "n"])).
  reflexivity.
Defined.

(** X8.  When [select_deployment] ends the process, the exit status is 1:
    no path through it leaves with status 0. *)
Theorem select_deployment_exits_with_one (E : Type)
    (subprocess_run : list string -> E -> (exc_class + CompletedProcess) * E)
    (subprocess_run_interactive :
       list string -> world E -> (exc_class + Z) * world E)
    (json_loads : string -> option value)
    (script_path : string) (script_exists : E -> bool)
    (list_deployments :
       string -> string -> E -> (exc_class + list ModelDeployment) * E)
    (project : AzureProject) (model_hint : string) (w w' : world E)
    (code : Z) :
  select_deployment subprocess_run subprocess_run_interactive json_loads
    script_path script_exists list_deployments project model_hint w
  = (Exit code, w') ->
  code = 1.
Proof.
  intros H.
  pose proof (@select_deployment_outcome E subprocess_run
                subprocess_run_interactive json_loads script_path
                script_exists list_deployments project (fun _ => True)
                (fun e l e' _ => proj2 (Forall_forall _ l) (fun _ _ => I))
                model_hint w) as Inv.
  now rewrite H in Inv.
Qed.

Lemma select_deployment_exits_with_one_witness :
  exists code,
    select_deployment example_subprocess_run
      example_subprocess_run_interactive example_json_loads
      "deploy-azure-model.sh" (fun _ => false) example_list_deployments
      example_project "" (example_world [Line "seven"])
    = (Exit code, example_world [])
    /\ code = 1.
Proof.
  eexists. split; [reflexivity|].
  apply (@select_deployment_exits_with_one unit example_subprocess_run
           example_subprocess_run_interactive example_json_loads
           "deploy-azure-model.sh" (fun _ => false)
           example_list_deployments
           example_project "" (example_world [Line "seven"])
           (example_world [])).
  reflexivity.
Defined.

(** X9.  When the project has no deployment, [select_deployment] ends the
    process with status 1 without asking anything, both when no hint was
    given and when the quota check answers that the hinted model has no
    quota: the pending input is left as it was. *)
Theorem select_deployment_without_deployments (E : Type)
    (subprocess_run : list string -> E -> (exc_class + CompletedProcess) * E)
    (subprocess_run_interactive :
       list string -> world E -> (exc_class + Z) * world E)
    (json_loads : string -> option value)
    (script_path : string) (script_exists : E -> bool)
    (list_deployments :
       string -> string -> E -> (exc_class + list ModelDeployment) * E)
    (project : AzureProject) (model_hint : string) (w : world E) (e1 : E) :
  list_deployments (resource_name project) (resource_group project) (env w)
    = (inr [], e1) ->
  let w1 := {| stdin := stdin w; env := e1 |} in
  let answer :=
    select_deployment subprocess_run subprocess_run_interactive json_loads
      script_path script_exists list_deployments project model_hint w in
  (model_hint = "" -> answer = (Exit 1, w1))
  /\ (forall msg w2,
        model_hint <> "" ->
        _check_model_quota subprocess_run json_loads (location project)
          model_hint w1 = (Return (false, msg), w2) ->
        answer = (Exit 1, w2) /\ stdin w2 = stdin w).
Proof.
  intros Hlist w1 answer. subst answer.
  unfold select_deployment, bind, refresh. rewrite Hlist. fold w1.
  unfold on_no_deployments, bind. split.
  - intros ->. reflexivity.
  - intros msg w2 Hhint Hq.
    destruct (String.eqb_spec model_hint "") as [->|_]; [now elim Hhint|].
    cbn [negb]. rewrite Hq. split; [reflexivity|].
    destruct (QuotaExtras.check_model_quota_contained subprocess_run
                json_loads (location project) model_hint w1)
      as (out & e' & H & _).
    rewrite H in Hq. now injection Hq as _ <-.
Qed.

Lemma select_deployment_without_deployments_witness :
  select_deployment example_subprocess_run
    example_subprocess_run_interactive example_json_loads
    "deploy-azure-model.sh" (fun _ => false) Examples.empty_list_deployments
    example_project "" (example_world [Line "y"])
  = (Exit 1, example_world [Line "y"])
  /\ select_deployment Examples.empty_subprocess_run
       example_subprocess_run_interactive Examples.empty_json_loads
       "deploy-azure-model.sh" (fun _ => false)
       Examples.empty_list_deployments
       example_project "gpt-4o" (example_world [Line "y"])
     = (Exit 1, example_world [Line "y"]).
Proof.
  split.
  - exact (proj1 (@select_deployment_without_deployments unit
                    example_subprocess_run example_subprocess_run_interactive
                    example_json_loads "deploy-azure-model.sh"
                    (fun _ => false) Examples.empty_list_deployments
                    example_project "" (example_world [Line "y"]) tt eq_refl)
                 eq_refl).
  - refine (proj1 (proj2 (@select_deployment_without_deployments unit
                    Examples.empty_subprocess_run
                    example_subprocess_run_interactive
                    Examples.empty_json_loads "deploy-azure-model.sh"
                    (fun _ => false) Examples.empty_list_deployments
                    example_project "gpt-4o" (example_world [Line "y"]) tt
                    eq_refl)
                  NoQuota (example_world [Line "y"]) _ eq_refl)).
    discriminate.
Defined.

(** X10.  A hint that matches nothing does not stop the selection: when
    the only deployment listed matches the hint neither exactly nor in
    part and the quota check answers no for the hinted model, that one
    deployment is returned all the same, and nothing is read from the
    user. *)
Theorem select_deployment_unmatched_hint_single (E : Type)
    (subprocess_run : list string -> E -> (exc_class + CompletedProcess) * E)
    (subprocess_run_interactive :
       list string -> world E -> (exc_class + Z) * world E)
    (json_loads : string -> option value)
    (script_path : string) (script_exists : E -> bool)
    (list_deployments :
       string -> string -> E -> (exc_class + list ModelDeployment) * E)
    (project : AzureProject) (model_hint : string) (w w2 : world E) (e1 : E)
    (d : ModelDeployment) (msg : quota_message) :
  model_hint <> "" ->
  list_deployments (resource_name project) (resource_group project) (env w)
    = (inr [d], e1) ->
  partial_match (lower model_hint) d = false ->
  _check_model_quota subprocess_run json_loads (location project)
    model_hint {| stdin := stdin w; env := e1 |}
    = (Return (false, msg), w2) ->
  select_deployment subprocess_run subprocess_run_interactive json_loads
    script_path script_exists list_deployments project model_hint w
  = (Return d, w2)
  /\ stdin w2 = stdin w.
Proof.
  intros Hhint Hlist Hpart Hq.
  assert (Hexact : exact_match (lower model_hint) d = false).
  { unfold exact_match. unfold partial_match in Hpart.
    apply orb_false_iff in Hpart as [P1 P2]. apply orb_false_iff.
    split.
    - destruct (String.eqb_spec (lower model_hint)
                  (lower (deployment_name d))) as [Eq|_]; [|reflexivity].
      rewrite <- Eq, QuotaExtras.contains_refl in P1. discriminate.
    - destruct (String.eqb_spec (lower model_hint)
                  (lower (model_name d))) as [Eq|_]; [|reflexivity].
      rewrite <- Eq, QuotaExtras.contains_refl in P2. discriminate. }
  unfold select_deployment, bind, refresh. rewrite Hlist.
  unfold ret at 1.
  destruct (String.eqb_spec model_hint "") as [->|_]; [now elim Hhint|].
  cbn [negb]. unfold by_hint. cbn [find filter].
  rewrite Hexact, Hpart. unfold offer_deploy, bind. rewrite Hq.
  split; [reflexivity|].
  destruct (QuotaExtras.check_model_quota_contained subprocess_run
              json_loads (location project) model_hint
              {| stdin := stdin w; env := e1 |}) as (out & e' & H & _).
  rewrite H in Hq. now injection Hq as _ <-.
Qed.

Lemma select_deployment_unmatched_hint_single_witness :
  select_deployment Examples.empty_subprocess_run
    example_subprocess_run_interactive Examples.empty_json_loads
    "deploy-azure-model.sh" (fun _ => false) Examples.single_list_deployments
    example_project "claude" (example_world [Line "n"])
  = (Return Examples.mini_deployment, example_world [Line "n"])
  /\ stdin (example_world [Line "n"]) = [Line "n"].
Proof.
  apply (@select_deployment_unmatched_hint_single unit
           Examples.empty_subprocess_run example_subprocess_run_interactive
           Examples.empty_json_loads "deploy-azure-model.sh"
           (fun _ => false) Examples.single_list_deployments
           example_project "claude" (example_world [Line "n"])
           (example_world [Line "n"]) tt Examples.mini_deployment NoQuota);
    reflexivity || discriminate.
Defined.

(** X11.  When no deployment matches the hint exactly and exactly one
    holds it as a part of its deployment or model name, one line is read
    and every answer other than n, the empty answer included, selects that
    deployment.  The prompt is not guarded: the end of the input and an
    interrupt leave the function as EOFError and KeyboardInterrupt. *)
Theorem select_deployment_single_partial_match (E : Type)
    (subprocess_run : list string -> E -> (exc_class + CompletedProcess) * E)
    (subprocess_run_interactive :
       list string -> world E -> (exc_class + Z) * world E)
    (json_loads : string -> option value)
    (script_path : string) (script_exists : E -> bool)
    (list_deployments :
       string -> string -> E -> (exc_class + list ModelDeployment) * E)
    (project : AzureProject) (model_hint : string) (w : world E) (e1 : E)
    (l : list ModelDeployment) (d : ModelDeployment) :
  model_hint <> "" ->
  list_deployments (resource_name project) (resource_group project) (env w)
    = (inr l, e1) ->
  find (exact_match (lower model_hint)) l = None ->
  filter (partial_match (lower model_hint)) l = [d] ->
  let answer :=
    select_deployment subprocess_run subprocess_run_interactive json_loads
      script_path script_exists list_deployments project model_hint w in
  (forall s rest,
     stdin w = Line s :: rest -> lower (strip s) <> "n" ->
     answer = (Return d, {| stdin := rest; env := e1 |}))
  /\ (stdin w = [] ->
      answer = (Raise EOFError, {| stdin := []; env := e1 |}))
  /\ (forall rest,
        stdin w = Interrupt :: rest ->
        answer = (Raise KeyboardInterrupt, {| stdin := rest; env := e1 |})).
Proof.
  intros Hhint Hlist Hexact Hpart answer. subst answer.
  assert (Hsel : forall out,
    (let (r, w') := ask {| stdin := stdin w; env := e1 |} in
     match r with
     | Return response =>
         if negb (String.eqb response "n") then (Return d, w')
         else (Exit 0, w')
     | Raise x => (Raise x, w')
     | Exit c => (Exit c, w')
     end) = out ->
    fst out <> Exit 0 ->
    select_deployment subprocess_run subprocess_run_interactive json_loads
      script_path script_exists list_deployments project model_hint w
    = out).
  { intros out <- Hout.
    unfold select_deployment at 1. unfold bind at 1. unfold refresh at 1.
    rewrite Hlist.
    destruct l as [|d0 l']; [discriminate|].
    unfold bind at 1. unfold ret at 1.
    destruct (String.eqb_spec model_hint "") as [->|_]; [now elim Hhint|].
    cbn [negb]. unfold bind at 1. unfold by_hint at 1.
    rewrite Hexact, Hpart. unfold bind at 1.
    destruct (ask _) as [[response|x|c] w'] eqn:A; try reflexivity.
    destruct (String.eqb response "n") eqn:R; [|reflexivity].
    now elim Hout. }
  split; [|split].
  - intros s rest Hin Hn. apply Hsel.
    + unfold ask, bind, input. simpl. rewrite Hin. unfold ret.
      destruct (String.eqb_spec (lower (strip s)) "n") as [Eq|_];
        [now elim Hn | reflexivity].
    + discriminate.
  - intros Hin. apply Hsel; [|discriminate].
    unfold ask, bind, input. simpl. now rewrite Hin.
  - intros rest Hin. apply Hsel; [|discriminate].
    unfold ask, bind, input. simpl. now rewrite Hin.
Qed.

Lemma select_deployment_single_partial_match_witness :
  select_deployment example_subprocess_run
    example_subprocess_run_interactive example_json_loads
    "deploy-azure-model.sh" (fun _ => false) example_list_deployments
    example_project "mini" (example_world [Line ""; Line "9"])
  = (Return Examples.mini_deployment, example_world [Line "9"]).
Proof.
  refine (proj1 (@select_deployment_single_partial_match unit
                   example_subprocess_run example_subprocess_run_interactive
                   example_json_loads "deploy-azure-model.sh"
                   (fun _ => false) example_list_deployments
                   example_project "mini"
                   (example_world [Line ""; Line "9"]) tt
                   example_deployments Examples.mini_deployment
                   _ eq_refl eq_refl eq_refl)
                "" [Line "9"] eq_refl _);
    discriminate.
Defined.



End DeploymentExtras.

(* ================================================================== *)
(** * More about the creation of an agent *)
(* ================================================================== *)

Module AgentBuilderExtras.
Import Py Prog PyFacts AgentBuilder.

Section Loop.
Variable St : Type.
Variable agents_create :
  AIProjectClient -> string -> AgentDefinition -> St ->
  (exc + AgentObject) * St.
Variable agents_get :
  AIProjectClient -> string -> St -> (exc + option AgentObject) * St.

(** What the loop has done when it hands over an agent: it read one line
    for every creation call that collided, each a name that is neither
    empty nor q, and the last call it made is the creation that gave the
    agent, under the last name typed. *)
Lemma create_loop_returns (definition : AgentDefinition)
    (pending : list tty_input) :
  forall (self : AgentBuilder) (client : AIProjectClient) (name : string)
         (k : sdk St) agent client' name' self' w',
  create_loop agents_create definition pending self client name k
  = (Return (agent, client', name'), (self', w')) ->
  exists (consumed : list string) (creates : list sdk_call),
    pending = (map Line consumed ++ stdin w')%list
    /\ calls (env w')
       = (calls k ++ creates ++ [AgentsCreate client' name' definition])%list
    /\ List.length creates = List.length consumed
    /\ Forall (fun c => exists cl n, c = AgentsCreate cl n definition) creates
    /\ name' = last (map strip consumed) name
    /\ Forall (fun l => strip l <> "" /\ lower (strip l) <> "q") consumed
    /\ self_endpoint self' = self_endpoint self
    /\ constructed (env w')
       = (constructed k + List.length consumed)%nat.
Proof.
  induction pending as [|i pending IH];
    intros self client name k agent client' name' self' w' H.
  - cbn [create_loop] in H. unfold call_create in H.
    destruct (agents_create client name definition (service k))
      as [[e|a] s'] eqn:C.
    + destruct e; discriminate.
    + injection H as <- <- <- <- <-. exists [], [].
      cbn. rewrite Nat.add_0_r. repeat split; constructor.
  - cbn [create_loop] in H. unfold call_create in H.
    destruct (agents_create client name definition (service k))
      as [[e|a] s'] eqn:C.
    + destruct e; try discriminate.
      destruct i as [l|]; [|discriminate].
      destruct (String.eqb (lower (strip l)) "q" || String.eqb (strip l) "")
        eqn:Q; [discriminate|].
      apply orb_false_iff in Q as [Q1 Q2].
      apply String.eqb_neq in Q1, Q2.
      cbn [_get_client _client self_endpoint constructed calls service] in H.
      apply IH in H as (consumed & creates & Hp & Hc & Hl & Hf & Hn & Hv
                        & He & Hk).
      exists (l :: consumed), (AgentsCreate client name definition :: creates).
      cbn [calls constructed self_endpoint] in Hc, He, Hk.
      split; [cbn; now rewrite <- Hp|].
      split; [rewrite Hc, <- !List.app_assoc; reflexivity|].
      split; [cbn; now rewrite Hl|].
      split; [constructor; [now exists client, name | assumption]|].
      split.
      { rewrite Hn. cbn [map]. destruct consumed as [|c0 consumed];
          [reflexivity|].
        cbn [map]. generalize (strip c0) (map strip consumed).
        intros a t. change (last (strip l :: a :: t) name)
          with (last (a :: t) name).
        revert a. induction t as [|b t IHt]; intros a; [reflexivity|].
        change (last (a :: b :: t) (strip l)) with (last (b :: t) (strip l)).
        change (last (a :: b :: t) name) with (last (b :: t) name).
        apply IHt. }
      split; [constructor; [now split | assumption]|].
      split; [assumption|].
      rewrite Hk. cbn. lia.
    + injection H as <- <- <- <- <-. exists [], [].
      cbn. rewrite Nat.add_0_r. repeat split; constructor.
Qed.

(** Whatever way the loop ends, every call it made is a creation call. *)
Lemma create_loop_calls (definition : AgentDefinition)
    (pending : list tty_input) :
  forall (self : AgentBuilder) (client : AIProjectClient) (name : string)
         (k : sdk St),
  exists creates,
    calls (env (snd (snd (create_loop agents_create definition pending self
                            client name k))))
    = (calls k ++ creates)%list
    /\ Forall (fun c => exists cl n, c = AgentsCreate cl n definition)
         creates.
Proof.
  assert (Hone : forall client name (k : sdk St),
            exists creates,
              (calls k ++ [AgentsCreate client name definition])%list
              = (calls k ++ creates)%list
              /\ Forall (fun c => exists cl n,
                                   c = AgentsCreate cl n definition) creates).
  { intros client name k. eexists. split; [reflexivity|].
    constructor; [now exists client, name | constructor]. }
  induction pending as [|i pending IH]; intros self client name k;
    cbn [create_loop]; unfold call_create;
    destruct (agents_create client name definition (service k))
      as [[e|a] s'] eqn:C; try apply Hone.
  - destruct e; apply Hone.
  - destruct e; try apply Hone.
    destruct i as [l|]; [|apply Hone].
    destruct (String.eqb (lower (strip l)) "q" || String.eqb (strip l) "");
      [apply Hone|].
    cbn [_get_client _client self_endpoint constructed calls service].
    match goal with
    | |- context [create_loop _ _ _ ?s ?c ?n ?k'] =>
        destruct (IH s c n k') as (creates & Hc & Hf)
    end.
    cbn [calls] in Hc.
    exists (AgentsCreate client name definition :: creates).
    split; [rewrite Hc, <- List.app_assoc; reflexivity|].
    constructor; [now exists client, name | assumption].
Qed.

End Loop.

(** [_get_client] keeps the calls made, the service and the endpoint. *)
Lemma get_client_keeps (St : Type) (self : AgentBuilder) (k : sdk St) :
  calls (snd (_get_client self k)) = calls k
  /\ service (snd (_get_client self k)) = service k
  /\ self_endpoint (snd (fst (_get_client self k))) = self_endpoint self.
Proof.
  unfold _get_client. now destruct (_client self).
Qed.

(** X13.  What a successful [create_agent] has done.  It read one line
    for every creation call that collided, each a name that is neither
    empty nor q; it made one creation call more than it read lines, the
    last under the last name typed (the given name when none was), and
    then one read-back under that name through the same client, as its
    last call.  The model, the resource group and the project name of the
    result are the arguments, and the endpoint is the builder's. *)
Theorem create_agent_success_shape (St : Type)
    (agents_create :
       AIProjectClient -> string -> AgentDefinition -> St ->
       (exc + AgentObject) * St)
    (agents_get :
       AIProjectClient -> string -> St -> (exc + option AgentObject) * St)
    (self : AgentBuilder)
    (model name instructions description resource_group project_name : string)
    (w : world (sdk St)) (created : CreatedAgent) (self' : AgentBuilder)
    (w' : world (sdk St)) :
  create_agent agents_create agents_get self model name instructions
    description resource_group project_name w
  = (Return created, (self', w')) ->
  exists (consumed : list string) (creates : list sdk_call)
         (client : AIProjectClient),
    let definition := {| kind := "prompt";
                         definition_instructions := instructions;
                         definition_model := model |} in
    let current_name := last (map strip consumed) name in
    stdin w = (map Line consumed ++ stdin w')%list
    /\ Forall (fun l => strip l <> "" /\ lower (strip l) <> "q") consumed
    /\ calls (env w')
       = (calls (env w) ++ creates
          ++ [AgentsCreate client current_name definition;
              AgentsGet client current_name])%list
    /\ List.length creates = List.length consumed
    /\ Forall (fun c => exists cl n, c = AgentsCreate cl n definition) creates
    /\ AgentBuilder.model created = model
    /\ endpoint created = self_endpoint self
    /\ AgentBuilder.resource_group created = resource_group
    /\ AgentBuilder.project_name created = project_name.
Proof.
  intros H. unfold create_agent in H.
  pose proof (get_client_keeps self (env w)) as (Kc & _ & Ke).
  destruct (_get_client self (env w)) as [[client0 self1] k1].
  cbn [fst snd] in Kc, Ke.
  destruct (create_loop _ _ _ _ _ _ _)
    as [[[[agent client] current_name]|e|code] [self2 w2]] eqn:L;
    try discriminate.
  apply create_loop_returns in L
    as (consumed & creates & Hp & Hc & Hl & Hf & Hn & Hv & He & _).
  unfold call_get in H.
  destruct (agents_get client current_name (service (env w2)))
    as [[e|verified] s3].
  - destruct (AgentBuilder.is_exception e); discriminate.
  - destruct (missing verified || negb (nonempty (verified_id verified)));
      [discriminate|].
    injection H as <- <- <-.
    exists consumed, creates, client. cbn.
    rewrite Hc, Kc, <- Hn, He, Ke, <- !List.app_assoc.
    repeat split; assumption.
Qed.

Lemma create_agent_success_shape_witness :
  exists (consumed : list string) (creates : list sdk_call)
         (client : AIProjectClient),
    [Line " bot2 "; Line "n"] = (map Line consumed ++ [Line "n"])%list
    /\ Forall (fun l => strip l <> "" /\ lower (strip l) <> "q") consumed
    /\ List.length creates = List.length consumed.
Proof.
  destruct (@create_agent_success_shape registry registry_create
              registry_get
              (init "https://res.services.ai.azure.com/api/projects/proj/")
              "gpt-4o" "bot" "Be nice." "" "rg" "proj"
              {| stdin := [Line " bot2 "; Line "n"];
                 env := {| constructed := 0; calls := [];
                           service := ["bot"] |} |}
              _ _ _ eq_refl)
    as (consumed & creates & client & Hp & Hv & _ & Hl & _).
  exists consumed, creates, client. repeat split; assumption.
Defined.

(** X14.  What the prompt after a collision does with the answer.  When
    the first creation call collides, a typed line that is blank or is q
    (in either case, spaces around it apart) raises the cancelled error
    that names the given name; the end of the input and an interrupt
    leave the function as EOFError and KeyboardInterrupt.  In all three
    cases that one creation call is the only call made: nothing is read
    back. *)
Theorem create_agent_collision_prompt (St : Type)
    (agents_create :
       AIProjectClient -> string -> AgentDefinition -> St ->
       (exc + AgentObject) * St)
    (agents_get :
       AIProjectClient -> string -> St -> (exc + option AgentObject) * St)
    (self : AgentBuilder)
    (model name instructions description resource_group project_name : string)
    (w : world (sdk St)) (s1 : St) :
  let first := _get_client self (env w) in
  let client0 := fst (fst first) in
  let definition := {| kind := "prompt";
                       definition_instructions := instructions;
                       definition_model := model |} in
  let answer :=
    create_agent agents_create agents_get self model name instructions
      description resource_group project_name w in
  let after rest :=
    (snd (fst first),
     {| stdin := rest;
        env := {| constructed := constructed (snd first);
                  calls := (calls (env w)
                            ++ [AgentsCreate client0 name definition])%list;
                  service := s1 |} |}) in
  agents_create client0 name definition (service (env w))
    = (inl ResourceExistsError, s1) ->
  (forall l rest,
     stdin w = Line l :: rest ->
     strip l = "" \/ lower (strip l) = "q" ->
     answer = (Raise (RuntimeError (Cancelled name)), after rest))
  /\ (stdin w = [] -> answer = (Raise (Builtin EOFError), after []))
  /\ (forall rest,
        stdin w = Interrupt :: rest ->
        answer = (Raise (Builtin KeyboardInterrupt), after rest)).
Proof.
  intros first client0 definition answer after Hfirst.
  subst answer after. unfold create_agent. fold first definition.
  pose proof (get_client_keeps self (env w)) as (Kc & Ks & _).
  fold first in Kc, Ks. subst client0.
  destruct first as [[c0 self0] k0]. cbn [fst snd] in *.
  split; [|split].
  - intros l rest Hin Hq. rewrite Hin. cbn [create_loop].
    unfold call_create. rewrite Ks, Hfirst, Kc.
    replace (String.eqb (lower (strip l)) "q" || String.eqb (strip l) "")
      with true; [reflexivity|].
    symmetry. apply orb_true_iff.
    destruct Hq as [Hq|Hq]; [right | left]; now apply String.eqb_eq.
  - intros Hin. rewrite Hin. cbn [create_loop].
    unfold call_create. now rewrite Ks, Hfirst, Kc.
  - intros rest Hin. rewrite Hin. cbn [create_loop].
    unfold call_create. now rewrite Ks, Hfirst, Kc.
Qed.

Lemma create_agent_collision_prompt_witness :
  create_agent registry_create registry_get
    (init "https://res.services.ai.azure.com/api/projects/proj")
    "gpt-4o" "bot" "Be nice." "" "rg" "proj"
    {| stdin := [Line " Q "; Line "bot2"];
       env := {| constructed := 0; calls := []; service := ["bot"] |} |}
  = (Raise (RuntimeError (Cancelled "bot")),
     ({| self_endpoint :=
           "https://res.services.ai.azure.com/api/projects/proj";
         _client :=
           Some {| serial := 0;
                   client_endpoint :=
                     "https://res.services.ai.azure.com/api/projects/proj" |}
       |},
      {| stdin := [Line "bot2"];
         env := {| constructed := 1;
                   calls :=
                     [AgentsCreate
                        {| serial := 0;
                           client_endpoint :=
                             "https://res.services.ai.azure.com/api/projects/proj"
                        |}
                        "bot"
                        {| kind := "prompt";
                           definition_instructions := "Be nice.";
                           definition_model := "gpt-4o" |}];
                   service := ["bot"] |} |})).
Proof.
  refine (proj1 (@create_agent_collision_prompt registry registry_create
                   registry_get
                   (init "https://res.services.ai.azure.com/api/projects/proj")
                   "gpt-4o" "bot" "Be nice." "" "rg" "proj"
                   {| stdin := [Line " Q "; Line "bot2"];
                      env := {| constructed := 0; calls := [];
                                service := ["bot"] |} |}
                   ["bot"] eq_refl)
            " Q " [Line "bot2"] eq_refl _).
  right. reflexivity.
Defined.

(** X15.  Only a collision is answered with a prompt.  Any other error of
    the first creation call leaves [create_agent] as it is, not wrapped
    in a RuntimeError as the errors of the read-back are; no input is
    read and nothing is read back. *)
Theorem create_agent_creation_error_passes (St : Type)
    (agents_create :
       AIProjectClient -> string -> AgentDefinition -> St ->
       (exc + AgentObject) * St)
    (agents_get :
       AIProjectClient -> string -> St -> (exc + option AgentObject) * St)
    (self : AgentBuilder)
    (model name instructions description resource_group project_name : string)
    (w : world (sdk St)) (e : exc) (s1 : St) :
  let first := _get_client self (env w) in
  let client0 := fst (fst first) in
  let definition := {| kind := "prompt";
                       definition_instructions := instructions;
                       definition_model := model |} in
  agents_create client0 name definition (service (env w)) = (inl e, s1) ->
  e <> ResourceExistsError ->
  create_agent agents_create agents_get self model name instructions
    description resource_group project_name w
  = (Raise e,
     (snd (fst first),
      {| stdin := stdin w;
         env := {| constructed := constructed (snd first);
                   calls := (calls (env w)
                             ++ [AgentsCreate client0 name definition])%list;
                   service := s1 |} |})).
Proof.
  intros first client0 definition Hfirst Hne.
  unfold create_agent. fold first definition.
  pose proof (get_client_keeps self (env w)) as (Kc & Ks & _).
  fold first in Kc, Ks. subst client0.
  destruct first as [[c0 self0] k0]. cbn [fst snd] in *.
  destruct (stdin w) as [|i rest]; cbn [create_loop]; unfold call_create;
    rewrite Ks, Hfirst, Kc; destruct e; try reflexivity; now elim Hne.
Qed.

Lemma create_agent_creation_error_passes_witness :
  fst (create_agent (fun _ _ _ (s : registry) => (inl (SdkError "denied"), s))
         registry_get
         (init "https://res.services.ai.azure.com/api/projects/proj")
         "gpt-4o" "bot" "Be nice." "" "rg" "proj"
         {| stdin := [Line "bot2"];
            env := {| constructed := 0; calls := []; service := [] |} |})
  = Raise (SdkError "denied").
Proof.
  rewrite (@create_agent_creation_error_passes registry
             (fun _ _ _ (s : registry) => (inl (SdkError "denied"), s))
             registry_get
             (init "https://res.services.ai.azure.com/api/projects/proj")
             "gpt-4o" "bot" "Be nice." "" "rg" "proj"
             {| stdin := [Line "bot2"];
                env := {| constructed := 0; calls := []; service := [] |} |}
             (SdkError "denied") [] eq_refl);
    [reflexivity | discriminate].
Defined.

(** X16.  When the first creation call returns an agent and the read-back
    finds a record with an identifier, [create_agent] returns without
    reading any input, after exactly those two calls, both through one
    client.  The identifier and the name of the result are those of the
    record the creation call returned, not of the record read back (the
    identifier may then be None), and a client the builder already holds
    is used again instead of a new one. *)
Theorem create_agent_first_try (St : Type)
    (agents_create :
       AIProjectClient -> string -> AgentDefinition -> St ->
       (exc + AgentObject) * St)
    (agents_get :
       AIProjectClient -> string -> St -> (exc + option AgentObject) * St)
    (self : AgentBuilder)
    (model name instructions description resource_group project_name : string)
    (w : world (sdk St)) (agent verified : AgentObject) (s1 s2 : St) :
  let first := _get_client self (env w) in
  let client0 := fst (fst first) in
  let definition := {| kind := "prompt";
                       definition_instructions := instructions;
                       definition_model := model |} in
  agents_create client0 name definition (service (env w)) = (inr agent, s1) ->
  agents_get client0 name s1 = (inr (Some verified), s2) ->
  verified <> [] -> nonempty (get verified "id") = true ->
  create_agent agents_create agents_get self model name instructions
    description resource_group project_name w
  = (Return {| agent_id := get agent "id";
               AgentBuilder.name := get_or agent "name" name;
               AgentBuilder.model := model;
               endpoint := self_endpoint self;
               AgentBuilder.resource_group := resource_group;
               AgentBuilder.project_name := project_name |},
     (snd (fst first),
      {| stdin := stdin w;
         env := {| constructed := constructed (snd first);
                   calls := (calls (env w)
                             ++ [AgentsCreate client0 name definition;
                                 AgentsGet client0 name])%list;
                   service := s2 |} |}))
  /\ (forall c, _client self = Some c ->
        client0 = c /\ constructed (snd first) = constructed (env w)).
Proof.
  intros first client0 definition Hcreate Hget Hver Hid.
  assert (Hmiss : missing (Some verified) = false)
    by (destruct verified; [now elim Hver | reflexivity]).
  split.
  - unfold create_agent. fold first definition.
    pose proof (get_client_keeps self (env w)) as (Kc & Ks & Ke).
    fold first in Kc, Ks, Ke. subst client0.
    destruct first as [[c0 self0] k0]. cbn [fst snd] in *.
    destruct (stdin w) as [|i rest]; cbn [create_loop]; unfold call_create;
      rewrite Ks, Hcreate; cbn [env stdin]; unfold call_get;
      cbn [service constructed calls]; rewrite Hget, Hmiss;
      cbn [verified_id orb]; rewrite Hid; cbn [negb];
      rewrite Ke, Kc, <- !List.app_assoc; reflexivity.
  - intros c Hc. subst client0 first. unfold _get_client. rewrite Hc.
    split; reflexivity.
Qed.

Lemma create_agent_first_try_witness :
  fst (create_agent registry_create registry_get
         (init "https://res.services.ai.azure.com/api/projects/proj//")
         "gpt-4o" "bot" "Be nice." "" "rg" "proj"
         {| stdin := [Line "bot2"];
            env := {| constructed := 0; calls := []; service := [] |} |})
  = Return {| agent_id := Some "bot";
              AgentBuilder.name := Some "bot";
              AgentBuilder.model := "gpt-4o";
              endpoint :=
                "https://res.services.ai.azure.com/api/projects/proj";
              AgentBuilder.resource_group := "rg";
              AgentBuilder.project_name := "proj" |}.
Proof.
  rewrite (proj1 (@create_agent_first_try registry registry_create
                    registry_get
                    (init "https://res.services.ai.azure.com/api/projects/proj//")
                    "gpt-4o" "bot" "Be nice." "" "rg" "proj"
                    {| stdin := [Line "bot2"];
                       env := {| constructed := 0; calls := [];
                                 service := [] |} |}
                    [("id", Some "bot"); ("name", Some "bot")]
                    [("id", Some "bot"); ("name", Some "bot")]
                    ["bot"] ["bot"] eq_refl eq_refl
                    ltac:(discriminate) eq_refl)).
  reflexivity.
Defined.

Lemma rstrip_by_spec (p : ascii -> bool) (s : string) :
  exists t,
    s = rstrip_by p s ++ t
    /\ all_chars p t = true
    /\ (forall u c, rstrip_by p s = u ++ String c "" -> p c = false).
Proof.
  induction s as [|c s (t & Hs & Ht & Hlast)].
  - exists "". repeat split. intros [|? ?] c H; discriminate.
  - cbn [rstrip_by]. destruct (rstrip_by p s) as [|d r] eqn:R.
    + destruct (p c) eqn:Pc.
      * exists (String c s). split; [reflexivity|]. split.
        { cbn. rewrite Pc. cbn in Hs. now rewrite Hs. }
        { intros [|? ?] c' H; discriminate. }
      * exists t. split; [cbn in Hs |- *; now rewrite <- Hs|].
        split; [assumption|].
        intros [|x [|? ?]] c' H; try discriminate.
        now injection H as <-.
    + exists t. split; [cbn in Hs |- *; now rewrite <- Hs|].
      split; [assumption|].
      intros [|x u] c' H; [discriminate|].
      injection H as _ H. now apply (Hlast u c').
Qed.

(** X17.  The endpoint a builder keeps is the endpoint it was given
    without its trailing slashes: the given text is the kept one followed
    by slashes only, and the kept one does not end with a slash. *)
Theorem init_strips_trailing_slashes (endpoint : string) :
  exists slashes,
    endpoint = self_endpoint (init endpoint) ++ slashes
    /\ all_chars (Ascii.eqb "/"%char) slashes = true
    /\ (forall u, self_endpoint (init endpoint) <> u ++ "/")
    /\ _client (init endpoint) = None.
Proof.
  destruct (rstrip_by_spec (Ascii.eqb "/"%char) endpoint)
    as (t & Hs & Ht & Hlast).
  exists t. cbn [init self_endpoint _client].
  repeat split; try assumption.
  intros u H. now specialize (Hlast u "/"%char H).
Qed.

End AgentBuilderExtras.

(* ================================================================== *)
(** * More about the reading of the sidecar file *)
(* ================================================================== *)

Module TestAgentExtras.
Import Py PyFacts TestAgent.

Lemma agent_id_headed (line : string) :
  startswith line "Agent ID:" = true ->
  exists x, line = "Agent ID:" ++ x
            /\ after_first ":" line = Some x
            /\ startswith line "Endpoint:" = false.
Proof.
  intros H. apply prefix_split in H as [x ->]. now exists x.
Qed.

Lemma endpoint_headed (line : string) :
  startswith line "Endpoint:" = true ->
  exists x, line = "Endpoint:" ++ x
            /\ after_first ":" line = Some x
            /\ startswith line "Agent ID:" = false.
Proof.
  intros H. apply prefix_split in H as [x ->]. now exists x.
Qed.

(** The loop meets no index out of range. *)
Lemma scan_lines_total (lines : list string) :
  forall a e, exists a' e', scan_lines lines a e = inr (a', e').
Proof.
  induction lines as [|l rest IH]; intros a e; [now exists a, e|].
  cbn [scan_lines].
  destruct (startswith (strip l) "Agent ID:") eqn:A.
  - destruct (agent_id_headed _ A) as (x & _ & -> & _). apply IH.
  - destruct (startswith (strip l) "Endpoint:") eqn:B; [|apply IH].
    destruct (endpoint_headed _ B) as (x & _ & -> & _). apply IH.
Qed.

(** Lines that are not [Agent ID:] lines leave the name found so far. *)
Lemma scan_keeps_agent_id (lines : list string) :
  Forall (fun l => startswith (strip l) "Agent ID:" = false) lines ->
  forall a e, exists e', scan_lines lines a e = inr (a, e').
Proof.
  induction 1 as [|l rest A _ IH]; intros a e; [now exists e|].
  cbn [scan_lines]. rewrite A.
  destruct (startswith (strip l) "Endpoint:") eqn:B; [|apply IH].
  destruct (endpoint_headed _ B) as (x & _ & -> & _). apply IH.
Qed.

Lemma scan_keeps_endpoint (lines : list string) :
  Forall (fun l => startswith (strip l) "Endpoint:" = false) lines ->
  forall a e, exists a', scan_lines lines a e = inr (a', e).
Proof.
  induction 1 as [|l rest B _ IH]; intros a e; [now exists a|].
  cbn [scan_lines]. rewrite B.
  destruct (startswith (strip l) "Agent ID:") eqn:A; [|apply IH].
  destruct (agent_id_headed _ A) as (x & _ & -> & _). apply IH.
Qed.

(** The name the loop ends with is the one it began with when no line is
    an [Agent ID:] line, and else the text of the last such line. *)
Lemma scan_agent_id_spec (lines : list string) :
  forall a0 e0 a e,
  scan_lines lines a0 e0 = inr (a, e) ->
  (a = a0
   /\ Forall (fun l => startswith (strip l) "Agent ID:" = false) lines)
  \/ (exists pre la post x,
        lines = (pre ++ la :: post)%list
        /\ strip la = "Agent ID:" ++ x
        /\ a = Some (strip x)
        /\ Forall (fun l => startswith (strip l) "Agent ID:" = false) post).
Proof.
  induction lines as [|l rest IH]; intros a0 e0 a e H.
  - injection H as <- <-. left. split; [reflexivity | constructor].
  - cbn [scan_lines] in H.
    destruct (startswith (strip l) "Agent ID:") eqn:A.
    + destruct (agent_id_headed _ A) as (x & Hl & Hx & _).
      rewrite Hx in H. right.
      destruct (IH _ _ _ _ H) as [[-> Hf] | (pre & la & post & y & -> & Hla
                                            & -> & Hf)].
      * now exists [], l, rest, x.
      * now exists (l :: pre), la, post, y.
    + assert (H' : exists e1, scan_lines rest a0 e1 = inr (a, e)).
      { destruct (startswith (strip l) "Endpoint:") eqn:B; [|now exists e0].
        destruct (endpoint_headed _ B) as (x & _ & Hx & _).
        rewrite Hx in H. eexists. exact H. }
      destruct H' as (e1 & H').
      destruct (IH _ _ _ _ H') as [[-> Hf] | (pre & la & post & y & -> & Hla
                                             & -> & Hf)].
      * left. split; [reflexivity | now constructor].
      * right. now exists (l :: pre), la, post, y.
Qed.

Lemma scan_endpoint_spec (lines : list string) :
  forall a0 e0 a e,
  scan_lines lines a0 e0 = inr (a, e) ->
  (e = e0
   /\ Forall (fun l => startswith (strip l) "Endpoint:" = false) lines)
  \/ (exists pre le post x,
        lines = (pre ++ le :: post)%list
        /\ strip le = "Endpoint:" ++ x
        /\ e = Some (strip x)
        /\ Forall (fun l => startswith (strip l) "Endpoint:" = false) post).
Proof.
  induction lines as [|l rest IH]; intros a0 e0 a e H.
  - injection H as <- <-. left. split; [reflexivity | constructor].
  - cbn [scan_lines] in H.
    destruct (startswith (strip l) "Agent ID:") eqn:A.
    + destruct (agent_id_headed _ A) as (x & Hl & Hx & B).
      rewrite Hx in H.
      destruct (IH _ _ _ _ H) as [[-> Hf] | (pre & le & post & y & -> & Hle
                                            & -> & Hf)].
      * left. split; [reflexivity | now constructor].
      * right. now exists (l :: pre), le, post, y.
    + destruct (startswith (strip l) "Endpoint:") eqn:B.
      * destruct (endpoint_headed _ B) as (x & Hl & Hx & _).
        rewrite Hx in H. right.
        destruct (IH _ _ _ _ H) as [[-> Hf] | (pre & le & post & y & -> & Hle
                                              & -> & Hf)].
        { now exists [], l, rest, x. }
        { now exists (l :: pre), le, post, y. }
      * destruct (IH _ _ _ _ H) as [[-> Hf] | (pre & le & post & y & -> & Hle
                                              & -> & Hf)].
        { left. split; [reflexivity | now constructor]. }
        { right. now exists (l :: pre), le, post, y. }
Qed.

Lemma scan_finds_agent_id (pre post : list string) (la x : string) :
  strip la = "Agent ID:" ++ x ->
  Forall (fun l => startswith (strip l) "Agent ID:" = false) post ->
  forall a e, exists e',
    scan_lines (pre ++ la :: post) a e = inr (Some (strip x), e').
Proof.
  intros Hla Hpost. induction pre as [|l pre IH]; intros a e.
  - cbn [app scan_lines]. rewrite Hla.
    change (startswith ("Agent ID:" ++ x) "Agent ID:")
      with (String.prefix "Agent ID:" ("Agent ID:" ++ x)).
    rewrite prefix_app.
    change (after_first ":" ("Agent ID:" ++ x)) with (Some x).
    now apply scan_keeps_agent_id.
  - cbn [app scan_lines].
    destruct (startswith (strip l) "Agent ID:") eqn:A.
    + destruct (agent_id_headed _ A) as (y & _ & -> & _). apply IH.
    + destruct (startswith (strip l) "Endpoint:") eqn:B; [|apply IH].
      destruct (endpoint_headed _ B) as (y & _ & -> & _). apply IH.
Qed.

Lemma scan_finds_endpoint (pre post : list string) (le x : string) :
  strip le = "Endpoint:" ++ x ->
  Forall (fun l => startswith (strip l) "Endpoint:" = false) post ->
  forall a e, exists a',
    scan_lines (pre ++ le :: post) a e = inr (a', Some (strip x)).
Proof.
  intros Hle Hpost. induction pre as [|l pre IH]; intros a e.
  - cbn [app scan_lines]. rewrite Hle.
    change (startswith ("Endpoint:" ++ x) "Agent ID:") with false.
    change (startswith ("Endpoint:" ++ x) "Endpoint:")
      with (String.prefix "Endpoint:" ("Endpoint:" ++ x)).
    rewrite prefix_app.
    change (after_first ":" ("Endpoint:" ++ x)) with (Some x).
    now apply scan_keeps_endpoint.
  - cbn [app scan_lines].
    destruct (startswith (strip l) "Agent ID:") eqn:A.
    + destruct (agent_id_headed _ A) as (y & _ & -> & _). apply IH.
    + destruct (startswith (strip l) "Endpoint:") eqn:B; [|apply IH].
      destruct (endpoint_headed _ B) as (y & _ & -> & _). apply IH.
Qed.

(** X18.  The only error of [parse_agent_file] on a text is the
    ValueError of line 40: the index 1 of line 35 and of line 37 is never
    out of range, since the line that is split begins with a text that
    holds the colon. *)
Theorem parse_agent_file_only_value_error (content : string)
    (e : exc_class) :
  parse_agent_file content = inl e -> e = ValueError.
Proof.
  unfold parse_agent_file.
  destruct (scan_lines_total (splitlines content) None None)
    as (a & ep & ->).
  destruct a as [a|], ep as [ep|]; try congruence.
  destruct (String.eqb a "" || String.eqb ep ""); congruence.
Qed.

Lemma parse_agent_file_only_value_error_witness :
  parse_agent_file ("Agent ID:" ++ nl ++ "Endpoint: https://x") = inl ValueError
  /\ ValueError = ValueError.
Proof.
  split; [reflexivity|].
  apply (parse_agent_file_only_value_error
           ("Agent ID:" ++ nl ++ "Endpoint: https://x")).
  reflexivity.
Defined.

(** X19.  [parse_agent_file] returns a pair exactly when the text has a
    line that, stripped, begins with Agent ID: and one that begins with
    Endpoint:, and the last line of each kind has a text after the colon
    that is not blank; the pair is then made of those two texts,
    stripped.  Earlier lines of either kind are overridden by the last
    one. *)
Theorem parse_agent_file_last_line_wins (content a e : string) :
  parse_agent_file content = inr (a, e)
  <-> (a <> "" /\ e <> ""
       /\ (exists pre la post x,
             splitlines content = (pre ++ la :: post)%list
             /\ strip la = "Agent ID:" ++ x
             /\ a = strip x
             /\ Forall (fun l => startswith (strip l) "Agent ID:" = false)
                  post)
       /\ (exists pre le post x,
             splitlines content = (pre ++ le :: post)%list
             /\ strip le = "Endpoint:" ++ x
             /\ e = strip x
             /\ Forall (fun l => startswith (strip l) "Endpoint:" = false)
                  post)).
Proof.
  unfold parse_agent_file. split.
  - destruct (scan_lines (splitlines content) None None)
      as [x|[[a'|] [e'|]]] eqn:S; try discriminate.
    destruct (String.eqb_spec a' "") as [->|Na]; [discriminate|].
    destruct (String.eqb_spec e' "") as [->|Ne]; [discriminate|].
    cbn [orb]. intros [= -> ->].
    split; [assumption|]. split; [assumption|]. split.
    + destruct (scan_agent_id_spec _ _ _ S)
        as [[? _] | (pre & la & post & x & Hs & Hla & [= ->] & Hf)];
        [discriminate|].
      now exists pre, la, post, x.
    + destruct (scan_endpoint_spec _ _ _ S)
        as [[? _] | (pre & le & post & x & Hs & Hle & [= ->] & Hf)];
        [discriminate|].
      now exists pre, le, post, x.
  - intros (Na & Ne & (pre & la & post & x & Hs & Hla & -> & Hf)
            & (pre' & le & post' & y & Hs' & Hle & -> & Hf')).
    destruct (@scan_finds_agent_id pre post la x Hla Hf None None)
      as (e1 & H1).
    destruct (@scan_finds_endpoint pre' post' le y Hle Hf' None None)
      as (a1 & H2).
    rewrite <- Hs in H1. rewrite <- Hs' in H2. rewrite H1 in H2.
    injection H2 as <- ->. rewrite H1.
    destruct (String.eqb_spec (strip x) "") as [E|_]; [contradiction|].
    destruct (String.eqb_spec (strip y) "") as [E|_]; [contradiction|].
    reflexivity.
Qed.

Lemma parse_agent_file_last_line_wins_witness :
  parse_agent_file ("Agent ID: old" ++ nl ++ "Endpoint: https://x" ++ nl
                    ++ "  Agent ID:  new ")
  = inr ("new", "https://x").
Proof.
  apply (proj2 (parse_agent_file_last_line_wins
                  ("Agent ID: old" ++ nl ++ "Endpoint: https://x" ++ nl
                   ++ "  Agent ID:  new ")
                  "new" "https://x")).
  split; [discriminate|]. split; [discriminate|]. split.
  - exists ["Agent ID: old"; "Endpoint: https://x"], "  Agent ID:  new ", [],
      "  new".
    repeat split. constructor.
  - exists ["Agent ID: old"], "Endpoint: https://x", ["  Agent ID:  new "],
      " https://x".
    repeat split. constructor; [reflexivity | constructor].
Defined.

End TestAgentExtras.

(* ================================================================== *)
(** * The choice of a project *)
(* ================================================================== *)

Module ProjectExtras.
Import Py Prog PyFacts AzureDiscovery CreateAgentProject.



End ProjectExtras.

(* ================================================================== *)
(** * The conversation of [test-agent.py] *)
(* ================================================================== *)

Module ChatExtras.
Import Py Prog PyFacts TestAgentChat.

Section Service.
Variable St : Type.
Variable Response : Type.
Variable agents_get :
  string -> string -> St ->
  (exc + option AgentBuilder.AgentObject) * St.
Variable get_openai_client : string -> St -> (exc + unit) * St.
Variable responses_create :
  string -> string -> string -> St -> (exc + Response) * St.


(** What the loop has read and sent when it ends. *)
Lemma chat_loop_sends (agent_name endpoint : string)
    (pending : list tty_input) :
  forall k out w',
  chat_loop responses_create agent_name endpoint pending k = (out, w') ->
  exists (typed : list string) (tail : list tty_input),
    pending = (map Line typed ++ tail)%list
    /\ Forall (fun l => lower (strip l) <> "exit"
                        /\ lower (strip l) <> "quit") typed
    /\ sent (env w')
       = (sent k
          ++ map (fun m => {| agent := agent_name; content := m |})
               (filter (fun m => negb (String.eqb m ""))
                  (map strip typed)))%list
    /\ match out with
       | Return Goodbye =>
           exists l, tail = Line l :: stdin w'
                     /\ (lower (strip l) = "exit"
                         \/ lower (strip l) = "quit")
       | Return EndOfInput => tail = [] /\ stdin w' = []
       | Return Interrupted =>
           tail = Interrupt :: stdin w'
           \/ (tail = stdin w' /\ typed <> [])
       | Return (ChatFailed _) => tail = stdin w' /\ typed <> []
       | _ => False
       end.
Proof.
  induction pending as [|[l|] rest IH]; intros k out w' H;
    cbn [chat_loop] in H.
  - injection H as <- <-. exists [], []. cbn. rewrite List.app_nil_r.
    repeat split; constructor.
  - destruct (String.eqb_spec (lower (strip l)) "exit") as [Ex|Nex].
    { injection H as <- <-. exists [], (Line l :: rest). cbn.
      rewrite List.app_nil_r. repeat split; try constructor.
      exists l. split; [reflexivity | now left]. }
    destruct (String.eqb_spec (lower (strip l)) "quit") as [Qu|Nqu].
    { injection H as <- <-. exists [], (Line l :: rest). cbn.
      rewrite List.app_nil_r. repeat split; try constructor.
      exists l. split; [reflexivity | now right]. }
    cbn [orb] in H.
    destruct (String.eqb_spec (strip l) "") as [Bl|Nbl].
    { apply IH in H as (typed & tail & -> & Hq & Hs & Hout).
      exists (l :: typed), tail. split; [reflexivity|].
      split; [constructor; [now split | assumption]|].
      split.
      - rewrite Hs. cbn [map filter]. rewrite Bl. reflexivity.
      - destruct out as [[| | |]| |]; try assumption.
        + destruct Hout as [Hout _]. split; [assumption | discriminate].
        + destruct Hout as [Hout|[Hout _]]; [now left|].
          right. split; [assumption | discriminate]. }
    assert (Hsent : forall tl,
              (sent k ++ [{| agent := agent_name; content := strip l |}]
               ++ tl)%list
              = (sent k
                 ++ map (fun m => {| agent := agent_name; content := m |})
                      (filter (fun m => negb (String.eqb m ""))
                         (map strip [l])) ++ tl)%list).
    { intros tl. cbn [map filter].
      destruct (String.eqb_spec (strip l) "") as [E|_]; [contradiction|].
      reflexivity. }
    destruct (responses_create endpoint agent_name (strip l) (service k))
      as [[e|r] s'].
    + assert (Hend : forall o,
                (o = Return Interrupted \/ exists x, o = Return (ChatFailed x)) ->
                (o, {| stdin := rest;
                       env := {| sent := (sent k
                                          ++ [{| agent := agent_name;
                                                 content := strip l |}])%list;
                                 service := s' |} |}) = (out, w') ->
                exists (typed : list string) (tail : list tty_input),
                  Line l :: rest = (map Line typed ++ tail)%list
                  /\ Forall (fun l => lower (strip l) <> "exit"
                                      /\ lower (strip l) <> "quit") typed
                  /\ sent (env w')
                     = (sent k
                        ++ map (fun m => {| agent := agent_name;
                                            content := m |})
                             (filter (fun m => negb (String.eqb m ""))
                                (map strip typed)))%list
                  /\ match out with
                     | Return Goodbye =>
                         exists l, tail = Line l :: stdin w'
                                   /\ (lower (strip l) = "exit"
                                       \/ lower (strip l) = "quit")
                     | Return EndOfInput => tail = [] /\ stdin w' = []
                     | Return Interrupted =>
                         tail = Interrupt :: stdin w'
                         \/ (tail = stdin w' /\ typed <> [])
                     | Return (ChatFailed _) =>
                         tail = stdin w' /\ typed <> []
                     | _ => False
                     end).
      { intros o Ho [= <- <-]. exists [l], rest.
        split; [reflexivity|].
        split; [constructor; [now split | constructor]|].
        split.
        - cbn [env sent]. specialize (Hsent []).
          rewrite !List.app_nil_r in Hsent. exact Hsent.
        - destruct Ho as [-> | [x ->]].
          + right. split; [reflexivity | discriminate].
          + split; [reflexivity | discriminate]. }
      destruct e as [c|text].
      * destruct c; cbn [is_exception Py.is_exception] in H;
          refine (Hend _ _ H); eauto.
      * cbn [is_exception] in H. refine (Hend _ _ H); eauto.
    + apply IH in H as (typed & tail & -> & Hq & Hs & Hout).
      exists (l :: typed), tail. split; [reflexivity|].
      split; [constructor; [now split | assumption]|].
      split.
      * rewrite Hs. cbn [sent]. rewrite <- List.app_assoc.
        change (map strip (l :: typed)) with (map strip [l] ++ map strip typed)%list.
        rewrite filter_app, map_app.
        apply Hsent.
      * destruct out as [[| | |]| |]; try assumption.
        { destruct Hout as [Hout _]. split; [assumption | discriminate]. }
        { destruct Hout as [Hout|[Hout _]]; [now left|].
          right. split; [assumption | discriminate]. }
  - injection H as <- <-. exists [], (Interrupt :: rest). cbn.
    rewrite List.app_nil_r. repeat split; try constructor. reflexivity.
Qed.

End Service.

(** X21.  What a conversation sends.  When [test_agent] gets as far as
    the conversation, the lines it read before the one that ended it are
    none of them exit or quit, and the messages sent are exactly those of
    these lines that are not blank, stripped, in the order typed, each
    addressed to the agent named.  The conversation ends at the first
    line that is exit or quit in any case, at an interrupt, at the end of
    the input, or with the message on which the call failed; what was
    typed after that is left unread. *)
Theorem test_agent_sends_what_was_typed (St Response : Type)
    (agents_get :
       string -> string -> St ->
       (exc + option AgentBuilder.AgentObject) * St)
    (get_openai_client : string -> St -> (exc + unit) * St)
    (responses_create :
       string -> string -> string -> St -> (exc + Response) * St)
    (agent_name endpoint : string) (w w' : world (chat St))
    (how : chat_end) :
  test_agent agents_get get_openai_client responses_create agent_name
    endpoint w
  = (Return (Conversation how), w') ->
  exists (typed : list string) (tail : list tty_input),
    stdin w = (map Line typed ++ tail)%list
    /\ Forall (fun l => lower (strip l) <> "exit"
                        /\ lower (strip l) <> "quit") typed
    /\ sent (env w')
       = (sent (env w)
          ++ map (fun m => {| agent := agent_name; content := m |})
               (filter (fun m => negb (String.eqb m ""))
                  (map strip typed)))%list
    /\ match how with
       | Goodbye =>
           exists l, tail = Line l :: stdin w'
                     /\ (lower (strip l) = "exit"
                         \/ lower (strip l) = "quit")
       | EndOfInput => tail = [] /\ stdin w' = []
       | Interrupted =>
           tail = Interrupt :: stdin w'
           \/ (tail = stdin w' /\ typed <> [])
       | ChatFailed _ => tail = stdin w' /\ typed <> []
       end.
Proof.
  unfold test_agent. intros H.
  destruct (agents_get endpoint agent_name (service (env w)))
    as [[e|[o|]] s1].
  - destruct (is_exception e); discriminate.
  - destruct (get_openai_client endpoint s1) as [[e|u] s2].
    + destruct (is_exception e); discriminate.
    + cbn [stdin env] in H.
      destruct (chat_loop _ _ _ _ _) as [[h|e|c] w3] eqn:L;
        try discriminate.
      injection H as <- <-.
      apply chat_loop_sends in L as (typed & tail & Hp & Hq & Hs & Hout).
      exists typed, tail. cbn [sent] in Hs.
      split; [assumption|]. split; [assumption|]. split; [assumption|].
      destruct h; exact Hout.
  - cbn in H. discriminate.
Qed.

Lemma test_agent_sends_what_was_typed_witness :
  exists (typed : list string) (tail : list tty_input),
    [Line " hi "; Line ""; Line "boom"; Line "later"]
    = (map Line typed ++ tail)%list
    /\ tail = [Line "later"]
    /\ [{| agent := "bot"; content := "hi" |};
        {| agent := "bot"; content := "boom" |}]
       = map (fun m => {| agent := "bot"; content := m |})
           (filter (fun m => negb (String.eqb m "")) (map strip typed)).
Proof.
  destruct (@test_agent_sends_what_was_typed unit string echo_agents_get
              echo_get_openai_client echo_responses_create "bot"
              "https://res.services.ai.azure.com/api/projects/proj"
              {| stdin := [Line " hi "; Line ""; Line "boom"; Line "later"];
                 env := {| sent := []; service := tt |} |}
              {| stdin := [Line "later"];
                 env := {| sent := [{| agent := "bot"; content := "hi" |};
                                    {| agent := "bot"; content := "boom" |}];
                           service := tt |} |}
              (ChatFailed (SdkError "boom")) eq_refl)
    as (typed & tail & Hp & _ & Hs & Ht & _).
  exists typed, tail. repeat split; assumption.
Defined.


End ChatExtras.

(* ================================================================== *)
(** * The listings of the discovery *)
(* ================================================================== *)

Module DiscoveryExtras.
Import Py Prog PyFacts Discovery.

Lemma split_not_nil (sep : ascii) (s : string) : split sep s <> [].
Proof.
  destruct s as [|c s]; cbn [split]; [discriminate|].
  destruct (Ascii.eqb c sep); [discriminate|].
  destruct (split sep s); discriminate.
Qed.

Lemma split_one (sep : ascii) (s : string) :
  forall a, split sep s = [a] ->
            s = a /\ all_chars (fun c => negb (Ascii.eqb c sep)) a = true.
Proof.
  induction s as [|c s IH]; intros a H; cbn [split] in H.
  - injection H as <-. now split.
  - destruct (Ascii.eqb c sep) eqn:C.
    + injection H as _ H. now apply split_not_nil in H.
    + destruct (split sep s) as [|h t] eqn:S;
        [now apply split_not_nil in S|].
      injection H as <- ->. destruct (IH h eq_refl) as [-> Hh].
      split; [reflexivity|]. cbn. now rewrite C, Hh.
Qed.

Lemma split_two (sep : ascii) (s : string) :
  forall a b, split sep s = [a; b] ->
              s = a ++ String sep b
              /\ all_chars (fun c => negb (Ascii.eqb c sep)) a = true
              /\ all_chars (fun c => negb (Ascii.eqb c sep)) b = true.
Proof.
  induction s as [|c s IH]; intros a b H; cbn [split] in H;
    [discriminate|].
  destruct (Ascii.eqb_spec c sep) as [->|C].
  - injection H as <- H. apply split_one in H as [-> Hb]. now split.
  - destruct (split sep s) as [|h t] eqn:S; [discriminate|].
    injection H as <- ->. destruct (IH h b eq_refl) as (-> & Hh & Hb).
    split; [reflexivity|]. split; [|assumption].
    cbn. rewrite Hh. now destruct (Ascii.eqb_spec c sep).
Qed.

Lemma lower_char_idem (c : ascii) : lower_char (lower_char c) = lower_char c.
Proof.
  destruct c as [[] [] [] [] [] [] [] []]; reflexivity.
Qed.

Lemma lower_idem (s : string) : lower (lower s) = lower s.
Proof.
  induction s as [|c s IH]; [reflexivity|].
  cbn [lower]. now rewrite lower_char_idem, IH.
Qed.

Lemma lower_empty (s : string) :
  String.eqb (lower s) "" = String.eqb s "".
Proof. now destruct s. Qed.

(** What the loop appends comes from an entry, for which the body gave
    it. *)
Lemma collect_sound (A : Type) (f : value -> exc + option A)
    (entries : list value) :
  forall l, collect f entries = inr l ->
            Forall (fun a => exists x, In x entries /\ f x = inr (Some a)) l.
Proof.
  induction entries as [|x rest IH]; intros l H; cbn [collect] in H.
  - injection H as <-. constructor.
  - destruct (f x) as [e|o] eqn:F; [discriminate|].
    destruct (collect f rest) as [e|l'] eqn:C; [discriminate|].
    injection H as <-.
    assert (Hrest : Forall (fun a => exists y, In y (x :: rest)
                                               /\ f y = inr (Some a)) l').
    { eapply Forall_impl; [|exact (IH l' eq_refl)].
      intros a (y & Hy & Fy). exists y. split; [now right | assumption]. }
    destruct o as [a|]; [|assumption].
    constructor; [|assumption]. exists x. split; [now left | assumption].
Qed.

(** What the body of the loop of [list_projects] gives for an entry. *)
Lemma project_of_Some (filter_term : string) (entry : value)
    (p : ListedProject) :
  project_of filter_term entry = inr (Some p) ->
  subscript entry "fullName"
  = inr (PyStr (project_resource_name p ++ "/" ++ project_name p))
  /\ no_slash (project_resource_name p) = true
  /\ no_slash (project_name p) = true
  /\ subscript entry "rg" = inr (project_resource_group p)
  /\ subscript entry "loc" = inr (project_location p)
  /\ (filter_term <> "" -> project_matches filter_term p = true).
Proof.
  unfold project_of. intros H.
  destruct (subscript entry "fullName") as [e|full]; [discriminate|].
  destruct full as [| | | | |full| |]; try discriminate.
  cbn [str_split] in H.
  destruct (split "/" full) as [|a [|b [|c t]]] eqn:S; try discriminate.
  apply split_two in S as (-> & Ha & Hb).
  destruct (String.eqb_spec filter_term "") as [->|Hf]; cbn [negb] in H.
  - destruct (subscript entry "rg") as [e|g]; [discriminate|].
    destruct (subscript entry "loc") as [e|l]; [discriminate|].
    injection H as <-. cbn. repeat split; try assumption. now intros N.
  - destruct (negb (contains (lower filter_term) (lower a))
              && negb (contains (lower filter_term) (lower b))) eqn:M.
    + destruct (subscript entry "rg") as [e|g]; [discriminate|].
      destruct (str_lower g) as [e|gl] eqn:G; [discriminate|].
      destruct (contains (lower filter_term) gl) eqn:Cg; [|discriminate].
      cbn [negb] in H.
      destruct (subscript entry "loc") as [e|l]; [discriminate|].
      injection H as <-. cbn. repeat split; try assumption.
      intros _. unfold project_matches. cbn.
      destruct g; try discriminate. injection G as <-.
      rewrite Cg. now rewrite !orb_true_r.
    + destruct (subscript entry "rg") as [e|g]; [discriminate|].
      destruct (subscript entry "loc") as [e|l]; [discriminate|].
      injection H as <-. cbn. repeat split; try assumption.
      intros _. unfold project_matches. cbn.
      apply andb_false_iff in M as [M|M]; apply negb_false_iff in M;
        rewrite M; [reflexivity | now rewrite orb_true_r].
Qed.

(** The body of the loop with a filter, against the body without. *)
Lemma project_of_filter (filter_term : string) (entry : value)
    (o o0 : option ListedProject) :
  project_of filter_term entry = inr o ->
  project_of "" entry = inr o0 ->
  o = match o0 with
      | Some p =>
          if String.eqb filter_term "" || project_matches filter_term p
          then Some p else None
      | None => None
      end.
Proof.
  unfold project_of. intros H H0.
  destruct (subscript entry "fullName") as [e|full]; [discriminate|].
  destruct (str_split full) as [e|[|a [|b [|c t]]]]; try discriminate;
    try (now injection H as <-; injection H0 as <-).
  destruct (String.eqb_spec filter_term "") as [->|Hf].
  - cbn [negb String.eqb] in H, H0. rewrite H in H0.
    injection H0 as <-. now destruct o.
  - cbn [negb String.eqb] in H, H0.
    destruct (subscript entry "rg") as [e|g].
    { destruct (negb _ && negb _); discriminate. }
    destruct (subscript entry "loc") as [e|l]; [discriminate|].
    injection H0 as <-. unfold project_matches. cbn.
    destruct (contains (lower filter_term) (lower a)); cbn in H |- *;
      [now injection H as <-|].
    destruct (contains (lower filter_term) (lower b)); cbn in H |- *;
      [now injection H as <-|].
    destruct g; try discriminate. cbn in H.
    destruct (contains (lower filter_term) (lower s)); cbn in H;
      now injection H as <-.
Qed.

Lemma collect_project_filter (filter_term : string) (entries : list value) :
  forall l all,
  collect (project_of filter_term) entries = inr l ->
  collect (project_of "") entries = inr all ->
  l = filter (fun p => String.eqb filter_term ""
                       || project_matches filter_term p) all.
Proof.
  induction entries as [|x rest IH]; intros l all H H0;
    cbn [collect] in H, H0.
  - injection H as <-. now injection H0 as <-.
  - destruct (project_of filter_term x) as [e|o] eqn:F; [discriminate|].
    destruct (project_of "" x) as [e|o0] eqn:F0; [discriminate|].
    destruct (collect (project_of filter_term) rest) as [e|l'];
      [discriminate|].
    destruct (collect (project_of "") rest) as [e|all']; [discriminate|].
    injection H as <-. injection H0 as <-.
    rewrite (project_of_filter _ _ F F0), (IH l' all' eq_refl eq_refl).
    destruct o0 as [p|]; [|reflexivity].
    cbn [filter]. now destruct (String.eqb filter_term "" || _).
Qed.

Lemma project_of_lower (filter_term : string) (entry : value) :
  project_of (lower filter_term) entry = project_of filter_term entry.
Proof.
  unfold project_of. now rewrite lower_idem, lower_empty.
Qed.

Lemma collect_ext (A : Type) (f g : value -> exc + option A)
    (entries : list value) :
  (forall x, f x = g x) -> collect f entries = collect g entries.
Proof.
  intros H. induction entries as [|x rest IH]; [reflexivity|].
  cbn [collect]. now rewrite H, IH.
Qed.

(** X23.  What [list_projects] lists.  When it returns a list, the [az]
    query ended with status 0 and its output could be loaded and gone
    through, and every project listed comes from an entry of that output:
    the entry's full name is the resource name, a slash and the project
    name, neither of which holds a slash, and the resource group and the
    location are the entry's.  With a filter term, every project listed
    holds the term. *)
Theorem list_projects_sound (E : Type)
    (subprocess_run : list string -> E -> (exc + CompletedProcess) * E)
    (json_loads : string -> option value)
    (filter_term : string) (e e' : E) (l : list ListedProject) :
  list_projects subprocess_run json_loads filter_term e = (inr l, e') ->
  exists result entries,
    subprocess_run ("az" :: projects_query) e = (inr result, e')
    /\ returncode result = 0
    /\ entries_of json_loads (stdout result) = inr entries
    /\ Forall
         (fun p =>
            (exists entry,
               In entry entries
               /\ subscript entry "fullName"
                  = inr (PyStr (project_resource_name p ++ "/"
                                ++ project_name p))
               /\ subscript entry "rg" = inr (project_resource_group p)
               /\ subscript entry "loc" = inr (project_location p))
            /\ no_slash (project_resource_name p) = true
            /\ no_slash (project_name p) = true
            /\ (filter_term <> "" -> project_matches filter_term p = true))
         l.
Proof.
  unfold list_projects, _run_az. intros H.
  destruct (subprocess_run ("az" :: projects_query) e) as [[x|result] e1];
    [discriminate|].
  cbn [andb] in H.
  destruct (Z.eqb_spec (returncode result) 0) as [Hrc|_]; [|discriminate].
  cbn [negb] in H.
  destruct (entries_of json_loads (stdout result)) as [x|entries] eqn:En;
    [discriminate|].
  injection H as H <-. exists result, entries.
  repeat split; try assumption.
  eapply Forall_impl; [|exact (collect_sound _ _ H)].
  intros p (entry & Hin & Hp).
  apply project_of_Some in Hp as (Hfull & Hr & Hn & Hg & Hl & Hm).
  repeat split; try assumption. now exists entry.
Qed.

Lemma list_projects_sound_witness :
  exists result entries,
    example_subprocess_run ("az" :: projects_query) tt = (inr result, tt)
    /\ returncode result = 0
    /\ entries_of example_json_loads (stdout result) = inr entries
    /\ Forall
         (fun p =>
            (exists entry,
               In entry entries
               /\ subscript entry "fullName"
                  = inr (PyStr (project_resource_name p ++ "/"
                                ++ project_name p))
               /\ subscript entry "rg" = inr (project_resource_group p)
               /\ subscript entry "loc" = inr (project_location p))
            /\ no_slash (project_resource_name p) = true
            /\ no_slash (project_name p) = true
            /\ ("MAIN" <> "" -> project_matches "MAIN" p = true))
         [{| project_name := "proj"; project_resource_name := "res";
             project_resource_group := PyStr "RG-Main";
             project_location := PyStr "swedencentral" |}].
Proof.
  apply (@list_projects_sound unit example_subprocess_run
           example_json_loads "MAIN" tt tt).
  reflexivity.
Defined.

(** X24.  What the filter of [list_projects] does.  The filter term is
    not part of the query: when the listing with the term and the listing
    without both return, the first is the second restricted to the
    projects that hold the term, whatever the case of the letters, in
    their resource name, their name or their resource group, in the same
    order.  The case of the letters of the term itself does not matter
    either. *)
Theorem list_projects_filter (E : Type)
    (subprocess_run : list string -> E -> (exc + CompletedProcess) * E)
    (json_loads : string -> option value)
    (filter_term : string) (e e' e'' : E) (l all : list ListedProject) :
  list_projects subprocess_run json_loads filter_term e = (inr l, e') ->
  list_projects subprocess_run json_loads "" e = (inr all, e'') ->
  l = filter (fun p => String.eqb filter_term ""
                       || project_matches filter_term p) all
  /\ e' = e''
  /\ list_projects subprocess_run json_loads (lower filter_term) e
     = (inr l, e').
Proof.
  intros H H0.
  assert (Hlow : list_projects subprocess_run json_loads (lower filter_term) e
                 = (inr l, e')).
  { rewrite <- H. unfold list_projects.
    destruct (_run_az subprocess_run projects_query true e)
      as [[x|result] e1]; [reflexivity|].
    destruct (entries_of json_loads (stdout result)); [reflexivity|].
    f_equal. apply collect_ext. apply project_of_lower. }
  unfold list_projects in H, H0.
  destruct (_run_az subprocess_run projects_query true e)
    as [[x|result] e1]; [discriminate|].
  destruct (entries_of json_loads (stdout result)) as [x|entries];
    [discriminate|].
  injection H as H <-. injection H0 as H0 <-.
  split; [now apply (collect_project_filter _ _ H H0)|].
  split; [reflexivity | assumption].
Qed.

Lemma list_projects_filter_witness :
  [{| project_name := "proj"; project_resource_name := "res";
      project_resource_group := PyStr "RG-Main";
      project_location := PyStr "swedencentral" |}]
  = filter (fun p => String.eqb "MAIN" "" || project_matches "MAIN" p)
      [{| project_name := "proj"; project_resource_name := "res";
          project_resource_group := PyStr "RG-Main";
          project_location := PyStr "swedencentral" |};
       {| project_name := "demo"; project_resource_name := "other";
          project_resource_group := PyStr "rg-test";
          project_location := PyStr "eastus" |}].
Proof.
  apply (@list_projects_filter unit example_subprocess_run
           example_json_loads "MAIN" tt tt tt);
    reflexivity.
Defined.

(** A loop whose body never passes over an entry appends one item for
    every entry, in order. *)
Lemma collect_all (A : Type) (f : value -> exc + option A)
    (P : value -> A -> Prop) (entries : list value) :
  (forall x o, f x = inr o -> exists a, o = Some a /\ P x a) ->
  forall l, collect f entries = inr l -> Forall2 P entries l.
Proof.
  intros Hf. induction entries as [|x rest IH]; intros l H;
    cbn [collect] in H.
  - injection H as <-. constructor.
  - destruct (f x) as [e|o] eqn:F; [discriminate|].
    destruct (collect f rest) as [e|l'] eqn:C; [discriminate|].
    injection H as <-. destruct (Hf x o F) as (a & -> & Pa).
    constructor; [assumption | now apply IH].
Qed.

Lemma resource_of_Some (filter_term : string) (entry : value)
    (r : AzureResource) :
  resource_of filter_term entry = inr (Some r) ->
  subscript entry "name" = inr (name r)
  /\ subscript entry "rg" = inr (resource_group r)
  /\ subscript entry "loc" = inr (location r)
  /\ (filter_term <> "" ->
      exists n, name r = PyStr n
                /\ (contains (lower filter_term) (lower n) = true
                    \/ exists g, resource_group r = PyStr g
                                 /\ contains (lower filter_term) (lower g)
                                    = true)).
Proof.
  unfold resource_of. intros H.
  destruct (subscript entry "name") as [e|n];
    [now destruct (negb (String.eqb filter_term ""))|].
  destruct (String.eqb_spec filter_term "") as [->|Hf]; cbn [negb] in H.
  - destruct (subscript entry "rg") as [e|g]; [discriminate|].
    destruct (subscript entry "loc") as [e|l]; [discriminate|].
    injection H as <-. cbn. repeat split. now intros N.
  - destruct (str_lower n) as [e|nl] eqn:N; [discriminate|].
    destruct n as [| | | | |ns| |]; try discriminate. injection N as <-.
    destruct (contains (lower filter_term) (lower ns)) eqn:Cn; cbn [negb] in H.
    + destruct (subscript entry "rg") as [e|g]; [discriminate|].
      destruct (subscript entry "loc") as [e|l]; [discriminate|].
      injection H as <-. cbn. repeat split. intros _.
      exists ns. split; [reflexivity | now left].
    + destruct (subscript entry "rg") as [e|g]; [discriminate|].
      destruct (str_lower g) as [e|gl] eqn:G; [discriminate|].
      destruct g as [| | | | |gs| |]; try discriminate. injection G as <-.
      destruct (contains (lower filter_term) (lower gs)) eqn:Cg;
        [|discriminate].
      cbn [negb] in H.
      destruct (subscript entry "loc") as [e|l]; [discriminate|].
      injection H as <-. cbn. repeat split. intros _.
      exists ns. split; [reflexivity|]. right. now exists gs.
Qed.

(** X25.  What [list_resources] lists.  When it returns a list, the query
    ended with status 0, and every resource listed has the name, the
    resource group and the location of an entry of the output.  With a
    filter term, the name of every resource listed is a text, and the term
    is held, whatever the case of the letters, by that name or by the
    resource group; without one, there is one resource for every entry,
    in the order of the entries. *)
Theorem list_resources_sound (E : Type)
    (subprocess_run : list string -> E -> (exc + CompletedProcess) * E)
    (json_loads : string -> option value)
    (filter_term : string) (e e' : E) (l : list AzureResource) :
  list_resources subprocess_run json_loads filter_term e = (inr l, e') ->
  exists result entries,
    subprocess_run ("az" :: resources_query) e = (inr result, e')
    /\ returncode result = 0
    /\ entries_of json_loads (stdout result) = inr entries
    /\ Forall
         (fun r =>
            (exists entry,
               In entry entries
               /\ subscript entry "name" = inr (name r)
               /\ subscript entry "rg" = inr (resource_group r)
               /\ subscript entry "loc" = inr (location r))
            /\ (filter_term <> "" ->
                exists n,
                  name r = PyStr n
                  /\ (contains (lower filter_term) (lower n) = true
                      \/ exists g,
                           resource_group r = PyStr g
                           /\ contains (lower filter_term) (lower g)
                              = true)))
         l
    /\ (filter_term = "" ->
        Forall2
          (fun entry r =>
             subscript entry "name" = inr (name r)
             /\ subscript entry "rg" = inr (resource_group r)
             /\ subscript entry "loc" = inr (location r))
          entries l).
Proof.
  unfold list_resources, _run_az. intros H.
  destruct (subprocess_run ("az" :: resources_query) e) as [[x|result] e1];
    [discriminate|].
  cbn [andb] in H.
  destruct (Z.eqb_spec (returncode result) 0) as [Hrc|_]; [|discriminate].
  cbn [negb] in H.
  destruct (entries_of json_loads (stdout result)) as [x|entries] eqn:En;
    [discriminate|].
  injection H as H <-. exists result, entries.
  split; [reflexivity|]. split; [assumption|]. split; [exact En|]. split.
  - eapply Forall_impl; [|exact (collect_sound _ _ H)].
    intros r (entry & Hin & Hr).
    apply resource_of_Some in Hr as (Hn & Hg & Hl & Hm).
    split; [now exists entry | assumption].
  - intros ->. eapply collect_all; [|exact H].
    intros x o Hx. unfold resource_of in Hx. cbn [negb String.eqb] in Hx.
    destruct (subscript x "name") as [?|n]; [discriminate|].
    destruct (subscript x "rg") as [?|g]; [discriminate|].
    destruct (subscript x "loc") as [?|lo]; [discriminate|].
    injection Hx as <-. eexists. split; [reflexivity|]. now cbn.
Qed.

Lemma list_resources_sound_witness :
  exists result entries,
    resources_subprocess_run ("az" :: resources_query) tt = (inr result, tt)
    /\ returncode result = 0
    /\ entries_of resources_json_loads (stdout result) = inr entries
    /\ Forall
         (fun r =>
            (exists entry,
               In entry entries
               /\ subscript entry "name" = inr (name r)
               /\ subscript entry "rg" = inr (resource_group r)
               /\ subscript entry "loc" = inr (location r))
            /\ ("hub" <> "" ->
                exists n,
                  name r = PyStr n
                  /\ (contains (lower "hub") (lower n) = true
                      \/ exists g,
                           resource_group r = PyStr g
                           /\ contains (lower "hub") (lower g) = true)))
         [{| name := PyStr "AI-Hub"; resource_group := PyStr "rg-main";
             location := PyStr "swedencentral" |}]
    /\ ("hub" = "" ->
        Forall2
          (fun entry r =>
             subscript entry "name" = inr (name r)
             /\ subscript entry "rg" = inr (resource_group r)
             /\ subscript entry "loc" = inr (location r))
          entries
          [{| name := PyStr "AI-Hub"; resource_group := PyStr "rg-main";
              location := PyStr "swedencentral" |}]).
Proof.
  apply (@list_resources_sound unit resources_subprocess_run
           resources_json_loads "hub" tt tt).
  reflexivity.
Defined.

Lemma or_empty_not_none (v : value) : or_empty v <> PyNone.
Proof.
  unfold or_empty. destruct v; cbn; try discriminate.
  - now destruct b.
  - now destruct (negb (z =? 0)).
  - now destruct (negb (Qeq_bool q 0)).
  - now destruct (negb (String.eqb s ""))%string.
  - now destruct l.
  - now destruct d.
Qed.

(** X26.  What [list_deployments] lists.  A query that ends with a status
    other than 0 gives the empty list, not an error.  Otherwise there is
    one deployment for every entry of the output, in order, named as the
    entry, with the entry's model and version when these are true values
    and the empty text otherwise: the model name and the version of a
    listed deployment are never None. *)
Theorem list_deployments_lists (E : Type)
    (subprocess_run : list string -> E -> (exc + CompletedProcess) * E)
    (json_loads : string -> option value)
    (resource_name resource_group : string) (e e' : E)
    (l : list ListedDeployment) :
  list_deployments subprocess_run json_loads resource_name resource_group e
  = (inr l, e') ->
  exists result,
    subprocess_run ("az" :: deployments_query resource_name resource_group) e
    = (inr result, e')
    /\ (returncode result <> 0 -> l = [])
    /\ (returncode result = 0 ->
        exists entries,
          entries_of json_loads
            (if String.eqb (stdout result) "" then "[]" else stdout result)
          = inr entries
          /\ Forall2
               (fun entry d =>
                  subscript entry "name" = inr (deployment_name d)
                  /\ (exists m, subscript entry "model" = inr m
                                /\ model_name d = or_empty m)
                  /\ (exists v, subscript entry "version" = inr v
                                /\ version d = or_empty v))
               entries l)
    /\ Forall (fun d => model_name d <> PyNone /\ version d <> PyNone) l.
Proof.
  unfold list_deployments, _run_az. intros H.
  destruct (subprocess_run
              ("az" :: deployments_query resource_name resource_group) e)
    as [[x|result] e1]; [discriminate|].
  cbn [andb] in H. exists result.
  destruct (Z.eqb_spec (returncode result) 0) as [Hrc|Hrc]; cbn [negb] in H.
  - destruct (entries_of json_loads _) as [x|entries] eqn:En; [discriminate|].
    injection H as H <-.
    assert (Hall : Forall2
               (fun entry d =>
                  subscript entry "name" = inr (deployment_name d)
                  /\ (exists m, subscript entry "model" = inr m
                                /\ model_name d = or_empty m)
                  /\ (exists v, subscript entry "version" = inr v
                                /\ version d = or_empty v))
               entries l).
    { eapply collect_all; [|exact H]. intros x o Hx.
      unfold deployment_of in Hx.
      destruct (subscript x "name") as [?|n]; [discriminate|].
      destruct (subscript x "model") as [?|m]; [discriminate|].
      destruct (subscript x "version") as [?|v]; [discriminate|].
      injection Hx as <-. eexists. split; [reflexivity|]. cbn.
      split; [reflexivity|]. split; eexists; split; reflexivity. }
    split; [reflexivity|]. split; [now intros N|].
    split; [intros _; now exists entries|].
    clear H En. induction Hall as [|x d xs ds (_ & (m & _ & Hm) & (v & _ & Hv))
                                     _ IH]; constructor; [|assumption].
    rewrite Hm, Hv. split; apply or_empty_not_none.
  - injection H as <- <-.
    split; [reflexivity|]. split; [reflexivity|].
    split; [now intros N | constructor].
Qed.

Lemma list_deployments_lists_witness :
  exists result,
    logged_out_subprocess_run ("az" :: deployments_query "res" "rg") tt
    = (inr result, tt)
    /\ (returncode result <> 0 -> @nil ListedDeployment = []).
Proof.
  destruct (@list_deployments_lists unit logged_out_subprocess_run
              example_json_loads "res" "rg" tt tt [] eq_refl)
    as (result & H1 & H2 & _).
  now exists result.
Defined.

(** X27.  [ensure_logged_in] answers True only when the account query
    shows a login, in which case nothing is asked, or when the user, asked
    once, answered y (in either case, spaces around it apart) and the
    login command then ended with status 0.  The login command is started
    on no other answer. *)
Theorem ensure_logged_in_consent (E : Type)
    (subprocess_run : list string -> E -> (exc + CompletedProcess) * E)
    (subprocess_run_interactive :
       list string -> world E -> (exc + Z) * world E)
    (w w' : world E) :
  ensure_logged_in subprocess_run subprocess_run_interactive w
  = (inr true, w') ->
  (is_logged_in subprocess_run (env w) = (inr true, env w')
   /\ stdin w' = stdin w)
  \/ (exists line rest e1,
        is_logged_in subprocess_run (env w) = (inr false, e1)
        /\ stdin w = Line line :: rest
        /\ lower (strip line) = "y"
        /\ subprocess_run_interactive ["az"; "login"; "--use-device-code"]
             {| stdin := rest; env := e1 |}
           = (inr 0, w')).
Proof.
  unfold ensure_logged_in. intros H.
  destruct (is_logged_in subprocess_run (env w)) as [[x|[|]] e1];
    [discriminate | | ].
  - injection H as <-. now left.
  - right. destruct (stdin w) as [|[line|] rest]; try discriminate.
    destruct (String.eqb_spec (lower (strip line)) "y") as [Hy|_];
      [|discriminate].
    unfold login_device_code in H.
    destruct (subprocess_run_interactive _ _) as [[x|code] w1] eqn:L;
      [discriminate|].
    injection H as Hc <-. apply Z.eqb_eq in Hc. subst code.
    now exists line, rest, e1.
Qed.

Lemma ensure_logged_in_consent_witness :
  (is_logged_in logged_out_subprocess_run tt = (inr true, tt)
   /\ [] = [Line " Y "])
  \/ (exists line rest e1,
        is_logged_in logged_out_subprocess_run tt = (inr false, e1)
        /\ [Line " Y "] = Line line :: rest
        /\ lower (strip line) = "y"
        /\ example_login ["az"; "login"; "--use-device-code"]
             {| stdin := rest; env := e1 |}
           = (inr 0, {| stdin := []; env := tt |})).
Proof.
  apply (@ensure_logged_in_consent unit logged_out_subprocess_run
           example_login {| stdin := [Line " Y "]; env := tt |}
           {| stdin := []; env := tt |}).
  reflexivity.
Defined.

End DiscoveryExtras.
